(** * RogueLike save-file processor (roguelike.py): model and properties

    A shallow embedding of [RogueLike.process_save_file] and
    [RogueLike._try_add_skill].

    Conventions of the model.
    - The save buffer ([bytearray]) is a [list Z] of byte values.
    - Python [int] is [Z]; Python [float] values (rates, thresholds,
      attribute values) are exact rationals [Q]: binary64 rounding is not
      part of the model.
    - The process-wide generator of module [random] is an explicit stream of
      raw draws threaded through every call that consumes randomness.
    - A Python exception that reaches the outer [except Exception] of
      [process_save_file], and every [return False], is the outcome [Abort]:
      the output file is written only after the loop over the characters
      has completed.
    - [self.print] / [self.debug_print] calls are kept as a log of the
      messages that carry data ([event]); purely cosmetic output is left
      out. *)

From Stdlib Require Import String Ascii.
From Stdlib Require Import ZArith List Bool QArith Qround Lia Lqa Permutation.
Import ListNotations.
Open Scope Z_scope.

(** ** Python primitives *)

Module Py.

(** [len(l)] as an integer. *)
Definition len {A} (l : list A) : Z := Z.of_nat (length l).

(** [l[a:b]] for [0 <= a]: clamped at the end of [l], empty when [b <= a].
    Every slice taken by the program starts at a non-negative index. *)
Definition slice {A} (l : list A) (a b : Z) : list A :=
  firstn (Z.to_nat (b - a)) (skipn (Z.to_nat a) l).

(** [l[i]], reading: negative indices count from the end, anything else
    out of range raises [IndexError] ([None]). *)
Definition get {A} (l : list A) (i : Z) : option A :=
  if i <? 0
  then (if len l + i <? 0 then None else nth_error l (Z.to_nat (len l + i)))
  else nth_error l (Z.to_nat i).

(** Replace position [n] of [l]; [None] when [n] is out of range. *)
Fixpoint set_nth {A} (l : list A) (n : nat) (x : A) : option (list A) :=
  match l, n with
  | [], _ => None
  | _ :: t, O => Some (x :: t)
  | h :: t, S n' =>
      match set_nth t n' x with
      | Some t' => Some (h :: t')
      | None => None
      end
  end.

(** [l[i] = x], with the same index rules as [get]. *)
Definition set {A} (l : list A) (i : Z) (x : A) : option (list A) :=
  if i <? 0
  then (if len l + i <? 0 then None else set_nth l (Z.to_nat (len l + i)) x)
  else set_nth l (Z.to_nat i) x.

(** Equality of byte strings ([==] on [bytes] / [bytearray]). *)
Definition bytes_eqb (a b : list Z) : bool :=
  if list_eq_dec Z.eq_dec a b then true else false.

(** [struct.unpack('<i', bs)[0]]: exactly four bytes, little-endian,
    two's complement; [struct.error] ([None]) for any other length. *)
Definition unpack_i32 (bs : list Z) : option Z :=
  match bs with
  | [b0; b1; b2; b3] =>
      let u := Z.lor (Z.lor b0 (Z.shiftl b1 8))
                     (Z.lor (Z.shiftl b2 16) (Z.shiftl b3 24)) in
      Some (if u <? 2 ^ 31 then u else u - 2 ^ 32)
  | _ => None
  end.

(** [struct.pack('<i', x)]: [struct.error] outside the 32-bit signed range. *)
Definition pack_i32 (x : Z) : option (list Z) :=
  if (- 2 ^ 31 <=? x) && (x <? 2 ^ 31)
  then Some [Z.land x 255; Z.land (Z.shiftr x 8) 255;
             Z.land (Z.shiftr x 16) 255; Z.land (Z.shiftr x 24) 255]
  else None.

(** [for i in range(start, stop): if p(i): ...; break]: the first index of
    the range at which [p] holds. *)
Fixpoint first_from (p : Z -> bool) (i : Z) (n : nat) : option Z :=
  match n with
  | O => None
  | S n' => if p i then Some i else first_from p (i + 1) n'
  end.

Definition first_in_range (p : Z -> bool) (start stop : Z) : option Z :=
  first_from p start (Z.to_nat (stop - start)).

(** [int(x)] for a float [x]: truncation toward zero. *)
Definition int_of (x : Q) : Z := Z.quot (Qnum x) (Zpos (Qden x)).

(** [x < y] on floats. *)
Definition Qltb (x y : Q) : bool := negb (Qle_bool y x).

(** The generator: a stream of raw draws and the number consumed so far. *)
Record rng := { raw : nat -> Z; used : nat }.

Definition next_raw (g : rng) : Z * rng :=
  (raw g (used g), {| raw := raw g; used := S (used g) |}).

(** The value [random.randint(a, b)] returns on raw draw [r]: the raw value
    is reduced to the [b - a + 1] integers of [a..b]. *)
Definition randint_value (a b r : Z) : Z := a + r mod (b - a + 1).

(** [random.randint(a, b)]: [ValueError] when the range is empty. *)
Definition randint (a b : Z) (g : rng) : option (Z * rng) :=
  if b <? a then None
  else let (r, g') := next_raw g in Some (randint_value a b r, g').

(** [random.choice(l)]: [IndexError] on an empty sequence. *)
Definition choice {A} (l : list A) (g : rng) : option (A * rng) :=
  match l with
  | [] => None
  | d :: _ =>
      let (r, g') := next_raw g in
      Some (nth (Z.to_nat (r mod len l)) l d, g')
  end.

End Py.

Notation "'let?' x ':=' e 'in' k" :=
  (match e with Some x => k | None => None end)
  (at level 10, x pattern, e at level 100, k at level 200).

(** ** Data model *)

(** One entry of the skill catalog: the [skill_data] dict of [load_config]
    with its keys ['id'], ['name'], ['desc'], ['value'], ['bit']. *)
Module Skill.

Record t := mk { id : Z; name : String.string; desc : String.string;
                 value : Z; bit : Z }.

(** The dict [load_config] builds from one [id;name;description;value]
    line: the bit position is the skill id. *)
Definition skill_data (skill_id : Z) (skill_name skill_desc : String.string)
    (skill_value : Z) : t :=
  {| id := skill_id; name := skill_name; desc := skill_desc;
     value := skill_value; bit := skill_id |}.

(** Dict equality, as used by [skill not in active_skills]. *)
Definition eq_dec (a b : t) : {a = b} + {a <> b}.
Proof.
  decide equality; (apply Z.eq_dec || apply String.string_dec).
Defined.

Definition mem (s : t) (l : list t) : bool :=
  if in_dec eq_dec s l then true else false.

End Skill.

(** The attributes of a [RogueLike] object after [__init__]. *)
Record RogueLike := {
  marshal_skills : list Skill.t;
  commander_skills : list Skill.t;
  personal_skills : list Skill.t;
  debug_mode : bool;
  pick_limit : Z;
  reroll_limit : Z;
  extra_attribute : Z;
  str_rate : Q;
  int_rate : Q;
  random_extra_attribute_min : Z;
  random_extra_attribute_max : Z;
  str_random_rate : Q;
  int_random_rate : Q;
  attribute_thresholds : list Q;
  attribute_rates : list Q;
  exist_attribute_rate : Q;
  last_character_number : Z
}.

(** [__init__] (lines 19-50): the settings before [load_config] overrides
    them; the three catalogs and the debug flag are supplied. *)
Definition init (marshal commander personal : list Skill.t) (debug : bool)
    : RogueLike :=
  {| marshal_skills := marshal;
     commander_skills := commander;
     personal_skills := personal;
     debug_mode := debug;
     pick_limit := 5;
     reroll_limit := 3;
     extra_attribute := 30;
     str_rate := 15 # 10;
     int_rate := 1;
     random_extra_attribute_min := -30;
     random_extra_attribute_max := 30;
     str_random_rate := 1;
     int_random_rate := 1;
     attribute_thresholds := [100 # 1; 130 # 1; 160 # 1; 190 # 1]%Q;
     attribute_rates := [14 # 10; 125 # 100; 11 # 10; 1; 9 # 10]%Q;
     exist_attribute_rate := 7 # 10;
     last_character_number := 831 |}.

(** [load_config], key [last_character_number]. *)
Definition set_last_character_number (self : RogueLike) (n : Z) : RogueLike :=
  {| marshal_skills := marshal_skills self;
     commander_skills := commander_skills self;
     personal_skills := personal_skills self;
     debug_mode := debug_mode self;
     pick_limit := pick_limit self;
     reroll_limit := reroll_limit self;
     extra_attribute := extra_attribute self;
     str_rate := str_rate self;
     int_rate := int_rate self;
     random_extra_attribute_min := random_extra_attribute_min self;
     random_extra_attribute_max := random_extra_attribute_max self;
     str_random_rate := str_random_rate self;
     int_random_rate := int_random_rate self;
     attribute_thresholds := attribute_thresholds self;
     attribute_rates := attribute_rates self;
     exist_attribute_rate := exist_attribute_rate self;
     last_character_number := n |}.

(** The three values of the [skill_type] string. *)
Inductive skill_type := marshal | commander | personal.

(** [all_skills] of [_try_add_skill]: the catalog of one category. *)
Definition all_skills (self : RogueLike) (ty : skill_type) : list Skill.t :=
  match ty with
  | marshal => marshal_skills self
  | commander => commander_skills self
  | personal => personal_skills self
  end.

(** ** Signature scanner (process_save_file, lines 189-317) *)

(** [b'\x4D\x61\x72\x6B\x00'] and [b'\x4D\x61\x72\x6B\x00\x00\x00\x00\x00']. *)
Definition mark_nul : list Z := [0x4D; 0x61; 0x72; 0x6B; 0x00].
Definition mark_nul5 : list Z :=
  [0x4D; 0x61; 0x72; 0x6B; 0x00; 0x00; 0x00; 0x00; 0x00].

(** [struct.pack('<i', expected_char_id)[:2]]. *)
Definition char_id_bytes_of (expected_char_id : Z) : option (list Z) :=
  let? packed := Py.pack_i32 expected_char_id in
  Some (Py.slice packed 0 2).

(** The body of the regular search loop (lines 238-272) at position [i]:
    [true] when no [continue] is taken. *)
Definition strict_match (save_data char_id_bytes : list Z) (i : Z) : bool :=
  if i + 22 >? Py.len save_data then false
  else if negb (Py.bytes_eqb (Py.slice save_data i (i + 2)) char_id_bytes)
  then false
  else if negb (Py.bytes_eqb (Py.slice save_data (i + 4) (i + 9)) mark_nul)
  then false
  else if negb (Py.bytes_eqb (Py.slice save_data (i + 9) (i + 11))
                  char_id_bytes)
  then false
  else if negb (Py.bytes_eqb (Py.slice save_data (i + 13) (i + 22))
                  mark_nul5)
  then false
  else true.

(** The condition of the debug-mode search for character 1 (lines 209-213). *)
Definition debug_match (save_data char_id_bytes : list Z) (i : Z) : bool :=
  Py.bytes_eqb (Py.slice save_data i (i + 2)) char_id_bytes
  && (i + 22 <=? Py.len save_data)
  && Py.bytes_eqb (Py.slice save_data (i + 4) (i + 9)) mark_nul
  && Py.bytes_eqb (Py.slice save_data (i + 9) (i + 11)) char_id_bytes
  && Py.bytes_eqb (Py.slice save_data (i + 13) (i + 22)) mark_nul5.

(** The relaxed test of the final attempt for character 1 (lines 285-306). *)
Definition relaxed_match (save_data char_id_bytes : list Z) (i : Z) : bool :=
  if i + 22 >? Py.len save_data then false
  else if Py.bytes_eqb (Py.slice save_data i (i + 2)) char_id_bytes then
    if ((i + 4 <? Py.len save_data)
        && Py.bytes_eqb (Py.slice save_data (i + 4) (i + 9)) mark_nul)
       || ((i + 13 <? Py.len save_data)
           && Py.bytes_eqb (Py.slice save_data (i + 13) (i + 18)) mark_nul)
    then
      match Py.first_in_range
              (fun j => Py.bytes_eqb (Py.slice save_data j (j + 2))
                          char_id_bytes)
              (i + 2) (Z.min (i + 20) (Py.len save_data - 2)) with
      | Some _ => true
      | None => false
      end
    else false
  else false.

(** [max_search_position] of the regular search (lines 226-234). *)
Definition max_search_position (save_data : list Z)
    (search_position expected_char_id : Z) : Z :=
  if expected_char_id =? 1 then Py.len save_data - 25
  else
    let m := search_position + 1200 in
    if m >? Py.len save_data - 25 then Py.len save_data - 25 else m.

(** What the search for one character id ends with. *)
Inductive located :=
| Found (pattern_pos : Z)
| Missing          (* an id other than 1 was not found: [continue] *)
| NoFirstCharacter (* character 1 was not found: [return False] *).

(** Lines 194-317: debug search, regular search, final attempt. *)
Definition locate (debug : bool) (save_data : list Z)
    (search_position expected_char_id : Z) (char_id_bytes : list Z)
    : located :=
  let debug_hit :=
    if (expected_char_id =? 1) && debug
    then Py.first_in_range (debug_match save_data char_id_bytes)
           search_position (Py.len save_data - 30)
    else None in
  let hit :=
    match debug_hit with
    | Some i => Some i
    | None =>
        Py.first_in_range (strict_match save_data char_id_bytes)
          search_position
          (max_search_position save_data search_position expected_char_id)
    end in
  match hit with
  | Some i => Found i
  | None =>
      if expected_char_id =? 1 then
        match Py.first_in_range (relaxed_match save_data char_id_bytes)
                search_position (Py.len save_data - 25) with
        | Some i => Found i
        | None => NoFirstCharacter
        end
      else Missing
  end.

(** ** Field resolver (lines 326-338 and 481-483) *)

Record fields := {
  skip_value : Z;
  strength_offset : Z;
  intelligence_offset : Z;
  personal_offset : Z;
  commander_offset : Z;
  marshal_offset : Z
}.

Definition resolve_fields (save_data : list Z) (char_offset : Z)
    : option fields :=
  let pattern_end := char_offset + 22 in
  let? skip := Py.unpack_i32 (Py.slice save_data pattern_end (pattern_end + 4)) in
  let strength_offset0 := pattern_end + 4 in
  let strength_off :=
    if skip >? 0 then strength_offset0 + skip * 4 else strength_offset0 in
  Some {| skip_value := skip;
          strength_offset := strength_off;
          intelligence_offset := strength_off + 4;
          personal_offset := strength_off + 0x28C;
          commander_offset := strength_off + 0x29C;
          marshal_offset := strength_off + 0x2AC |}.

Definition skill_offset (f : fields) (ty : skill_type) : Z :=
  match ty with
  | marshal => marshal_offset f
  | commander => commander_offset f
  | personal => personal_offset f
  end.

(** ** Skill bitfield codec *)

(** [max(l)] of a list of integers; [ValueError] on the empty list. *)
Definition max_of (l : list Z) : option Z :=
  match l with
  | [] => None
  | x :: t => Some (fold_left Z.max t x)
  end.

(** Lines 492-494: [(max([skill['id'] for skill in skills]) + 7) // 8]. *)
Definition bytes_needed (skills : list Skill.t) : option Z :=
  let? m := max_of (map Skill.id skills) in
  Some ((m + 7) / 8).

(** The test [skill_bytes[byte_index] & (1 << bit_position)] as a truth
    value. *)
Definition bit_is_set (b bit_position : Z) : bool :=
  negb (Z.land b (Z.shiftl 1 bit_position) =? 0).

(** Lines 520-551: the catalog entries whose bit is set in [skill_bytes],
    in catalog order. *)
Fixpoint decode (skills : list Skill.t) (skill_bytes : list Z)
    : option (list Skill.t) :=
  match skills with
  | [] => Some []
  | skill :: rest =>
      if Skill.value skill =? -1 then decode rest skill_bytes
      else
        let byte_index := Skill.bit skill / 8 in
        let bit_position := Skill.bit skill mod 8 in
        if byte_index <? Py.len skill_bytes then
          let? b := Py.get skill_bytes byte_index in
          let? active := decode rest skill_bytes in
          Some (if bit_is_set b bit_position then skill :: active else active)
        else decode rest skill_bytes
  end.

(** Lines 750-758 of [_try_add_skill]: grow [skill_bytes] with zero bytes
    up to [byte_index], then set the bit. The bit position is below 8, so
    a byte value stays a byte value and the assignment cannot raise
    [ValueError]; [None] is the [IndexError] of a negative index into an
    empty byte string. *)
Definition encode (skill_bytes : list Z) (skill : Skill.t)
    : option (list Z) :=
  let byte_index := Skill.bit skill / 8 in
  let bit_position := Skill.bit skill mod 8 in
  let grown :=
    skill_bytes
    ++ repeat 0 (Z.to_nat (byte_index + 1 - Py.len skill_bytes)) in
  let? b := Py.get grown byte_index in
  Py.set grown byte_index (Z.lor b (Z.shiftl 1 bit_position)).

(** ** Attribute budget allocator *)

(** [available_skills] of [_try_add_skill] (line 733). *)
Definition available_skills (all : list Skill.t) (active_skills : list Skill.t)
    : list Skill.t :=
  filter (fun skill => negb (Skill.mem skill active_skills)
                       && negb (Skill.value skill =? -1)) all.

(** What one call of [_try_add_skill] leaves behind: the returned pair
    ([Some skill] for [(True, skill)], [None] for [(False, None)]) and the
    two objects it mutates, [skill_bytes] and [active_skills]. *)
Record try_result := {
  new_skill : option Skill.t;
  skill_bytes_after : list Z;
  active_skills_after : list Skill.t;
  gen_after : Py.rng
}.

(** The [for _ in range(self.pick_limit)] loop (lines 740-767), with [n]
    iterations left. *)
Fixpoint pick_loop (n : nat) (available : list Skill.t)
    (skill_bytes : list Z) (active_skills : list Skill.t)
    (current_attribute max_attribute : Q) (g : Py.rng)
    : option try_result :=
  match n with
  | O => Some {| new_skill := None; skill_bytes_after := skill_bytes;
                 active_skills_after := active_skills; gen_after := g |}
  | S n' =>
      let? (skill, g1) := Py.choice available g in
      if Py.Qltb (max_attribute - current_attribute)
                 (inject_Z (Skill.value skill))
      then pick_loop n' available skill_bytes active_skills
             current_attribute max_attribute g1
      else
        let? skill_bytes' := encode skill_bytes skill in
        Some {| new_skill := Some skill; skill_bytes_after := skill_bytes';
                active_skills_after := active_skills ++ [skill];
                gen_after := g1 |}
  end.

(** [_try_add_skill] (lines 719-770); [None] when an exception escapes. *)
Definition _try_add_skill (self : RogueLike) (ty : skill_type)
    (skill_bytes : list Z) (active_skills : list Skill.t)
    (current_attribute max_attribute : Q) (g : Py.rng)
    : option try_result :=
  let available := available_skills (all_skills self ty) active_skills in
  match available with
  | [] => Some {| new_skill := None; skill_bytes_after := skill_bytes;
                  active_skills_after := active_skills; gen_after := g |}
  | _ :: _ =>
      pick_loop (Z.to_nat (pick_limit self)) available skill_bytes
        active_skills current_attribute max_attribute g
  end.

(** The per-character variables the allocation loop reads and updates. *)
Record alloc := {
  skill_bytes : skill_type -> list Z;
  active_skills : skill_type -> list Skill.t;
  added_skills : skill_type -> list Skill.t;
  current_attribute_value : Q;
  consecutive_failures : Z
}.

Definition skill_type_eqb (a b : skill_type) : bool :=
  match a, b with
  | marshal, marshal | commander, commander | personal, personal => true
  | _, _ => false
  end.

(** Assignment to the variable of category [ty]. *)
Definition upd {A} (f : skill_type -> A) (ty : skill_type) (x : A)
    : skill_type -> A :=
  fun ty' => if skill_type_eqb ty ty' then x else f ty'.

(** Line 586: [max_random]. *)
Definition max_random_of (self : RogueLike) (strength intelligence : Z) : Q :=
  (inject_Z strength * str_random_rate self
   + inject_Z intelligence * int_random_rate self)%Q.

(** Line 594: the upper bound handed to [random.randint],
    [max(1, int(max_random) - 1)]. *)
Definition random_value_bound (max_random : Q) : Z :=
  Z.max 1 (Py.int_of max_random - 1).

(** Line 594: [random_value = random.randint(0, max(1, int(max_random) - 1))]. *)
Definition draw_random_value (max_random : Q) (g : Py.rng)
    : option (Z * Py.rng) :=
  Py.randint 0 (random_value_bound max_random) g.

(** Lines 594-605: the category this iteration tries. *)
Definition choose_skill_type (self : RogueLike) (strength : Z)
    (max_random : Q) (g : Py.rng) : option (skill_type * Py.rng) :=
  let? (random_value, g1) := draw_random_value max_random g in
  if Py.Qltb (inject_Z random_value)
             (inject_Z strength * str_random_rate self)
  then Some (personal, g1)
  else
    let? (r, g2) := Py.randint 0 2 g1 in
    Some (if r =? 0 then marshal else commander, g2).

(** Lines 628-630: every active list is as long as its catalog. *)
Definition all_added (self : RogueLike) (st : alloc) : bool :=
  (Py.len (active_skills st marshal) =? Py.len (marshal_skills self))
  && (Py.len (active_skills st commander) =? Py.len (commander_skills self))
  && (Py.len (active_skills st personal) =? Py.len (personal_skills self)).

(** One iteration of the [while] loop up to the end of the
    [if skill_added: ... else: ...] statement (lines 593-625): the new
    variables, the generator and the value of [skill_added]. *)
Definition alloc_step (self : RogueLike) (strength : Z)
    (max_attribute_value max_random : Q) (st : alloc) (g : Py.rng)
    : option (bool * alloc * Py.rng) :=
  let? (ty, g1) := choose_skill_type self strength max_random g in
  let? r := _try_add_skill self ty (skill_bytes st ty) (active_skills st ty)
              (current_attribute_value st) max_attribute_value g1 in
  let added :=
    match new_skill r with
    | Some s => added_skills st ty ++ [s]
    | None => added_skills st ty
    end in
  let skill_bytes' := upd (skill_bytes st) ty (skill_bytes_after r) in
  let active' := upd (active_skills st) ty (active_skills_after r) in
  let added' := upd (added_skills st) ty added in
  match new_skill r with
  | Some _ =>
      let? last := Py.get (active' ty) (-1) in
      Some (true,
            {| skill_bytes := skill_bytes'; active_skills := active';
               added_skills := added';
               current_attribute_value :=
                 (current_attribute_value st + inject_Z (Skill.value last))%Q;
               consecutive_failures := 0 |},
            gen_after r)
  | None =>
      Some (false,
            {| skill_bytes := skill_bytes'; active_skills := active';
               added_skills := added';
               current_attribute_value := current_attribute_value st;
               consecutive_failures := consecutive_failures st + 1 |},
            gen_after r)
  end.

(** How the [while] loop ends. [steps] lists the value of [skill_added] of
    each iteration, oldest first. *)
Inductive loop_result :=
| Finished (st : alloc) (g : Py.rng) (steps : list bool)
| Raised
| OutOfFuel.

(** The [while consecutive_failures < self.reroll_limit] loop (lines
    592-632), running at most [fuel] iterations. *)
Fixpoint alloc_loop (fuel : nat) (self : RogueLike) (strength : Z)
    (max_attribute_value max_random : Q) (st : alloc) (g : Py.rng)
    (steps : list bool) : loop_result :=
  if consecutive_failures st <? reroll_limit self then
    match fuel with
    | O => OutOfFuel
    | S fuel' =>
        match alloc_step self strength max_attribute_value max_random st g with
        | None => Raised
        | Some (skill_added, st', g') =>
            if all_added self st' then Finished st' g' (steps ++ [skill_added])
            else alloc_loop fuel' self strength max_attribute_value
                   max_random st' g' (steps ++ [skill_added])
        end
    end
  else Finished st g steps.

(** The number of catalog entries of all three categories that can still be
    added. *)
Definition available_count (self : RogueLike) (st : alloc) : nat :=
  length (available_skills (marshal_skills self) (active_skills st marshal))
  + length (available_skills (commander_skills self)
              (active_skills st commander))
  + length (available_skills (personal_skills self)
              (active_skills st personal)).

(** A number of iterations the loop cannot exceed: every iteration either
    adds one available skill or brings [consecutive_failures] one closer to
    [reroll_limit]. *)
Definition alloc_fuel (self : RogueLike) (st : alloc) : nat :=
  (available_count self st * Z.to_nat (reroll_limit self)
   + Z.to_nat (reroll_limit self - consecutive_failures st))%nat.

Definition allocate (self : RogueLike) (strength : Z)
    (max_attribute_value max_random : Q) (st : alloc) (g : Py.rng)
    : loop_result :=
  alloc_loop (alloc_fuel self st) self strength max_attribute_value
    max_random st g [].

(** ** Save file processor *)

(** The messages of [self.print] that carry data. *)
Inductive event :=
| NotFound (char_id : Z)
    (* line 315: "pattern not found, skipping to next character ID" *)
| Processing (char_id char_offset strength_off intelligence_off : Z)
    (* lines 341-342: "Processing Character #.. found at offset ..",
       "Strength value at offset .., Intelligence at .." *)
| ZeroStats (char_id : Z)
    (* line 391: "appears to be empty or invalid (zero stats). Skipping." *)
| CharacterStats (char_id strength intelligence : Z)
    (* line 400: "Character stats - Strength: .., Intelligence: .." *).

(** The variables that live across iterations of the loop over the
    character ids, the generator and the messages printed so far. *)
Record state := {
  save_data : list Z;
  search_position : Z;
  total_skills_added : Z;
  total_characters : Z;
  characters_processed : Z;
  gen : Py.rng;
  log : list event
}.

(** One iteration of the loop over the character ids either goes on to the
    next id ([continue] or the end of the body) or leaves
    [process_save_file] with [False] and no output file. *)
Inductive outcome :=
| Next (st : state)
| Abort.

(** [for i, b in enumerate(bs): save_data[offset + i] = b] (lines 665-674);
    [None] on [IndexError]. *)
Fixpoint write_back (save_data : list Z) (offset : Z) (bs : list Z)
    : option (list Z) :=
  match bs with
  | [] => Some save_data
  | b :: rest =>
      let? save_data' := Py.set save_data offset b in
      write_back save_data' (offset + 1) rest
  end.

(** Lines 575-579: the index of the first threshold above the current
    value, [len(thresholds)] when there is none. *)
Fixpoint rate_index_from (i : Z) (thresholds : list Q)
    (current_attribute_value : Q) : Z :=
  match thresholds with
  | [] => i
  | threshold :: rest =>
      if Py.Qltb current_attribute_value threshold then i
      else rate_index_from (i + 1) rest current_attribute_value
  end.

Definition rate_index (self : RogueLike) (current_attribute_value : Q) : Z :=
  rate_index_from 0 (attribute_thresholds self) current_attribute_value.

(** Line 560: the value of the active skills, scaled by
    [exist_attribute_rate]. *)
Definition active_skill_value (self : RogueLike) (active : list Skill.t) : Q :=
  fold_left Qplus
    (map (fun skill => (inject_Z (Skill.value skill)
                        * exist_attribute_rate self)%Q)
         (filter (fun skill => negb (Skill.value skill =? -1)) active))
    (inject_Z 0).

(** Lines 395-398: both stats are capped when either is out of [0, 1000]. *)
Definition cap_stats (strength intelligence : Z) : Z * Z :=
  if (strength <? 0) || (strength >? 1000)
     || (intelligence <? 0) || (intelligence >? 1000)
  then (Z.min (Z.max 0 strength) 1000, Z.min (Z.max 0 intelligence) 1000)
  else (strength, intelligence).

(** Lines 481-632: decode the three bitfields, compute the budget, run the
    allocation loop. Returns the loop's final variables. *)
Definition allocate_character (self : RogueLike) (save_data : list Z)
    (f : fields) (strength intelligence : Z) (g : Py.rng)
    : option (alloc * Py.rng) :=
  let? marshal_bytes_needed := bytes_needed (marshal_skills self) in
  let? commander_bytes_needed := bytes_needed (commander_skills self) in
  let? personal_bytes_needed := bytes_needed (personal_skills self) in
  let marshal_skill_bytes :=
    Py.slice save_data (marshal_offset f)
      (marshal_offset f + marshal_bytes_needed) in
  let commander_skill_bytes :=
    Py.slice save_data (commander_offset f)
      (commander_offset f + commander_bytes_needed) in
  let personal_skill_bytes :=
    Py.slice save_data (personal_offset f)
      (personal_offset f + personal_bytes_needed) in
  let? active_marshal_skills :=
    decode (marshal_skills self) marshal_skill_bytes in
  let? active_commander_skills :=
    decode (commander_skills self) commander_skill_bytes in
  let? active_personal_skills :=
    decode (personal_skills self) personal_skill_bytes in
  let max_attribute_value0 := inject_Z (233 + extra_attribute self) in
  let active_value :=
    active_skill_value self
      (active_marshal_skills ++ active_commander_skills
       ++ active_personal_skills) in
  let? (random_extra, g1) :=
    Py.randint (random_extra_attribute_min self)
      (random_extra_attribute_max self) g in
  let current :=
    (inject_Z strength * str_rate self
     + inject_Z intelligence * int_rate self
     + inject_Z random_extra + active_value)%Q in
  let? rate := Py.get (attribute_rates self) (rate_index self current) in
  let max_attribute_value := (max_attribute_value0 * rate)%Q in
  let max_random := max_random_of self strength intelligence in
  let st0 :=
    {| skill_bytes := fun ty =>
         match ty with
         | marshal => marshal_skill_bytes
         | commander => commander_skill_bytes
         | personal => personal_skill_bytes
         end;
       active_skills := fun ty =>
         match ty with
         | marshal => active_marshal_skills
         | commander => active_commander_skills
         | personal => active_personal_skills
         end;
       added_skills := fun _ => [];
       current_attribute_value := current;
       consecutive_failures := 0 |} in
  match allocate self strength max_attribute_value max_random st0 g1 with
  | Finished st g' _ => Some (st, g')
  | Raised | OutOfFuel => None
  end.

(** Lines 319-686: everything done for a character found at [pattern_pos]. *)
Definition process_found (self : RogueLike) (st : state)
    (expected_char_id pattern_pos : Z) : outcome :=
  let char_offset := pattern_pos in
  let total_characters' := total_characters st + 1 in
  let search_position' := pattern_pos + 900 in
  match resolve_fields (save_data st) char_offset with
  | None => Abort
  | Some f =>
      let log1 :=
        log st ++ [Processing expected_char_id char_offset
                     (strength_offset f) (intelligence_offset f)] in
      match Py.unpack_i32 (Py.slice (save_data st) (strength_offset f)
                             (strength_offset f + 4)),
            Py.unpack_i32 (Py.slice (save_data st) (intelligence_offset f)
                             (intelligence_offset f + 4)) with
      | Some strength, Some intelligence =>
          if (strength =? 0) && (intelligence =? 0) then
            Next {| save_data := save_data st;
                    search_position := search_position';
                    total_skills_added := total_skills_added st;
                    total_characters := total_characters';
                    characters_processed := characters_processed st;
                    gen := gen st;
                    log := log1 ++ [ZeroStats expected_char_id] |}
          else
            let (strength, intelligence) := cap_stats strength intelligence in
            let log2 :=
              log1 ++ [CharacterStats expected_char_id strength
                         intelligence] in
            match allocate_character self (save_data st) f strength
                    intelligence (gen st) with
            | None => Abort
            | Some (a, g') =>
                let char_skills_added :=
                  Py.len (added_skills a marshal)
                  + Py.len (added_skills a commander)
                  + Py.len (added_skills a personal) in
                match
                  (let? d1 := write_back (save_data st) (marshal_offset f)
                                (skill_bytes a marshal) in
                   let? d2 := write_back d1 (commander_offset f)
                                (skill_bytes a commander) in
                   write_back d2 (personal_offset f)
                     (skill_bytes a personal))
                with
                | None => Abort
                | Some save_data' =>
                    Next {| save_data := save_data';
                            search_position := search_position';
                            total_skills_added :=
                              total_skills_added st + char_skills_added;
                            total_characters := total_characters';
                            characters_processed :=
                              if char_skills_added >? 0
                              then characters_processed st + 1
                              else characters_processed st;
                            gen := g';
                            log := log2 |}
                end
            end
      | _, _ => Abort
      end
  end.

(** The body of [for expected_char_id in range(1, last_character_number + 1)]
    (lines 189-686). *)
Definition process_character (self : RogueLike) (st : state)
    (expected_char_id : Z) : outcome :=
  match char_id_bytes_of expected_char_id with
  | None => Abort
  | Some char_id_bytes =>
      match locate (debug_mode self) (save_data st) (search_position st)
              expected_char_id char_id_bytes with
      | NoFirstCharacter => Abort
      | Missing =>
          Next {| save_data := save_data st;
                  search_position := search_position st;
                  total_skills_added := total_skills_added st;
                  total_characters := total_characters st;
                  characters_processed := characters_processed st;
                  gen := gen st;
                  log := log st ++ [NotFound expected_char_id] |}
      | Found pattern_pos =>
          process_found self st expected_char_id pattern_pos
      end
  end.

(** The loop over the character ids. *)
Fixpoint process_ids (self : RogueLike) (ids : list Z) (st : state)
    : option state :=
  match ids with
  | [] => Some st
  | expected_char_id :: rest =>
      match process_character self st expected_char_id with
      | Abort => None
      | Next st' => process_ids self rest st'
      end
  end.

(** [range(1, n + 1)]. *)
Definition character_ids (n : Z) : list Z :=
  map Z.of_nat (seq 1 (Z.to_nat n)).

Definition initial_state (input : list Z) (g : Py.rng) : state :=
  {| save_data := input; search_position := 0x20000;
     total_skills_added := 0; total_characters := 0;
     characters_processed := 0; gen := g; log := [] |}.

(** [process_save_file]: [None] when the method returns [False]; otherwise
    [save_data] of the final state is what is written to the output file and
    the returned tuple is [(total_characters, characters_processed,
    total_skills_added)]. *)
Definition process_save_file (self : RogueLike) (input : list Z)
    (g : Py.rng) : option state :=
  process_ids self (character_ids (last_character_number self))
    (initial_state input g).


(** ** Further parts of the program *)

(** The [debug_mode] argument of [__init__]. *)
Definition set_debug_mode (self : RogueLike) (debug : bool) : RogueLike :=
  {| marshal_skills := marshal_skills self;
     commander_skills := commander_skills self;
     personal_skills := personal_skills self;
     debug_mode := debug;
     pick_limit := pick_limit self;
     reroll_limit := reroll_limit self;
     extra_attribute := extra_attribute self;
     str_rate := str_rate self;
     int_rate := int_rate self;
     random_extra_attribute_min := random_extra_attribute_min self;
     random_extra_attribute_max := random_extra_attribute_max self;
     str_random_rate := str_random_rate self;
     int_random_rate := int_random_rate self;
     attribute_thresholds := attribute_thresholds self;
     attribute_rates := attribute_rates self;
     exist_attribute_rate := exist_attribute_rate self;
     last_character_number := last_character_number self |}.


(** ** The configuration loader ([load_config], lines 66-159)

    A Python [str] is modelled by the bytes of its UTF-8 encoding (a
    [string]); comparing with a literal, testing for and splitting at an
    ASCII character mean the same on both. The built-in functions the
    loader calls are parameters: [strip] ([str.strip]), [int] and [float]
    ([None] is [ValueError]), [json_loads] ([json.loads]) and [len] on a
    decoded JSON value ([None] is [TypeError]). The attributes of [self]
    are kept by name, as in the object's dictionary. An exception that
    reaches the outer [except Exception] ends the program ([sys.exit(1)]):
    the loader returns [None]. *)
Module Loader.

(** What [json.loads] ends with. *)
Inductive loads_result (J : Type) :=
| Loaded (v : J)
| JSONDecodeError
| OtherError.
Arguments Loaded {J} v.
Arguments JSONDecodeError {J}.
Arguments OtherError {J}.

(** [c in s] for a single character [c]. *)
Fixpoint contains (c : ascii) (s : string) : bool :=
  match s with
  | EmptyString => false
  | String x rest => if Ascii.eqb x c then true else contains c rest
  end.

(** [s.split(c)] for a single character [c]. *)
Fixpoint split (c : ascii) (s : string) : list string :=
  match s with
  | EmptyString => [EmptyString]
  | String x rest =>
      if Ascii.eqb x c then EmptyString :: split c rest
      else match split c rest with
           | h :: t => String x h :: t
           | [] => [String x EmptyString]
           end
  end.

(** [s.split(c, 1)] when [c] occurs in [s]: the text before the first [c]
    and the text after it. *)
Fixpoint split_once (c : ascii) (s : string) : option (string * string) :=
  match s with
  | EmptyString => None
  | String x rest =>
      if Ascii.eqb x c then Some (EmptyString, rest)
      else match split_once c rest with
           | Some (k, v) => Some (String x k, v)
           | None => None
           end
  end.

(** The UTF-8 bytes of a text. *)
Definition of_bytes (l : list Z) : string :=
  string_of_list_ascii (map (fun b => ascii_of_nat (Z.to_nat b)) l).

(** The section headers of lines 80, 83 and 86: U+5143 U+5E25,
    U+4E3B U+5C07 and U+4E2A U+4EBA. *)
Definition marshal_header : string :=
  of_bytes [0xE5; 0x85; 0x83; 0xE5; 0xB8; 0xA5].
Definition commander_header : string :=
  of_bytes [0xE4; 0xB8; 0xBB; 0xE5; 0xB0; 0x87].
Definition personal_header : string :=
  of_bytes [0xE4; 0xB8; 0xAA; 0xE4; 0xBA; 0xBA].

(** The keys whose value is read with [int] and with [float]. *)
Definition int_keys : list string :=
  ["pick_limit"; "reroll_limit"; "extra_attribute";
   "random_extra_attribute_min"; "random_extra_attribute_max";
   "last_character_number"]%string.
Definition float_keys : list string :=
  ["str_rate"; "int_rate"; "str_random_rate"; "int_random_rate";
   "exist_attribute_rate"]%string.

Definition mem (k : string) (l : list string) : bool :=
  existsb (String.eqb k) l.

(** Assignment to the attribute named [k]. *)
Definition assign {A} (f : string -> A) (k : string) (v : A)
    : string -> A :=
  fun k' => if String.eqb k k' then v else f k'.

Section Builtins.

Variable strip : string -> string.
Variable int : string -> option Z.
Variable float : string -> option Q.
Variable J : Type.
Variable json_loads : string -> loads_result J.
Variable len : J -> option Z.
(** The lists [[100, 130, 160, 190]] and [[1.4, 1.25, 1.1, 1.0, 0.9]]. *)
Variable default_thresholds default_rates : J.

(** The attributes of [self] that [load_config] reads or writes. *)
Record t := {
  marshal_skills : list Skill.t;
  commander_skills : list Skill.t;
  personal_skills : list Skill.t;
  ints : string -> Z;
  floats : string -> Q;
  arrays : string -> J
}.

(** The attributes after lines 21-50 of [__init__]. *)
Definition initial : t :=
  {| marshal_skills := [];
     commander_skills := [];
     personal_skills := [];
     ints :=
       assign (assign (assign (assign (assign (assign (fun _ => 0)
         "pick_limit" 5) "reroll_limit" 3) "extra_attribute" 30)
         "random_extra_attribute_min" (-30))
         "random_extra_attribute_max" 30) "last_character_number" 831;
     floats :=
       assign (assign (assign (assign (assign (fun _ => 0%Q)
         "str_rate" (15 # 10)) "int_rate" 1%Q) "str_random_rate" 1%Q)
         "int_random_rate" 1%Q) "exist_attribute_rate" (7 # 10);
     arrays :=
       assign (assign (fun _ => default_thresholds)
         "attribute_thresholds" default_thresholds)
         "attribute_rates" default_rates |}.

Definition with_ints (self : t) (f : string -> Z) : t :=
  {| marshal_skills := marshal_skills self;
     commander_skills := commander_skills self;
     personal_skills := personal_skills self;
     ints := f; floats := floats self; arrays := arrays self |}.

Definition with_floats (self : t) (f : string -> Q) : t :=
  {| marshal_skills := marshal_skills self;
     commander_skills := commander_skills self;
     personal_skills := personal_skills self;
     ints := ints self; floats := f; arrays := arrays self |}.

Definition with_arrays (self : t) (f : string -> J) : t :=
  {| marshal_skills := marshal_skills self;
     commander_skills := commander_skills self;
     personal_skills := personal_skills self;
     ints := ints self; floats := floats self; arrays := f |}.

(** Lines 150-155: append to the list of the current section. *)
Definition append_skill (self : t) (section : skill_type)
    (skill_data : Skill.t) : t :=
  {| marshal_skills :=
       match section with
       | marshal => marshal_skills self ++ [skill_data]
       | _ => marshal_skills self
       end;
     commander_skills :=
       match section with
       | commander => commander_skills self ++ [skill_data]
       | _ => commander_skills self
       end;
     personal_skills :=
       match section with
       | personal => personal_skills self ++ [skill_data]
       | _ => personal_skills self
       end;
     ints := ints self; floats := floats self; arrays := arrays self |}.

(** Lines 96-130: the setting [key = value]. *)
Definition set_key (self : t) (key value : string) : option t :=
  if mem key int_keys then
    let? v := int value in Some (with_ints self (assign (ints self) key v))
  else if mem key float_keys then
    let? v := float value in
    Some (with_floats self (assign (floats self) key v))
  else if String.eqb key "attribute_thresholds" then
    match json_loads value with
    | Loaded v => Some (with_arrays self (assign (arrays self) key v))
    | JSONDecodeError => Some self
    | OtherError => None
    end
  else if String.eqb key "attribute_rates" then
    match json_loads value with
    | Loaded v =>
        let? n := len v in
        let? m := len (arrays self "attribute_thresholds"%string) in
        if negb (n =? m + 1)
        then Some (with_arrays self (assign (arrays self) key default_rates))
        else Some (with_arrays self (assign (arrays self) key v))
    | JSONDecodeError => Some self
    | OtherError => None
    end
  else Some self.

(** Lines 134-155: a data line inside a section. *)
Definition add_skill_line (self : t) (section : skill_type) (line : string)
    : option t :=
  match split ";" line with
  | p0 :: p1 :: p2 :: p3 :: _ =>
      let? skill_id := int p0 in
      let? skill_value := int p3 in
      Some (append_skill self section
              (Skill.skill_data skill_id p1 p2 skill_value))
  | _ => Some self
  end.

(** The body of the loop over the lines (lines 74-155): the attributes and
    [current_section] after one line. *)
Definition load_line (st : t * option skill_type) (raw_line : string)
    : option (t * option skill_type) :=
  let (self, current_section) := st in
  let line := strip raw_line in
  if String.eqb line EmptyString then Some st
  else if String.eqb line marshal_header then Some (self, Some marshal)
  else if String.eqb line commander_header then Some (self, Some commander)
  else if String.eqb line personal_header then Some (self, Some personal)
  else if contains "=" line then
    match split_once "=" line with
    | Some (key, value) =>
        let? self' := set_key self (strip key) (strip value) in
        Some (self', current_section)
    | None => None
    end
  else
    match current_section with
    | Some section =>
        if contains ";" line then
          let? self' := add_skill_line self section line in
          Some (self', current_section)
        else Some st
    | None => Some st
    end.

Fixpoint load_lines (lines : list string) (st : t * option skill_type)
    : option (t * option skill_type) :=
  match lines with
  | [] => Some st
  | line :: rest =>
      let? st' := load_line st line in
      load_lines rest st'
  end.

(** [load_config] on the lines [readlines] returned. *)
Definition load_config (lines : list string) : option t :=
  let? st := load_lines lines (initial, None) in
  Some (fst st).

(** The catalog of one category. *)
Definition catalog (self : t) (ty : skill_type) : list Skill.t :=
  match ty with
  | marshal => marshal_skills self
  | commander => commander_skills self
  | personal => personal_skills self
  end.

End Builtins.

End Loader.

(** The [RogueLike] object of the processor, from the loaded attributes
    and the [debug_mode] argument; [numbers] reads a decoded JSON value
    that is a list of numbers. *)
Definition loaded_RogueLike {J} (numbers : J -> option (list Q))
    (cfg : Loader.t J) (debug : bool) : option RogueLike :=
  let? thresholds :=
    numbers (Loader.arrays J cfg "attribute_thresholds"%string) in
  let? rates := numbers (Loader.arrays J cfg "attribute_rates"%string) in
  Some {| marshal_skills := Loader.marshal_skills J cfg;
          commander_skills := Loader.commander_skills J cfg;
          personal_skills := Loader.personal_skills J cfg;
          debug_mode := debug;
          pick_limit := Loader.ints J cfg "pick_limit"%string;
          reroll_limit := Loader.ints J cfg "reroll_limit"%string;
          extra_attribute := Loader.ints J cfg "extra_attribute"%string;
          str_rate := Loader.floats J cfg "str_rate"%string;
          int_rate := Loader.floats J cfg "int_rate"%string;
          random_extra_attribute_min :=
            Loader.ints J cfg "random_extra_attribute_min"%string;
          random_extra_attribute_max :=
            Loader.ints J cfg "random_extra_attribute_max"%string;
          str_random_rate := Loader.floats J cfg "str_random_rate"%string;
          int_random_rate := Loader.floats J cfg "int_random_rate"%string;
          attribute_thresholds := thresholds;
          attribute_rates := rates;
          exist_attribute_rate :=
            Loader.floats J cfg "exist_attribute_rate"%string;
          last_character_number :=
            Loader.ints J cfg "last_character_number"%string |}.
(** * Specification vocabulary *)

(** The bytes of [pat] stand in [save_data] from position [i] on. *)
Definition bytes_at (save_data : list Z) (i : Z) (pat : list Z) : Prop :=
  forall k x, nth_error pat k = Some x ->
              nth_error save_data (Z.to_nat i + k) = Some x.

(** The byte values of an ASCII string. *)
Definition ascii_bytes (s : String.string) : list Z :=
  map (fun c => Z.of_nat (nat_of_ascii c)) (list_ascii_of_string s).

(** The two low bytes of a character id, low byte first. *)
Definition id_bytes (char_id : Z) : list Z :=
  [char_id mod 256; (char_id / 256) mod 256].

(** The 22-byte template at position [i]: the id, two free bytes, "Mark"
    and one NUL, the id again, two free bytes, "Mark" and five NULs. *)
Definition template_at (save_data : list Z) (char_id i : Z) : Prop :=
  bytes_at save_data i (id_bytes char_id)
  /\ bytes_at save_data (i + 4) (ascii_bytes "Mark"%string ++ [0])
  /\ bytes_at save_data (i + 9) (id_bytes char_id)
  /\ bytes_at save_data (i + 13) (ascii_bytes "Mark"%string ++ [0; 0; 0; 0; 0]).


(** A byte value. *)
Definition is_byte (b : Z) : Prop := 0 <= b < 256.

(** Bit [n] of a bitfield: bit [n mod 8] of byte [n / 8], clear beyond
    the end of the byte string. *)
Definition bit_on (skill_bytes : list Z) (n : Z) : bool :=
  match nth_error skill_bytes (Z.to_nat (n / 8)) with
  | Some b => Z.testbit b (n mod 8)
  | None => false
  end.

(** The catalog as [load_config] builds it: the bit position of a skill is
    its id, and ids are not negative. *)
Definition catalog_ok (self : RogueLike) : Prop :=
  forall ty skill, In skill (all_skills self ty) ->
                   Skill.bit skill = Skill.id skill /\ 0 <= Skill.id skill.

(** No two definitions of a category share an id. *)
Definition unique_ids (self : RogueLike) : Prop :=
  forall ty, NoDup (map Skill.id (all_skills self ty)).

(** The current and the longest run of failed steps in a list of step
    outcomes ([true] is a step that added a skill). *)
Definition run_step (acc : nat * nat) (skill_added : bool) : nat * nat :=
  if skill_added then (0%nat, snd acc)
  else (S (fst acc), Nat.max (snd acc) (S (fst acc))).

Definition failure_runs (steps : list bool) : nat * nat :=
  fold_left run_step steps (0%nat, 0%nat).

Definition trailing_failures (steps : list bool) : nat :=
  fst (failure_runs steps).

Definition longest_failure_run (steps : list bool) : nat :=
  snd (failure_runs steps).

(** The in-memory state of one category agrees with its bitfield: the
    active list is the initial one followed by the added skills, it has no
    duplicates and only enabled catalog entries, and an enabled catalog
    entry is active exactly when its bit is on. *)
Definition codec_consistent (self : RogueLike) (st0 st : alloc)
    (ty : skill_type) : Prop :=
  active_skills st ty = active_skills st0 ty ++ added_skills st ty
  /\ NoDup (active_skills st ty)
  /\ (forall skill, In skill (active_skills st ty) ->
        In skill (all_skills self ty) /\ Skill.value skill <> -1)
  /\ (forall skill, In skill (all_skills self ty) ->
        Skill.value skill <> -1 ->
        (bit_on (skill_bytes st ty) (Skill.bit skill) = true
         <-> In skill (active_skills st ty))).

(** The range C3 words for [randomValue]: [max(1, floor(maxRandom)) - 1]. *)
Definition claimed_random_value_bound (max_random : Q) : Z :=
  Z.max 1 (Qfloor max_random) - 1.


(** The number of bytes that hold the bits [0 .. max id] of a category. *)
Definition region_length (skills : list Skill.t) : Z :=
  match max_of (map Skill.id skills) with
  | Some m => m / 8 + 1
  | None => 0
  end.



(** The byte length C2 words for a category:
    [ceil((max(id) + 1) / 8)]. *)
Definition claimed_byte_length (skills : list Skill.t) : option Z :=
  let? m := max_of (map Skill.id skills) in
  Some (- ((- (m + 1)) / 8)).

(** The record offsets the log reports, in the order they were found. *)
Definition located_offsets (l : list event) : list Z :=
  flat_map (fun e => match e with
                     | Processing _ char_offset _ _ => [char_offset]
                     | _ => []
                     end) l.

(** Every offset of the list is at least [lo], and each one is at least
    900 above the one before. *)
Fixpoint spaced (lo : Z) (l : list Z) : Prop :=
  match l with
  | [] => True
  | x :: rest => lo <= x /\ spaced (x + 900) rest
  end.

(** The search cursor after the records of the list were found, starting
    from [lo]. *)
Definition cursor_after (lo : Z) (l : list Z) : Z :=
  fold_left (fun _ x => x + 900) l lo.

(** Every bit of byte [x] is a bit of byte [y]. *)
Definition bits_kept (x y : Z) : Prop :=
  forall b, 0 <= b -> Z.testbit x b = true -> Z.testbit y b = true.

(** The number of steps of the allocation loop that added a skill. *)
Definition successes (steps : list bool) : Z :=
  Py.len (filter (fun b => b) steps).


(** A line that can matter for the catalogs: not blank and without [=]
    once stripped. *)
Definition data_relevant (strip : string -> string) (line : string) : bool :=
  negb (String.eqb (strip line) EmptyString)
  && negb (Loader.contains "=" (strip line)).

(** The stripped line is one of the three section headers. *)
Definition is_header (strip : string -> string) (line : string) : Prop :=
  strip line = Loader.marshal_header
  \/ strip line = Loader.commander_header
  \/ strip line = Loader.personal_header.

(** * Example inputs *)

(** Equality of log messages. *)
Definition event_eq_dec (a b : event) : {a = b} + {a <> b}.
Proof. decide equality; apply Z.eq_dec. Defined.

(** A skill with a given id and value. *)
Definition ex_skill (skill_id skill_value : Z) : Skill.t :=
  Skill.skill_data skill_id "skill"%string "text"%string skill_value.

(** A processor with the built-in settings, a small catalog and three
    character ids. *)
Definition ex_self : RogueLike :=
  set_last_character_number
    (init [ex_skill 0 10; ex_skill 3 20] [ex_skill 1 5]
          [ex_skill 0 10; ex_skill 9 30] false)
    3.

(** The 22 template bytes of a character id below 256; the four free bytes
    are 7, 7, 8, 8. *)
Definition ex_template (char_id : Z) : list Z :=
  [char_id; 0; 7; 7; 0x4D; 0x61; 0x72; 0x6B; 0;
   char_id; 0; 8; 8; 0x4D; 0x61; 0x72; 0x6B; 0; 0; 0; 0; 0].

(** A 900-byte record: template, skip count 0, strength, intelligence. *)
Definition ex_record (char_id strength intelligence : Z) : list Z :=
  ex_template char_id ++ [0; 0; 0; 0] ++ [strength; 0; 0; 0]
  ++ [intelligence; 0; 0; 0] ++ repeat 0 866.

(** A save file with characters 1 (stats 100, 90), 2 (stats 0, 0) and
    3 (stats 50, 60) from position 0x20000 on. *)
Definition ex_input : list Z :=
  repeat 0 (Z.to_nat 0x20000)
  ++ ex_record 1 100 90 ++ ex_record 2 0 0 ++ ex_record 3 50 60
  ++ repeat 0 100.

(** A fixed stream of raw draws. *)
Definition ex_gen : Py.rng :=
  {| Py.raw := fun n => Z.of_nat (n * 7 + 3); Py.used := 0 |}.

(** A short buffer that holds the record of character 2 at position 3. *)
Definition ex_small : list Z := [9; 9; 9] ++ ex_template 2 ++ repeat 0 30.

(** A state of the loop over the ids on a buffer without any record. *)
Definition ex_state_empty : state :=
  {| save_data := repeat 0 2000; search_position := 0;
     total_skills_added := 0; total_characters := 1;
     characters_processed := 0; gen := ex_gen; log := [] |}.

(** The variables of the allocation loop for a character without skills:
    two bytes per bitfield, all clear. *)
Definition ex_alloc : alloc :=
  {| skill_bytes := fun _ => [0; 0];
     active_skills := fun _ => [];
     added_skills := fun _ => [];
     current_attribute_value := 213 # 1;
     consecutive_failures := 0 |}.

(** A catalog whose skills never fit the budget, one character id, and a
    save file that ends right after the intelligence field of character
    1: the three skill bitfields lie beyond the end of the buffer. *)
Definition ex_costly : RogueLike :=
  set_last_character_number
    (init [ex_skill 0 1000] [ex_skill 1 1000] [ex_skill 2 1000] false) 1.

Definition ex_truncated : list Z :=
  repeat 0 (Z.to_nat 0x20000)
  ++ ex_template 1 ++ [0; 0; 0; 0] ++ [100; 0; 0; 0] ++ [90; 0; 0; 0].

(** The generator whose raw draws are all 1. *)
Definition ex_ones : Py.rng := {| Py.raw := fun _ => 1; Py.used := 0 |}.

(** A save file without any record. *)
Definition ex_blank : list Z := repeat 0 (Z.to_nat 0x20000 + 100).

(** A category whose highest id is a multiple of 8, and two bitfield bytes
    in which the bit of skill 8 is set. *)
Definition ex_eight : list Skill.t := [ex_skill 8 10].
Definition ex_eight_bytes : list Z := [0; 1].


(** The processor [ex_self] with [reroll_limit = 0]. *)
Definition ex_no_reroll : RogueLike :=
  {| marshal_skills := marshal_skills ex_self;
     commander_skills := commander_skills ex_self;
     personal_skills := personal_skills ex_self;
     debug_mode := debug_mode ex_self;
     pick_limit := pick_limit ex_self;
     reroll_limit := 0;
     extra_attribute := extra_attribute ex_self;
     str_rate := str_rate ex_self;
     int_rate := int_rate ex_self;
     random_extra_attribute_min := random_extra_attribute_min ex_self;
     random_extra_attribute_max := random_extra_attribute_max ex_self;
     str_random_rate := str_random_rate ex_self;
     int_random_rate := int_random_rate ex_self;
     attribute_thresholds := attribute_thresholds ex_self;
     attribute_rates := attribute_rates ex_self;
     exist_attribute_rate := exist_attribute_rate ex_self;
     last_character_number := last_character_number ex_self |}.


(** Stand-ins for the built-in functions, enough to run the loader on
    ASCII examples: no stripping, decimal numerals with an optional minus
    sign, no JSON. *)
Fixpoint ex_digits (s : string) (acc : Z) : option Z :=
  match s with
  | EmptyString => Some acc
  | String c rest =>
      let n := Z.of_nat (nat_of_ascii c) in
      if (48 <=? n) && (n <=? 57) then ex_digits rest (acc * 10 + (n - 48))
      else None
  end.

Definition ex_int (s : string) : option Z :=
  match s with
  | EmptyString => None
  | String "-" rest =>
      match rest with
      | EmptyString => None
      | _ => option_map Z.opp (ex_digits rest 0)
      end
  | _ => ex_digits s 0
  end.

Definition ex_float (s : string) : option Q := option_map inject_Z (ex_int s).

Definition ex_json_loads (s : string) : Loader.loads_result (list Q) :=
  Loader.JSONDecodeError.

Definition ex_len (v : list Q) : option Z := Some (Py.len v).

Definition ex_load_config (lines : list string)
    : option (Loader.t (list Q)) :=
  Loader.load_config (fun s => s) ex_int ex_float (list Q) ex_json_loads
    ex_len [100 # 1; 130 # 1; 160 # 1; 190 # 1]%Q
    [14 # 10; 125 # 100; 11 # 10; 1; 9 # 10]%Q lines.

(** A configuration file: a data line before any header, two marshal
    skills around a setting, one personal skill. *)
Definition ex_config_lines : list string :=
  ["7;early;ignored;1"%string;
   Loader.marshal_header;
   "0;first;text;10"%string;
   "pick_limit=7"%string;
   "3;second;text;20"%string;
   Loader.personal_header;
   "9;third;text;-1"%string].

(** * Properties *)

(** ** Lists, slices and searches *)

Section PyFacts.

Context {A : Type}.

Lemma len_nonneg (l : list A) : 0 <= Py.len l.
Proof. unfold Py.len; lia. Qed.

Lemma len_app (l1 l2 : list A) : Py.len (l1 ++ l2) = Py.len l1 + Py.len l2.
Proof. unfold Py.len; rewrite length_app; lia. Qed.

Lemma slice_length (l : list A) (a b : Z) :
  0 <= a -> a <= b -> b <= Py.len l -> Py.len (Py.slice l a b) = b - a.
Proof.
  unfold Py.len, Py.slice; intros Ha Hab Hb.
  rewrite length_firstn, length_skipn; lia.
Qed.

Lemma slice_length_le (l : list A) (a b : Z) :
  Py.len (Py.slice l a b) <= Z.max 0 (b - a).
Proof.
  unfold Py.len, Py.slice. rewrite length_firstn; lia.
Qed.

Lemma slice_nth_error (l : list A) (a b : Z) (k : nat) :
  0 <= a -> Z.of_nat k < b - a ->
  nth_error (Py.slice l a b) k = nth_error l (Z.to_nat a + k).
Proof.
  unfold Py.slice; intros Ha Hk.
  rewrite nth_error_firstn.
  destruct (Nat.ltb_spec k (Z.to_nat (b - a))); [|lia].
  apply nth_error_skipn.
Qed.

Lemma slice_short (l : list A) (a b : Z) :
  0 <= a -> a < b -> Py.len l < b -> Py.len (Py.slice l a b) < b - a.
Proof.
  unfold Py.len, Py.slice; intros Ha Hab Hb.
  rewrite length_firstn, length_skipn; lia.
Qed.

End PyFacts.

(** A list is determined by its length and its elements. *)
Lemma nth_error_ext {A} (l1 l2 : list A) :
  length l1 = length l2 ->
  (forall k, (k < length l1)%nat -> nth_error l1 k = nth_error l2 k) ->
  l1 = l2.
Proof.
  revert l2; induction l1 as [|x l1 IH]; intros [|y l2] Hl Hn;
    simpl in *; try discriminate; [reflexivity|].
  f_equal.
  - specialize (Hn O ltac:(lia)); simpl in Hn; congruence.
  - apply IH; [lia|]. intros k Hk. apply (Hn (S k)); lia.
Qed.

Lemma bytes_eqb_eq (a b : list Z) : Py.bytes_eqb a b = true <-> a = b.
Proof.
  unfold Py.bytes_eqb; destruct (list_eq_dec Z.eq_dec a b); split;
    congruence.
Qed.

(** [first_from] returns the least index of the range that satisfies the
    test, and [None] exactly when there is none. *)
Lemma first_from_some (p : Z -> bool) (n : nat) (i k : Z) :
  Py.first_from p i n = Some k ->
  i <= k < i + Z.of_nat n /\ p k = true /\
  forall j, i <= j < k -> p j = false.
Proof.
  revert i; induction n as [|n IH]; intros i H; simpl in H; [discriminate|].
  destruct (p i) eqn:Hp.
  - injection H as <-. repeat split; try lia; auto.
  - apply IH in H as (Hr & Hk & Hmin).
    repeat split; try lia; auto.
    intros j Hj. destruct (Z.eq_dec j i) as [->|]; [assumption|].
    apply Hmin; lia.
Qed.

Lemma first_from_none (p : Z -> bool) (n : nat) (i : Z) :
  Py.first_from p i n = None ->
  forall j, i <= j < i + Z.of_nat n -> p j = false.
Proof.
  revert i; induction n as [|n IH]; intros i H j Hj; simpl in H; [lia|].
  destruct (p i) eqn:Hp; [discriminate|].
  destruct (Z.eq_dec j i) as [->|]; [assumption|].
  apply (IH _ H); lia.
Qed.

Lemma first_in_range_some (p : Z -> bool) (start stop k : Z) :
  Py.first_in_range p start stop = Some k ->
  start <= k < stop /\ p k = true /\
  forall j, start <= j < k -> p j = false.
Proof.
  unfold Py.first_in_range; intros H.
  apply first_from_some in H as (Hr & Hk & Hmin).
  repeat split; try lia; auto.
Qed.

Lemma first_in_range_none (p : Z -> bool) (start stop : Z) :
  Py.first_in_range p start stop = None ->
  forall j, start <= j < stop -> p j = false.
Proof.
  unfold Py.first_in_range; intros H j Hj.
  apply (first_from_none _ _ _ H); lia.
Qed.

Lemma first_in_range_ext (p q : Z -> bool) (start stop : Z) :
  (forall j, start <= j < stop -> p j = q j) ->
  Py.first_in_range p start stop = Py.first_in_range q start stop.
Proof.
  unfold Py.first_in_range.
  assert (G : forall n i, (forall j, i <= j < i + Z.of_nat n -> p j = q j) ->
                          Py.first_from p i n = Py.first_from q i n).
  { induction n as [|n IH]; intros i H; simpl; [reflexivity|].
    rewrite (H i) by lia. destruct (q i); [reflexivity|].
    apply IH. intros j Hj; apply H; lia. }
  intros H. apply G. intros j Hj; apply H; lia.
Qed.

(** ** The record template *)

Lemma bytes_at_len (save_data : list Z) (i : Z) (pat : list Z) :
  0 <= i -> bytes_at save_data i pat -> pat <> [] ->
  i + Py.len pat <= Py.len save_data.
Proof.
  intros Hi H Hne.
  destruct (nth_error pat (length pat - 1)) as [x|] eqn:E.
  - apply H in E.
    assert (Z.to_nat i + (length pat - 1) < length save_data)%nat
      by (apply nth_error_Some; congruence).
    destruct pat; [congruence|]. unfold Py.len; simpl in *; lia.
  - apply nth_error_None in E. destruct pat; [congruence|simpl in E; lia].
Qed.

Lemma slice_eq_bytes_at (save_data : list Z) (i : Z) (pat : list Z) :
  0 <= i -> pat <> [] ->
  Py.slice save_data i (i + Py.len pat) = pat <-> bytes_at save_data i pat.
Proof.
  intros Hi Hne; split.
  - intros H k x Hk. rewrite <- H in Hk.
    assert (k < length (Py.slice save_data i (i + Py.len pat)))%nat
      by (apply nth_error_Some; congruence).
    rewrite H in H0.
    rewrite slice_nth_error in Hk; [assumption|lia|unfold Py.len; lia].
  - intros H. pose proof (bytes_at_len _ _ _ Hi H Hne) as Hlen.
    assert (Hl : length (Py.slice save_data i (i + Py.len pat)) = length pat).
    { pose proof (slice_length save_data i (i + Py.len pat)) as L.
      unfold Py.len in *; lia. }
    apply nth_error_ext; [assumption|].
    intros k Hk. rewrite Hl in Hk.
    rewrite slice_nth_error by (unfold Py.len; lia).
    destruct (nth_error pat k) as [x|] eqn:E.
    + apply H; assumption.
    + apply nth_error_None in E; lia.
Qed.

Lemma char_id_bytes_of_spec (char_id : Z) :
  - 2 ^ 31 <= char_id < 2 ^ 31 ->
  char_id_bytes_of char_id = Some (id_bytes char_id).
Proof.
  intros H. unfold char_id_bytes_of, Py.pack_i32.
  destruct (Z.leb_spec (- 2 ^ 31) char_id); [|lia].
  destruct (Z.ltb_spec char_id (2 ^ 31)); [|lia].
  cbn [andb]. unfold Py.slice.
  change (Z.to_nat (2 - 0)) with 2%nat. change (Z.to_nat 0) with 0%nat.
  cbn [skipn firstn]. unfold id_bytes.
  change 255 with (Z.ones 8). rewrite !Z.land_ones by lia.
  rewrite Z.shiftr_div_pow2 by lia. reflexivity.
Qed.

Lemma strict_match_template (save_data : list Z) (char_id i : Z) :
  0 <= i ->
  strict_match save_data (id_bytes char_id) i = true
  <-> template_at save_data char_id i.
Proof.
  intros Hi. unfold strict_match, template_at.
  change (ascii_bytes "Mark"%string ++ [0]) with mark_nul.
  change (ascii_bytes "Mark"%string ++ [0; 0; 0; 0; 0]) with mark_nul5.
  rewrite <- !slice_eq_bytes_at by (try lia; discriminate).
  change (Py.len (id_bytes char_id)) with 2.
  change (Py.len mark_nul) with 5. change (Py.len mark_nul5) with 9.
  replace (i + 4 + 5) with (i + 9) by lia.
  replace (i + 9 + 2) with (i + 11) by lia.
  replace (i + 13 + 9) with (i + 22) by lia.
  split.
  - intros H.
    destruct (i + 22 >? Py.len save_data); [discriminate|].
    repeat match type of H with
           | (if negb (Py.bytes_eqb ?a ?b) then _ else _) = _ =>
               let E := fresh "E" in
               destruct (Py.bytes_eqb a b) eqn:E; simpl in H;
               [apply bytes_eqb_eq in E|discriminate]
           end.
    auto.
  - intros (H1 & H2 & H3 & H4).
    assert (L : Py.len (Py.slice save_data (i + 13) (i + 22)) = 9)
      by (rewrite H4; reflexivity).
    pose proof (slice_length_le save_data (i + 13) (i + 22)).
    destruct (Z.gtb_spec (i + 22) (Py.len save_data)) as [G|G].
    + pose proof (slice_short save_data (i + 13) (i + 22)); lia.
    + rewrite H1, H2, H3, H4.
      rewrite !(proj2 (bytes_eqb_eq _ _) eq_refl). reflexivity.
Qed.

Lemma debug_match_strict (save_data char_id_bytes : list Z) (i : Z) :
  debug_match save_data char_id_bytes i
  = strict_match save_data char_id_bytes i.
Proof.
  unfold debug_match, strict_match.
  rewrite Z.gtb_ltb, Z.ltb_antisym.
  destruct (Py.bytes_eqb (Py.slice save_data i (i + 2)) char_id_bytes),
    (i + 22 <=? Py.len save_data),
    (Py.bytes_eqb (Py.slice save_data (i + 4) (i + 9)) mark_nul),
    (Py.bytes_eqb (Py.slice save_data (i + 9) (i + 11)) char_id_bytes),
    (Py.bytes_eqb (Py.slice save_data (i + 13) (i + 22)) mark_nul5);
    reflexivity.
Qed.

(** The regular search over a window, in terms of the template. *)
Lemma strict_scan_spec (save_data : list Z) (char_id start stop : Z) :
  0 <= start ->
  match Py.first_in_range (strict_match save_data (id_bytes char_id))
          start stop with
  | Some i =>
      start <= i < stop /\ template_at save_data char_id i
      /\ forall j, start <= j < i -> ~ template_at save_data char_id j
  | None => forall j, start <= j < stop -> ~ template_at save_data char_id j
  end.
Proof.
  intros Hs.
  destruct (Py.first_in_range _ start stop) as [i|] eqn:E.
  - apply first_in_range_some in E as (Hr & Hi & Hmin).
    split; [assumption|]. split.
    + apply strict_match_template; [lia|assumption].
    + intros j Hj Ht. apply strict_match_template in Ht; [|lia].
      rewrite (Hmin j Hj) in Ht; discriminate.
  - intros j Hj Ht. apply strict_match_template in Ht; [|lia].
    rewrite (first_in_range_none _ _ _ E j Hj) in Ht; discriminate.
Qed.

(** What [locate] returns, in terms of the regular search. *)
Lemma locate_cases (debug : bool) (save_data : list Z)
    (search_position char_id : Z) (idb : list Z) :
  let stop := max_search_position save_data search_position char_id in
  match Py.first_in_range (strict_match save_data idb) search_position stop
  with
  | Some i => locate debug save_data search_position char_id idb = Found i
  | None =>
      (char_id <> 1
       /\ locate debug save_data search_position char_id idb = Missing)
      \/ (char_id = 1
          /\ locate debug save_data search_position char_id idb
             = match Py.first_in_range (relaxed_match save_data idb)
                       search_position (Py.len save_data - 25) with
               | Some i => Found i
               | None => NoFirstCharacter
               end)
  end.
Proof.
  intros stop. unfold locate. fold stop.
  destruct (Z.eqb_spec char_id 1) as [->|Hne]; cbn [andb].
  - assert (Hstop : stop = Py.len save_data - 25) by reflexivity.
    destruct debug.
    + rewrite (first_in_range_ext (debug_match save_data idb)
                 (strict_match save_data idb))
        by (intros; apply debug_match_strict).
      destruct (Py.first_in_range _ search_position (Py.len save_data - 30))
        as [i|] eqn:Ed.
      * apply first_in_range_some in Ed as (Hr & Hi & Hmin).
        destruct (Py.first_in_range _ search_position stop) as [k|] eqn:Es.
        -- apply first_in_range_some in Es as (Hr' & Hk & Hmin').
           f_equal.
           destruct (Z.lt_trichotomy i k) as [L|[L|L]]; [|assumption|].
           ++ rewrite (Hmin' i) in Hi by lia; discriminate.
           ++ rewrite (Hmin k) in Hk by lia; discriminate.
        -- rewrite (first_in_range_none _ _ _ Es i) in Hi by lia.
           discriminate.
      * destruct (Py.first_in_range _ search_position stop);
          [reflexivity|right; auto].
    + destruct (Py.first_in_range _ search_position stop);
        [reflexivity|right; auto].
  - destruct (Py.first_in_range _ search_position stop);
      [reflexivity|left; auto].
Qed.


(** ** Field resolution *)

Lemma lor_shiftl_add (a x n : Z) :
  0 <= n -> 0 <= a < 2 ^ n -> Z.lor a (Z.shiftl x n) = a + x * 2 ^ n.
Proof.
  intros Hn Ha. rewrite Z.shiftl_mul_pow2 by assumption.
  assert (D : Z.land a (x * 2 ^ n) = 0).
  { apply Z.bits_inj'; intros k Hk.
    rewrite Z.land_spec, Z.bits_0.
    destruct (Z.lt_ge_cases k n).
    - rewrite Z.mul_pow2_bits_low by lia. apply andb_false_r.
    - rewrite <- (Z.mod_small a (2 ^ n)) by lia.
      rewrite Z.mod_pow2_bits_high by lia. reflexivity. }
  rewrite <- Z.lxor_lor by assumption.
  symmetry. apply Z.add_nocarry_lxor. assumption.
Qed.

(** [struct.unpack('<i', ...)] on four bytes: the little-endian value,
    read as a two's complement number. *)
Lemma unpack_i32_le (b0 b1 b2 b3 : Z) :
  is_byte b0 -> is_byte b1 -> is_byte b2 -> is_byte b3 ->
  let u := b0 + 256 * b1 + 65536 * b2 + 16777216 * b3 in
  Py.unpack_i32 [b0; b1; b2; b3]
  = Some (if u <? 2 ^ 31 then u else u - 2 ^ 32).
Proof.
  intros H0 H1 H2 H3 u. unfold is_byte in *. unfold Py.unpack_i32.
  assert (E : Z.lor (Z.lor b0 (Z.shiftl b1 8))
                (Z.lor (Z.shiftl b2 16) (Z.shiftl b3 24)) = u).
  { replace (Z.shiftl b3 24) with (Z.shiftl (Z.shiftl b3 8) 16)
      by (rewrite Z.shiftl_shiftl by lia; reflexivity).
    rewrite <- Z.shiftl_lor.
    rewrite !(lor_shiftl_add _ _ 8) by (change (2 ^ 8) with 256; lia).
    rewrite lor_shiftl_add by (change (2 ^ 8) with 256;
                               change (2 ^ 16) with 65536; lia).
    unfold u. change (2 ^ 8) with 256. change (2 ^ 16) with 65536. lia. }
  rewrite E. reflexivity.
Qed.

Lemma nth_error_in_range {A} (l : list A) (n : nat) :
  (n < length l)%nat -> exists x, nth_error l n = Some x.
Proof.
  intros H. destruct (nth_error l n) eqn:E; [eauto|].
  apply nth_error_None in E; lia.
Qed.

(** Four bytes inside the buffer are what a 4-byte slice returns. *)
Lemma slice4 (save_data : list Z) (a : Z) :
  0 <= a -> a + 4 <= Py.len save_data ->
  exists b0 b1 b2 b3,
    Py.slice save_data a (a + 4) = [b0; b1; b2; b3]
    /\ bytes_at save_data a [b0; b1; b2; b3].
Proof.
  intros Ha Hl. unfold Py.len in Hl.
  destruct (nth_error_in_range save_data (Z.to_nat a + 0)) as [b0 E0]; [lia|].
  destruct (nth_error_in_range save_data (Z.to_nat a + 1)) as [b1 E1]; [lia|].
  destruct (nth_error_in_range save_data (Z.to_nat a + 2)) as [b2 E2]; [lia|].
  destruct (nth_error_in_range save_data (Z.to_nat a + 3)) as [b3 E3]; [lia|].
  exists b0, b1, b2, b3.
  assert (B : bytes_at save_data a [b0; b1; b2; b3]).
  { intros k x Hk.
    destruct k as [|[|[|[|k]]]]; simpl in Hk; try congruence.
    destruct k; discriminate. }
  split; [|exact B].
  apply (slice_eq_bytes_at save_data a [b0; b1; b2; b3]);
    [assumption|discriminate|exact B].
Qed.

Lemma bytes_at_is_byte (save_data : list Z) (a : Z) (pat : list Z) :
  Forall is_byte save_data -> bytes_at save_data a pat -> Forall is_byte pat.
Proof.
  intros Hf Hb. apply Forall_forall. intros x Hx.
  apply In_nth_error in Hx as [k Hk]. apply Hb in Hk.
  apply nth_error_In in Hk. revert x Hk. apply Forall_forall. assumption.
Qed.

(** C5. Field resolution: for a record at offset [r], the skip count is the
    4-byte little-endian signed integer at [r+22]; the strength offset is
    [r+26] plus [skipCount*4] when [skipCount > 0]; the intelligence offset
    is the strength offset + 4; the personal, commander and marshal
    bitfield offsets are the strength offset + 0x28C, + 0x29C and
    + 0x2AC. *)
Theorem field_resolution (save_data : list Z) (r : Z) :
  0 <= r -> Forall is_byte save_data -> r + 26 <= Py.len save_data ->
  exists b0 b1 b2 b3 f,
    bytes_at save_data (r + 22) [b0; b1; b2; b3]
    /\ resolve_fields save_data r = Some f
    /\ (let u := b0 + 256 * b1 + 65536 * b2 + 16777216 * b3 in
        skip_value f = if u <? 2 ^ 31 then u else u - 2 ^ 32)
    /\ strength_offset f
       = r + 26 + (if skip_value f >? 0 then skip_value f * 4 else 0)
    /\ intelligence_offset f = strength_offset f + 4
    /\ personal_offset f = strength_offset f + 652
    /\ commander_offset f = strength_offset f + 668
    /\ marshal_offset f = strength_offset f + 684.
Proof.
  intros Hr Hbytes Hlen.
  destruct (slice4 save_data (r + 22)) as (b0 & b1 & b2 & b3 & Hs & Hat);
    [lia|lia|].
  pose proof (bytes_at_is_byte _ _ _ Hbytes Hat) as Hb.
  inversion Hb as [|? ? H0 Hb1]; subst.
  inversion Hb1 as [|? ? H1 Hb2]; subst.
  inversion Hb2 as [|? ? H2 Hb3]; subst.
  inversion Hb3 as [|? ? H3 _]; subst.
  pose proof (unpack_i32_le b0 b1 b2 b3 H0 H1 H2 H3) as Hu.
  cbv zeta in Hu.
  unfold resolve_fields. rewrite Hs, Hu.
  eexists b0, b1, b2, b3, _.
  split; [exact Hat|]. split; [reflexivity|].
  cbn [skip_value strength_offset intelligence_offset personal_offset
       commander_offset marshal_offset].
  split; [reflexivity|].
  split; [destruct (_ >? 0); lia|].
  repeat split; reflexivity.
Qed.

(** ** The loop over the character ids *)

Ltac case_match_in H :=
  match type of H with
  | context [match ?x with _ => _ end] => destruct x eqn:?
  end.

Lemma process_found_cursor (self : RogueLike) (st st' : state)
    (char_id pattern_pos : Z) :
  process_found self st char_id pattern_pos = Next st' ->
  search_position st' = pattern_pos + 900
  /\ total_characters st' = total_characters st + 1.
Proof.
  unfold process_found; intros H.
  repeat (case_match_in H; try discriminate);
    injection H as <-; split; reflexivity.
Qed.

Lemma max_search_position_other (save_data : list Z)
    (search_position char_id : Z) :
  char_id <> 1 ->
  max_search_position save_data search_position char_id
  = Z.min (search_position + 1200) (Py.len save_data - 25).
Proof.
  intros H. unfold max_search_position.
  destruct (Z.eqb_spec char_id 1); [contradiction|].
  destruct (Z.gtb_spec (search_position + 1200) (Py.len save_data - 25)); lia.
Qed.

(** C7. For every character id greater than 1 the search covers at most
    1200 start positions from the search cursor on, cut off so that the
    template stays inside the buffer; the cursor is the offset of the
    previous match + 900, since every match at [i] sets it to [i + 900]
    and nothing else changes it. When no position of the window holds the
    template the character is skipped: nothing but the message log changes,
    the cursor in particular, and the run goes on with the next id. *)
Theorem bounded_window_skips_missing_character
    (self : RogueLike) (st : state) (char_id : Z) :
  1 < char_id < 2 ^ 31 -> 0 <= search_position st ->
  let window_end :=
    Z.min (search_position st + 1200) (Py.len (save_data st) - 25) in
  max_search_position (save_data st) (search_position st) char_id
  = window_end
  /\ window_end - search_position st <= 1200
  /\ (forall i, search_position st <= i < window_end ->
                i + 22 <= Py.len (save_data st))
  /\ ((forall i, search_position st <= i < window_end ->
                 ~ template_at (save_data st) char_id i) ->
      exists st',
        process_character self st char_id = Next st'
        /\ search_position st' = search_position st
        /\ save_data st' = save_data st
        /\ total_characters st' = total_characters st
        /\ characters_processed st' = characters_processed st
        /\ total_skills_added st' = total_skills_added st
        /\ gen st' = gen st
        /\ log st' = log st ++ [NotFound char_id]
        /\ forall rest,
             process_ids self (char_id :: rest) st
             = process_ids self rest st')
  /\ (forall i st',
        search_position st <= i < window_end ->
        template_at (save_data st) char_id i ->
        (forall j, search_position st <= j < i ->
                   ~ template_at (save_data st) char_id j) ->
        process_character self st char_id = Next st' ->
        search_position st' = i + 900).
Proof.
  intros Hid Hsp window_end.
  assert (Hne : char_id <> 1) by lia.
  pose proof (max_search_position_other (save_data st) (search_position st)
                char_id Hne) as Hmax.
  fold window_end in Hmax.
  pose proof (char_id_bytes_of_spec char_id ltac:(lia)) as Hidb.
  pose proof (locate_cases (debug_mode self) (save_data st)
                (search_position st) char_id (id_bytes char_id)) as Hloc.
  cbv zeta in Hloc. rewrite Hmax in Hloc.
  pose proof (strict_scan_spec (save_data st) char_id (search_position st)
                window_end Hsp) as Hscan.
  split; [exact Hmax|]. split; [unfold window_end; lia|].
  split; [intros i Hi; unfold window_end in Hi; lia|].
  split.
  - intros Hnone.
    destruct (Py.first_in_range _ (search_position st) window_end) as [k|].
    + destruct Hscan as (Hk & Ht & _). exfalso. exact (Hnone k Hk Ht).
    + destruct Hloc as [[_ Hloc]|[? _]]; [|contradiction].
      assert (Hpc : process_character self st char_id
                    = Next {| save_data := save_data st;
                              search_position := search_position st;
                              total_skills_added := total_skills_added st;
                              total_characters := total_characters st;
                              characters_processed := characters_processed st;
                              gen := gen st;
                              log := log st ++ [NotFound char_id] |}).
      { unfold process_character. rewrite Hidb, Hloc. reflexivity. }
      eexists. split; [exact Hpc|].
      repeat (split; [reflexivity|]).
      intros rest. cbn [process_ids]. rewrite Hpc. reflexivity.
  - intros i st' Hi Ht Hmin Hpc.
    destruct (Py.first_in_range _ (search_position st) window_end) as [k|].
    + destruct Hscan as (Hk & Htk & Hmink).
      assert (k = i).
      { destruct (Z.lt_trichotomy i k) as [L|[L|L]]; [|auto|].
        - exfalso. apply (Hmink i); [lia|assumption].
        - exfalso. apply (Hmin k); [lia|assumption]. }
      subst k. unfold process_character in Hpc.
      rewrite Hidb, Hloc in Hpc.
      apply process_found_cursor in Hpc. apply Hpc.
    + exfalso. exact (Hscan i Hi Ht).
Qed.

(** ** One attempt to add a skill *)

Lemma Qltb_false (x y : Q) : Py.Qltb x y = false <-> (y <= x)%Q.
Proof.
  unfold Py.Qltb. rewrite negb_false_iff. apply Qle_bool_iff.
Qed.

Lemma upd_same {A} (f : skill_type -> A) (ty : skill_type) (x : A) :
  upd f ty x ty = x.
Proof. unfold upd. destruct ty; reflexivity. Qed.

Lemma upd_other {A} (f : skill_type -> A) (ty ty' : skill_type) (x : A) :
  ty <> ty' -> upd f ty x ty' = f ty'.
Proof. unfold upd. destruct ty, ty'; simpl; congruence. Qed.

Lemma skill_type_eq_dec (a b : skill_type) : {a = b} + {a <> b}.
Proof. decide equality. Defined.

Lemma get_last {A} (l : list A) (x : A) : Py.get (l ++ [x]) (-1) = Some x.
Proof.
  unfold Py.get. cbn [Z.ltb Z.compare].
  rewrite len_app. change (Py.len [x]) with 1.
  pose proof (len_nonneg l).
  destruct (Z.ltb_spec (Py.len l + 1 + -1) 0); [lia|].
  replace (Z.to_nat (Py.len l + 1 + -1)) with (length l)
    by (unfold Py.len; lia).
  rewrite nth_error_app2 by lia. rewrite Nat.sub_diag. reflexivity.
Qed.

Lemma choice_in {A} (l : list A) (g g' : Py.rng) (x : A) :
  Py.choice l g = Some (x, g') -> In x l.
Proof.
  unfold Py.choice. destruct l as [|d l]; [discriminate|].
  remember (d :: l) as l0 eqn:El.
  assert (Hpos : 0 < Py.len l0) by (subst l0; unfold Py.len; simpl; lia).
  unfold Py.next_raw. intros H; injection H as Hx _. subst x.
  apply nth_In.
  pose proof (Z.mod_pos_bound (Py.raw g (Py.used g)) (Py.len l0) Hpos).
  unfold Py.len in *. lia.
Qed.

(** What a call of the pick loop can end with: a skill of [available] that
    fits the budget, encoded and appended, or no change at all. *)
Lemma pick_loop_spec (n : nat) (available : list Skill.t)
    (bytes : list Z) (active : list Skill.t) (cur max : Q) (g : Py.rng)
    (r : try_result) :
  pick_loop n available bytes active cur max g = Some r ->
  match new_skill r with
  | Some skill =>
      In skill available
      /\ (inject_Z (Skill.value skill) <= max - cur)%Q
      /\ encode bytes skill = Some (skill_bytes_after r)
      /\ active_skills_after r = active ++ [skill]
  | None => skill_bytes_after r = bytes /\ active_skills_after r = active
  end.
Proof.
  revert g; induction n as [|n IH]; intros g H; simpl in H.
  - injection H as <-. simpl. auto.
  - destruct (Py.choice available g) as [[skill g1]|] eqn:Ec; [|discriminate].
    destruct (Py.Qltb (max - cur) (inject_Z (Skill.value skill))) eqn:Eb.
    + exact (IH _ H).
    + destruct (encode bytes skill) as [bytes'|] eqn:Ee; [|discriminate].
      injection H as <-. simpl.
      repeat split; auto.
      * eapply choice_in; eassumption.
      * apply Qltb_false; assumption.
Qed.

Lemma available_skills_in (all active : list Skill.t) (skill : Skill.t) :
  In skill (available_skills all active)
  <-> In skill all /\ ~ In skill active /\ Skill.value skill <> -1.
Proof.
  unfold available_skills. rewrite filter_In, andb_true_iff, !negb_true_iff.
  unfold Skill.mem. destruct (in_dec Skill.eq_dec skill active);
    destruct (Z.eqb_spec (Skill.value skill) (-1)); intuition congruence.
Qed.

Lemma try_add_skill_spec (self : RogueLike) (ty : skill_type)
    (bytes : list Z) (active : list Skill.t) (cur max : Q) (g : Py.rng)
    (r : try_result) :
  _try_add_skill self ty bytes active cur max g = Some r ->
  match new_skill r with
  | Some skill =>
      In skill (available_skills (all_skills self ty) active)
      /\ (inject_Z (Skill.value skill) <= max - cur)%Q
      /\ encode bytes skill = Some (skill_bytes_after r)
      /\ active_skills_after r = active ++ [skill]
  | None => skill_bytes_after r = bytes /\ active_skills_after r = active
  end.
Proof.
  unfold _try_add_skill.
  destruct (available_skills (all_skills self ty) active) eqn:Ea.
  - intros H; injection H as <-. simpl; auto.
  - intros H. apply pick_loop_spec in H. exact H.
Qed.

(** The effect of one iteration of the allocation loop. *)
Lemma alloc_step_spec (self : RogueLike) (strength : Z) (max_attr mr : Q)
    (st st' : alloc) (g g' : Py.rng) (skill_added : bool) :
  alloc_step self strength max_attr mr st g = Some (skill_added, st', g') ->
  exists ty,
    (forall ty', ty' <> ty ->
       skill_bytes st' ty' = skill_bytes st ty'
       /\ active_skills st' ty' = active_skills st ty'
       /\ added_skills st' ty' = added_skills st ty')
    /\ if skill_added then
         exists skill,
           In skill (available_skills (all_skills self ty)
                       (active_skills st ty))
           /\ (inject_Z (Skill.value skill)
               <= max_attr - current_attribute_value st)%Q
           /\ encode (skill_bytes st ty) skill = Some (skill_bytes st' ty)
           /\ active_skills st' ty = active_skills st ty ++ [skill]
           /\ added_skills st' ty = added_skills st ty ++ [skill]
           /\ current_attribute_value st'
              = (current_attribute_value st
                 + inject_Z (Skill.value skill))%Q
           /\ consecutive_failures st' = 0
       else
         skill_bytes st' ty = skill_bytes st ty
         /\ active_skills st' ty = active_skills st ty
         /\ added_skills st' ty = added_skills st ty
         /\ current_attribute_value st' = current_attribute_value st
         /\ consecutive_failures st' = consecutive_failures st + 1.
Proof.
  unfold alloc_step; intros H.
  destruct (choose_skill_type self strength mr g) as [[ty g1]|];
    [|discriminate].
  destruct (_try_add_skill self ty _ _ _ _ g1) as [r|] eqn:Et;
    [|discriminate].
  apply try_add_skill_spec in Et.
  exists ty.
  destruct (new_skill r) as [skill|] eqn:En.
  - destruct Et as (Hin & Hle & Henc & Hact).
    rewrite upd_same, Hact, get_last in H.
    injection H as <- <- <-. cbn.
    split.
    + intros ty' Hne. rewrite !upd_other by congruence. auto.
    + exists skill. rewrite !upd_same. repeat split; auto.
  - destruct Et as (Hb & Ha).
    injection H as <- <- <-. cbn.
    split.
    + intros ty' Hne. rewrite !upd_other by congruence. auto.
    + rewrite !upd_same. auto.
Qed.


(** ** The bitfield codec *)

Lemma set_nth_spec {A} (l l' : list A) (n : nat) (x : A) :
  Py.set_nth l n x = Some l' ->
  (n < length l)%nat /\ length l' = length l
  /\ nth_error l' n = Some x
  /\ forall m, m <> n -> nth_error l' m = nth_error l m.
Proof.
  revert l' n; induction l as [|h t IH]; intros l' n H; simpl in H;
    [discriminate|].
  destruct n as [|n].
  - injection H as <-. simpl. repeat split; try lia.
    intros [|m] Hm; [congruence|reflexivity].
  - destruct (Py.set_nth t n x) as [t'|] eqn:E; [|discriminate].
    injection H as <-. destruct (IH _ _ E) as (Hn & Hl & Hx & Ho).
    simpl. repeat split; try lia; auto.
    intros [|m] Hm; [reflexivity|]. simpl. apply Ho. congruence.
Qed.

Lemma set_nth_total {A} (l : list A) (n : nat) (x : A) :
  (n < length l)%nat -> exists l', Py.set_nth l n x = Some l'.
Proof.
  revert n; induction l as [|h t IH]; intros n H; simpl in H; [lia|].
  destruct n as [|n]; simpl; [eauto|].
  destruct (IH n ltac:(lia)) as [t' ->]. eauto.
Qed.

Lemma get_nonneg {A} (l : list A) (i : Z) :
  0 <= i -> Py.get l i = nth_error l (Z.to_nat i).
Proof.
  intros H. unfold Py.get. destruct (Z.ltb_spec i 0); [lia|reflexivity].
Qed.

Lemma set_nonneg {A} (l : list A) (i : Z) (x : A) :
  0 <= i -> Py.set l i x = Py.set_nth l (Z.to_nat i) x.
Proof.
  intros H. unfold Py.set. destruct (Z.ltb_spec i 0); [lia|reflexivity].
Qed.

Lemma land_pow2 (b p : Z) :
  0 <= p -> Z.land b (2 ^ p) = if Z.testbit b p then 2 ^ p else 0.
Proof.
  intros Hp. apply Z.bits_inj'; intros k Hk.
  rewrite Z.land_spec, Z.pow2_bits_eqb by assumption.
  destruct (Z.eqb_spec p k) as [->|Hne].
  - destruct (Z.testbit b k); [|apply eq_sym, Z.bits_0].
    rewrite Z.pow2_bits_eqb, Z.eqb_refl by assumption. reflexivity.
  - rewrite andb_false_r.
    destruct (Z.testbit b p); [|apply eq_sym, Z.bits_0].
    rewrite Z.pow2_bits_eqb by assumption.
    destruct (Z.eqb_spec p k); congruence.
Qed.

Lemma bit_is_set_testbit (b p : Z) :
  0 <= p -> bit_is_set b p = Z.testbit b p.
Proof.
  intros Hp. unfold bit_is_set.
  rewrite Z.shiftl_1_l, land_pow2 by assumption.
  destruct (Z.testbit b p); [|reflexivity].
  destruct (Z.eqb_spec (2 ^ p) 0); [|reflexivity].
  pose proof (Z.pow_pos_nonneg 2 p); lia.
Qed.

(** Two bit numbers are equal when byte index and bit position are. *)
Lemma bit_number_eq (n m : Z) :
  n / 8 = m / 8 -> n mod 8 = m mod 8 -> n = m.
Proof.
  intros Hd Hm.
  rewrite (Z.div_mod n 8), (Z.div_mod m 8) by lia. congruence.
Qed.

(** The bytes [encode] returns. *)
Lemma encode_bytes (bytes : list Z) (skill : Skill.t) :
  0 <= Skill.bit skill ->
  let byte_index := Z.to_nat (Skill.bit skill / 8) in
  exists bytes',
    encode bytes skill = Some bytes'
    /\ Py.len bytes' = Z.max (Py.len bytes) (Skill.bit skill / 8 + 1)
    /\ nth_error bytes' byte_index
       = Some (Z.lor (nth byte_index bytes 0)
                     (Z.shiftl 1 (Skill.bit skill mod 8)))
    /\ forall j, j <> byte_index ->
         nth_error bytes' j
         = if (j <? length bytes)%nat then nth_error bytes j
           else if (j <? byte_index)%nat then Some 0 else None.
Proof.
  intros Hbit byte_index.
  assert (Hbi : 0 <= Skill.bit skill / 8) by (apply Z.div_pos; lia).
  unfold encode.
  set (grown := bytes ++ repeat 0 _).
  assert (Hlen : Py.len grown = Z.max (Py.len bytes) (Skill.bit skill / 8 + 1)).
  { unfold grown. rewrite len_app. unfold Py.len.
    rewrite repeat_length. lia. }
  assert (Hgrown : forall j,
             nth_error grown j
             = if (j <? length bytes)%nat then nth_error bytes j
               else if (j <? S byte_index)%nat then Some 0 else None).
  { intros j. unfold grown.
    destruct (Nat.ltb_spec j (length bytes)).
    - apply nth_error_app1; assumption.
    - rewrite nth_error_app2 by assumption.
      destruct (Nat.ltb_spec j (S byte_index)).
      + rewrite nth_error_repeat; [reflexivity|].
        unfold Py.len, byte_index in *. lia.
      + apply nth_error_None. rewrite repeat_length.
        unfold Py.len, byte_index in *. lia. }
  rewrite get_nonneg by assumption. fold byte_index.
  assert (Hb : nth_error grown byte_index = Some (nth byte_index bytes 0)).
  { rewrite Hgrown.
    destruct (Nat.ltb_spec byte_index (length bytes)).
    - apply nth_error_nth'. assumption.
    - rewrite nth_overflow by assumption.
      destruct (Nat.ltb_spec byte_index (S byte_index)); [reflexivity|lia]. }
  rewrite Hb, set_nonneg by assumption. fold byte_index.
  destruct (set_nth_total grown byte_index
              (Z.lor (nth byte_index bytes 0)
                 (Z.shiftl 1 (Skill.bit skill mod 8)))) as [bytes' Hset].
  { unfold Py.len, byte_index in *. lia. }
  exists bytes'. split; [exact Hset|].
  apply set_nth_spec in Hset as (_ & Hl & Hx & Ho).
  split; [unfold Py.len in *; lia|]. split; [exact Hx|].
  intros j Hj. rewrite (Ho j Hj), Hgrown.
  destruct (Nat.ltb_spec j (length bytes)); [reflexivity|].
  destruct (Nat.ltb_spec j (S byte_index)), (Nat.ltb_spec j byte_index);
    try reflexivity; lia.
Qed.

(** [encode] sets the bit of the skill and changes no other bit. *)
Lemma encode_bits (bytes : list Z) (skill : Skill.t) :
  0 <= Skill.bit skill ->
  exists bytes',
    encode bytes skill = Some bytes'
    /\ Py.len bytes' = Z.max (Py.len bytes) (Skill.bit skill / 8 + 1)
    /\ forall n, 0 <= n ->
         bit_on bytes' n = bit_on bytes n || (n =? Skill.bit skill).
Proof.
  intros Hbit.
  destruct (encode_bytes bytes skill Hbit) as (bytes' & He & Hl & Hx & Ho).
  exists bytes'. split; [exact He|]. split; [exact Hl|].
  intros n Hn. unfold bit_on.
  assert (Hn8 : 0 <= n / 8) by (apply Z.div_pos; lia).
  assert (Hb8 : 0 <= Skill.bit skill / 8) by (apply Z.div_pos; lia).
  pose proof (Z.mod_pos_bound n 8 ltac:(lia)) as Hnm.
  pose proof (Z.mod_pos_bound (Skill.bit skill) 8 ltac:(lia)) as Hbm.
  destruct (Z.eq_dec (n / 8) (Skill.bit skill / 8)) as [Ed|Ed].
  - rewrite Ed, Hx.
    rewrite Z.lor_spec, Z.shiftl_1_l, Z.pow2_bits_eqb by lia.
    assert (Hold : match nth_error bytes (Z.to_nat (Skill.bit skill / 8))
                   with
                   | Some b => Z.testbit b (n mod 8)
                   | None => false
                   end
                   = Z.testbit (nth (Z.to_nat (Skill.bit skill / 8)) bytes 0)
                       (n mod 8)).
    { destruct (nth_error bytes _) as [b|] eqn:E.
      - rewrite (nth_error_nth _ _ _ E). reflexivity.
      - apply nth_error_None in E. rewrite nth_overflow by assumption.
        rewrite Z.bits_0. reflexivity. }
    rewrite Hold. f_equal.
    destruct (Z.eqb_spec (Skill.bit skill mod 8) (n mod 8)) as [Em|Em];
      destruct (Z.eqb_spec n (Skill.bit skill)) as [En|En];
      try reflexivity.
    + exfalso. apply En. apply bit_number_eq; congruence.
    + exfalso. apply Em. congruence.
  - assert (Hne : n <> Skill.bit skill) by congruence.
    destruct (Z.eqb_spec n (Skill.bit skill)); [contradiction|].
    rewrite orb_false_r, Ho by lia.
    destruct (Nat.ltb_spec (Z.to_nat (n / 8)) (length bytes)) as [L|L];
      [reflexivity|].
    apply nth_error_None in L. rewrite L.
    destruct (_ <? _)%nat; [apply Z.bits_0|reflexivity].
Qed.

(** [decode] keeps the enabled catalog entries whose bit is on. *)
Lemma decode_filter (skills : list Skill.t) (bytes : list Z) :
  (forall skill, In skill skills -> 0 <= Skill.bit skill) ->
  decode skills bytes
  = Some (filter (fun skill => negb (Skill.value skill =? -1)
                               && bit_on bytes (Skill.bit skill)) skills).
Proof.
  induction skills as [|skill rest IH]; intros Hbits; [reflexivity|].
  assert (Hb : 0 <= Skill.bit skill) by (apply Hbits; left; reflexivity).
  assert (Hb8 : 0 <= Skill.bit skill / 8) by (apply Z.div_pos; lia).
  pose proof (Z.mod_pos_bound (Skill.bit skill) 8 ltac:(lia)) as Hbm.
  cbn [decode filter].
  rewrite IH by (intros; apply Hbits; right; assumption).
  destruct (Skill.value skill =? -1); [reflexivity|]. cbn [negb andb].
  destruct (Z.ltb_spec (Skill.bit skill / 8) (Py.len bytes)) as [L|L].
  - rewrite get_nonneg by assumption.
    destruct (nth_error bytes (Z.to_nat (Skill.bit skill / 8))) as [b|] eqn:E.
    + assert (Hon : bit_on bytes (Skill.bit skill)
                    = Z.testbit b (Skill.bit skill mod 8))
        by (unfold bit_on; rewrite E; reflexivity).
      rewrite Hon, bit_is_set_testbit by lia.
      destruct (Z.testbit b (Skill.bit skill mod 8)); reflexivity.
    + apply nth_error_None in E. unfold Py.len in L. lia.
  - assert (Hon : bit_on bytes (Skill.bit skill) = false).
    { unfold bit_on.
      assert (E : nth_error bytes (Z.to_nat (Skill.bit skill / 8)) = None)
        by (apply nth_error_None; unfold Py.len in L; lia).
      rewrite E. reflexivity. }
    rewrite Hon. reflexivity.
Qed.

(** ** The allocation loop *)

Lemma randint_total (a b : Z) (g : Py.rng) :
  a <= b ->
  exists g', Py.randint a b g
             = Some (Py.randint_value a b (Py.raw g (Py.used g)), g').
Proof.
  intros H. unfold Py.randint, Py.next_raw.
  destruct (Z.ltb_spec b a); [lia|]. eauto.
Qed.

Lemma choose_skill_type_total (self : RogueLike) (strength : Z) (mr : Q)
    (g : Py.rng) :
  exists ty g', choose_skill_type self strength mr g = Some (ty, g').
Proof.
  unfold choose_skill_type, draw_random_value, random_value_bound.
  destruct (randint_total 0 (Z.max 1 (Py.int_of mr - 1)) g) as [g1 ->]; [lia|].
  destruct (Py.Qltb _ _); [eauto|].
  destruct (randint_total 0 2 g1) as [g2 ->]; [lia|]. eauto.
Qed.

Lemma pick_loop_total (n : nat) (available : list Skill.t)
    (bytes : list Z) (active : list Skill.t) (cur max : Q) (g : Py.rng) :
  available <> [] ->
  (forall skill, In skill available -> 0 <= Skill.bit skill) ->
  exists r, pick_loop n available bytes active cur max g = Some r.
Proof.
  intros Hne Hbits. revert g; induction n as [|n IH]; intros g; simpl;
    [eauto|].
  destruct (Py.choice available g) as [[skill g1]|] eqn:Ec.
  - destruct (Py.Qltb _ _); [apply IH|].
    destruct (encode_bits bytes skill) as (bytes' & -> & _).
    + apply Hbits. eapply choice_in; eassumption.
    + eauto.
  - destruct available; [congruence|discriminate].
Qed.

Lemma alloc_step_total (self : RogueLike) (strength : Z) (max_attr mr : Q)
    (st : alloc) (g : Py.rng) :
  catalog_ok self ->
  exists skill_added st' g',
    alloc_step self strength max_attr mr st g = Some (skill_added, st', g').
Proof.
  intros Hok. unfold alloc_step.
  destruct (choose_skill_type_total self strength mr g) as (ty & g1 & ->).
  assert (Ht : exists r,
             _try_add_skill self ty (skill_bytes st ty) (active_skills st ty)
               (current_attribute_value st) max_attr g1 = Some r).
  { unfold _try_add_skill.
    destruct (available_skills (all_skills self ty) (active_skills st ty))
      as [|s l] eqn:Ea; [eauto|].
    apply pick_loop_total; [discriminate|].
    intros skill Hin. rewrite <- Ea in Hin.
    apply available_skills_in in Hin as (Hin & _).
    destruct (Hok ty skill Hin) as [-> ?]. assumption. }
  destruct Ht as [r Ht]. rewrite Ht.
  apply try_add_skill_spec in Ht.
  destruct (new_skill r) as [skill|]; [|eauto].
  destruct Ht as (_ & _ & _ & Hact).
  rewrite upd_same, Hact, get_last. eauto.
Qed.

Lemma filter_length_le {A} (p q : A -> bool) (l : list A) :
  (forall x, In x l -> q x = true -> p x = true) ->
  (length (filter q l) <= length (filter p l))%nat.
Proof.
  induction l as [|x l IH]; intros H; simpl; [lia|].
  assert (IH' := IH (fun y Hy => H y (or_intror Hy))).
  pose proof (H x (or_introl eq_refl)).
  destruct (q x), (p x); simpl; try lia;
    try discriminate (H0 eq_refl).
Qed.

Lemma filter_length_lt {A} (p q : A -> bool) (l : list A) (a : A) :
  (forall x, In x l -> q x = true -> p x = true) ->
  In a l -> p a = true -> q a = false ->
  (length (filter q l) < length (filter p l))%nat.
Proof.
  induction l as [|x l IH]; intros H Ha Hp Hq; simpl; [contradiction|].
  pose proof (filter_length_le p q l (fun y Hy => H y (or_intror Hy))).
  destruct Ha as [->|Ha].
  - rewrite Hp, Hq. simpl. lia.
  - specialize (IH (fun y Hy => H y (or_intror Hy)) Ha Hp Hq).
    pose proof (H x (or_introl eq_refl)).
    destruct (q x), (p x); simpl; try lia;
      try discriminate (H1 eq_refl).
Qed.

Lemma mem_true (skill : Skill.t) (l : list Skill.t) :
  Skill.mem skill l = true <-> In skill l.
Proof.
  unfold Skill.mem. destruct (in_dec Skill.eq_dec skill l); split;
    intros; congruence || assumption || reflexivity.
Qed.

(** Adding an available skill to the active list leaves fewer available. *)
Lemma available_shrinks (all active : list Skill.t) (skill : Skill.t) :
  In skill (available_skills all active) ->
  (length (available_skills all (active ++ [skill]))
   < length (available_skills all active))%nat.
Proof.
  intros Hin. pose proof Hin as Hin'.
  apply available_skills_in in Hin' as (Hall & Hnot & Hval).
  unfold available_skills. apply filter_length_lt with (a := skill).
  - intros x _ Hx. apply andb_true_iff in Hx as [Hm Hv].
    rewrite Hv, andb_true_r. apply negb_true_iff.
    apply negb_true_iff in Hm.
    destruct (Skill.mem x active) eqn:E; [|reflexivity].
    apply mem_true in E.
    assert (Skill.mem x (active ++ [skill]) = true)
      by (apply mem_true, in_or_app; left; assumption).
    congruence.
  - assumption.
  - apply andb_true_iff. split; apply negb_true_iff.
    + destruct (Skill.mem skill active) eqn:E; [|reflexivity].
      apply mem_true in E. contradiction.
    + apply Z.eqb_neq. assumption.
  - apply andb_false_iff. left. apply negb_false_iff.
    apply mem_true, in_or_app. right. left. reflexivity.
Qed.

(** Every iteration of the loop lowers [alloc_fuel]. *)
Lemma alloc_step_fuel (self : RogueLike) (strength : Z) (max_attr mr : Q)
    (st st' : alloc) (g g' : Py.rng) (skill_added : bool) :
  consecutive_failures st < reroll_limit self ->
  alloc_step self strength max_attr mr st g = Some (skill_added, st', g') ->
  (alloc_fuel self st' < alloc_fuel self st)%nat.
Proof.
  intros Hguard H.
  apply alloc_step_spec in H as (ty & Hother & Hcase).
  unfold alloc_fuel, available_count.
  destruct skill_added.
  - destruct Hcase as (skill & Hin & _ & _ & Hact & _ & _ & Hf).
    apply available_shrinks in Hin. rewrite <- Hact in Hin. rewrite Hf.
    set (K := Z.to_nat (reroll_limit self)).
    assert (HK : (Z.to_nat (reroll_limit self - 0) = K)%nat)
      by (unfold K; lia).
    rewrite HK.
    assert (Hpos : (1 <= Z.to_nat (reroll_limit self
                                   - consecutive_failures st))%nat) by lia.
    destruct ty; simpl in Hin;
      repeat match goal with
             | |- context [active_skills st' ?t] =>
                 lazymatch goal with
                 | _ : context [active_skills st' t] |- _ => fail
                 | _ => rewrite (proj1 (proj2 (Hother t ltac:(discriminate))))
                 end
             end; nia.
  - destruct Hcase as (_ & Hact & _ & _ & Hf).
    assert (Hall : forall t, active_skills st' t = active_skills st t).
    { intros t. destruct (skill_type_eq_dec t ty) as [->|Hne];
        [assumption|apply (Hother t Hne)]. }
    rewrite !Hall, Hf. lia.
Qed.

(** With [alloc_fuel] iterations at hand the loop never runs out. *)
Lemma alloc_loop_enough_fuel (self : RogueLike) (strength : Z)
    (max_attr mr : Q) (fuel : nat) (st : alloc) (g : Py.rng)
    (steps : list bool) :
  (alloc_fuel self st <= fuel)%nat ->
  alloc_loop fuel self strength max_attr mr st g steps <> OutOfFuel.
Proof.
  revert st g steps; induction fuel as [|fuel IH]; intros st g steps Hf;
    simpl.
  - destruct (Z.ltb_spec (consecutive_failures st) (reroll_limit self));
      [|discriminate].
    unfold alloc_fuel in Hf. lia.
  - destruct (Z.ltb_spec (consecutive_failures st) (reroll_limit self))
      as [Hg|]; [|discriminate].
    destruct (alloc_step self strength max_attr mr st g)
      as [[[b st'] g']|] eqn:Es; [|discriminate].
    destruct (all_added self st'); [discriminate|].
    apply IH. pose proof (alloc_step_fuel _ _ _ _ _ _ _ _ _ Hg Es). lia.
Qed.

(** A property kept by every iteration holds when the loop is left, and
    the loop is left only by its guard or by the "all added" test. *)
Lemma alloc_loop_invariant (self : RogueLike) (strength : Z)
    (max_attr mr : Q) (P : alloc -> list bool -> Prop) :
  (forall st steps skill_added st' g g',
     P st steps -> consecutive_failures st < reroll_limit self ->
     alloc_step self strength max_attr mr st g = Some (skill_added, st', g') ->
     P st' (steps ++ [skill_added])) ->
  forall fuel st g steps st' g' steps',
    P st steps ->
    alloc_loop fuel self strength max_attr mr st g steps
    = Finished st' g' steps' ->
    P st' steps'
    /\ (reroll_limit self <= consecutive_failures st'
        \/ all_added self st' = true).
Proof.
  intros Hstep. induction fuel as [|fuel IH];
    intros st g steps st' g' steps' HP H; simpl in H.
  - destruct (Z.ltb_spec (consecutive_failures st) (reroll_limit self));
      [discriminate|].
    injection H as <- <- <-. auto.
  - destruct (Z.ltb_spec (consecutive_failures st) (reroll_limit self))
      as [Hg|Hg].
    + destruct (alloc_step self strength max_attr mr st g)
        as [[[b st1] g1]|] eqn:Es; [|discriminate].
      pose proof (Hstep _ _ _ _ _ _ HP Hg Es) as HP1.
      destruct (all_added self st1) eqn:Ea.
      * injection H as <- <- <-. auto.
      * exact (IH _ _ _ _ _ _ HP1 H).
    + injection H as <- <- <-. auto.
Qed.

(** Without exceptions in the body the loop ends normally. *)
Lemma alloc_loop_finishes (self : RogueLike) (strength : Z)
    (max_attr mr : Q) (fuel : nat) (st : alloc) (g : Py.rng)
    (steps : list bool) :
  catalog_ok self -> (alloc_fuel self st <= fuel)%nat ->
  exists st' g' steps',
    alloc_loop fuel self strength max_attr mr st g steps
    = Finished st' g' steps'.
Proof.
  intros Hok. revert st g steps; induction fuel as [|fuel IH];
    intros st g steps Hf; simpl.
  - destruct (Z.ltb_spec (consecutive_failures st) (reroll_limit self));
      [|eauto].
    unfold alloc_fuel in Hf. lia.
  - destruct (Z.ltb_spec (consecutive_failures st) (reroll_limit self))
      as [Hg|]; [|eauto].
    destruct (alloc_step_total self strength max_attr mr st g Hok)
      as (b & st1 & g1 & Es).
    rewrite Es. destruct (all_added self st1); [eauto|].
    apply IH. pose proof (alloc_step_fuel _ _ _ _ _ _ _ _ _ Hg Es). lia.
Qed.

(** The result of the loop does not depend on spare iterations. *)
Lemma alloc_loop_more_fuel (self : RogueLike) (strength : Z)
    (max_attr mr : Q) (fuel fuel' : nat) (st : alloc) (g : Py.rng)
    (steps : list bool) :
  (fuel <= fuel')%nat ->
  alloc_loop fuel self strength max_attr mr st g steps <> OutOfFuel ->
  alloc_loop fuel' self strength max_attr mr st g steps
  = alloc_loop fuel self strength max_attr mr st g steps.
Proof.
  revert fuel' st g steps; induction fuel as [|fuel IH];
    intros fuel' st g steps Hle H.
  - destruct fuel'; simpl in *;
      destruct (consecutive_failures st <? reroll_limit self); congruence.
  - destruct fuel' as [|fuel']; [lia|]. simpl in *.
    destruct (consecutive_failures st <? reroll_limit self);
      [|reflexivity].
    destruct (alloc_step self strength max_attr mr st g)
      as [[[b st1] g1]|]; [|reflexivity].
    destruct (all_added self st1); [reflexivity|].
    apply IH; [lia|assumption].
Qed.

Lemma failure_runs_snoc (steps : list bool) (b : bool) :
  failure_runs (steps ++ [b]) = run_step (failure_runs steps) b.
Proof. unfold failure_runs. rewrite fold_left_app. reflexivity. Qed.

(** C8. The per-character allocation loop always terminates: with the
    iterations [allocate] grants it the loop is never cut short, more
    iterations do not change its result, and it ends normally whenever the
    catalog is well formed. It is left when
    [consecutiveFailures] has reached [rerollLimit] or when all three
    catalogs are fully active, and for [rerollLimit = k] no run of
    consecutive failed steps is longer than [k]. *)
Theorem allocation_loop_terminates (self : RogueLike) (strength : Z)
    (max_attribute_value max_random : Q) (st : alloc) (g : Py.rng) :
  consecutive_failures st = 0 ->
  allocate self strength max_attribute_value max_random st g <> OutOfFuel
  /\ (forall fuel,
        (alloc_fuel self st <= fuel)%nat ->
        alloc_loop fuel self strength max_attribute_value max_random st g []
        = allocate self strength max_attribute_value max_random st g)
  /\ (catalog_ok self ->
      exists st' g' steps,
        allocate self strength max_attribute_value max_random st g
        = Finished st' g' steps)
  /\ forall st' g' steps,
       allocate self strength max_attribute_value max_random st g
       = Finished st' g' steps ->
       (reroll_limit self <= consecutive_failures st'
        \/ all_added self st' = true)
       /\ (0 <= reroll_limit self ->
           consecutive_failures st' = reroll_limit self
           \/ all_added self st' = true)
       /\ Z.of_nat (trailing_failures steps) = consecutive_failures st'
       /\ Z.of_nat (longest_failure_run steps) <= Z.max 0 (reroll_limit self).
Proof.
  intros H0. unfold allocate.
  split; [apply alloc_loop_enough_fuel; lia|].
  split; [intros fuel Hf; apply alloc_loop_more_fuel;
          [assumption|apply alloc_loop_enough_fuel; lia]|].
  split; [intros Hok; apply alloc_loop_finishes; [assumption|lia]|].
  intros st' g' steps H.
  apply (alloc_loop_invariant self strength max_attribute_value max_random
           (fun s l =>
              Z.of_nat (trailing_failures l) = consecutive_failures s
              /\ Z.of_nat (longest_failure_run l)
                 <= Z.max 0 (reroll_limit self))) in H.
  - destruct H as ((Ht & Hl) & Hexit).
    split; [exact Hexit|]. split; [|split; assumption].
    intros Hk. destruct Hexit as [Hexit|Hexit]; [left|right; assumption].
    unfold longest_failure_run, trailing_failures in *.
    assert (fst (failure_runs steps) <= snd (failure_runs steps))%nat.
    { clear. unfold failure_runs.
      assert (G : forall l a, (fst a <= snd a)%nat ->
                              (fst (fold_left run_step l a)
                               <= snd (fold_left run_step l a))%nat).
      { induction l as [|b l IH]; intros a Ha; simpl; [assumption|].
        apply IH. unfold run_step. destruct b; simpl; lia. }
      apply G. simpl. lia. }
    lia.
  - clear. intros s l b s' g0 g1 (Ht & Hl) Hg Hs.
    apply alloc_step_spec in Hs as (ty & _ & Hcase).
    unfold trailing_failures, longest_failure_run in *.
    rewrite failure_runs_snoc. unfold run_step.
    destruct b.
    + destruct Hcase as (_ & _ & _ & _ & _ & _ & _ & Hf).
      simpl. rewrite Hf. split; [reflexivity|assumption].
    + destruct Hcase as (_ & _ & _ & _ & Hf).
      simpl. rewrite Hf. lia.
  - rewrite H0. cbn. lia.
Qed.

(** ** Encode / decode round trip *)

Lemma NoDup_map_injective {A B} (f : A -> B) (l : list A) (x y : A) :
  NoDup (map f l) -> In x l -> In y l -> f x = f y -> x = y.
Proof.
  induction l as [|a l IH]; intros Hnd Hx Hy Hf; [contradiction|].
  simpl in Hnd. inversion Hnd as [|? ? Hnot Hnd']; subst.
  destruct Hx as [->|Hx], Hy as [->|Hy]; auto.
  - exfalso. apply Hnot. rewrite Hf. apply in_map. assumption.
  - exfalso. apply Hnot. rewrite <- Hf. apply in_map. assumption.
Qed.

Lemma NoDup_snoc {A} (l : list A) (x : A) :
  NoDup l -> ~ In x l -> NoDup (l ++ [x]).
Proof.
  intros Hnd Hnot.
  apply (Permutation_NoDup (l := x :: l)).
  - apply Permutation_cons_append.
  - constructor; assumption.
Qed.

Lemma decoded_enabled (skill : Skill.t) (bytes : list Z) :
  negb (Skill.value skill =? -1) && bit_on bytes (Skill.bit skill) = true
  <-> Skill.value skill <> -1 /\ bit_on bytes (Skill.bit skill) = true.
Proof.
  rewrite andb_true_iff, negb_true_iff, Z.eqb_neq. reflexivity.
Qed.

Lemma codec_consistent_init (self : RogueLike) (st0 : alloc)
    (ty : skill_type) :
  catalog_ok self -> unique_ids self ->
  decode (all_skills self ty) (skill_bytes st0 ty)
  = Some (active_skills st0 ty) ->
  added_skills st0 ty = [] ->
  codec_consistent self st0 st0 ty.
Proof.
  intros Hok Huniq Hdec Hadd.
  rewrite decode_filter in Hdec
    by (intros s Hs; destruct (Hok ty s Hs) as [-> ?]; assumption).
  injection Hdec as Hact.
  unfold codec_consistent. rewrite Hadd, app_nil_r.
  split; [reflexivity|]. rewrite <- Hact.
  split; [apply NoDup_filter; exact (NoDup_map_inv _ _ (Huniq ty))|].
  split.
  - intros s Hs. apply filter_In in Hs as [Hin Hs].
    apply decoded_enabled in Hs. tauto.
  - intros s Hin Hval. rewrite filter_In, decoded_enabled. tauto.
Qed.

Lemma codec_consistent_step (self : RogueLike) (strength : Z)
    (max_attr mr : Q) (st0 st st' : alloc) (g g' : Py.rng)
    (skill_added : bool) :
  catalog_ok self -> unique_ids self ->
  (forall ty, codec_consistent self st0 st ty) ->
  alloc_step self strength max_attr mr st g = Some (skill_added, st', g') ->
  forall ty, codec_consistent self st0 st' ty.
Proof.
  intros Hok Huniq Hinv Hs ty.
  apply alloc_step_spec in Hs as (ty0 & Hother & Hcase).
  destruct (skill_type_eq_dec ty ty0) as [->|Hne].
  2:{ destruct (Hother ty Hne) as (Eb & Ea & Ed).
      unfold codec_consistent. rewrite Eb, Ea, Ed. apply Hinv. }
  destruct (Hinv ty0) as (Happ & Hnd & Hsub & Hbits).
  destruct skill_added.
  - destruct Hcase as (skill & Hin & _ & Henc & Hact & Hadd & _).
    apply available_skills_in in Hin as (Hall & Hnot & Hval).
    destruct (Hok ty0 skill Hall) as [Hbit Hid].
    destruct (encode_bits (skill_bytes st ty0) skill ltac:(lia))
      as (bytes' & Henc' & _ & Hon).
    rewrite Henc in Henc'. injection Henc' as <-.
    unfold codec_consistent. rewrite Hact, Hadd.
    split; [rewrite Happ, app_assoc; reflexivity|].
    split; [apply NoDup_snoc; assumption|].
    split.
    + intros s Hs. apply in_app_or in Hs as [Hs|[<-|[]]]; auto.
    + intros s Hs Hv. destruct (Hok ty0 s Hs) as [Hsbit Hsid].
      rewrite Hon by lia. rewrite orb_true_iff, in_app_iff, Z.eqb_eq.
      rewrite (Hbits s Hs Hv). simpl.
      split; intros [H|H]; auto.
      * right. left. symmetry.
        apply (NoDup_map_injective Skill.id (all_skills self ty0));
          [apply Huniq|assumption|assumption|congruence].
      * destruct H as [<-|[]]. right. reflexivity.
  - destruct Hcase as (Eb & Ea & Ed & _).
    unfold codec_consistent. rewrite Eb, Ea, Ed. apply Hinv.
Qed.

(** C9. Encode/decode round trip: encoding a skill sets bit [id mod 8] of
    byte [id / 8], growing the byte string with zero bytes up to that byte
    when needed, and leaves every other bit as it was; so, for every
    category, decoding the skill bytes after the allocation loop yields
    exactly the originally active skills together with the skills added
    during the run, without duplicates. *)
Theorem encode_decode_round_trip (self : RogueLike) (strength : Z)
    (max_attribute_value max_random : Q) (st0 st : alloc)
    (g g' : Py.rng) (steps : list bool) :
  catalog_ok self -> unique_ids self ->
  (forall ty, decode (all_skills self ty) (skill_bytes st0 ty)
              = Some (active_skills st0 ty)) ->
  (forall ty, added_skills st0 ty = []) ->
  allocate self strength max_attribute_value max_random st0 g
  = Finished st g' steps ->
  (forall ty skill bytes,
     In skill (all_skills self ty) ->
     exists bytes',
       encode bytes skill = Some bytes'
       /\ Py.len bytes' = Z.max (Py.len bytes) (Skill.id skill / 8 + 1)
       /\ forall n, 0 <= n ->
            bit_on bytes' n = bit_on bytes n || (n =? Skill.id skill))
  /\ forall ty,
       exists decoded,
         decode (all_skills self ty) (skill_bytes st ty) = Some decoded
         /\ Permutation decoded (active_skills st0 ty ++ added_skills st ty)
         /\ NoDup (active_skills st0 ty ++ added_skills st ty)
         /\ active_skills st ty = active_skills st0 ty ++ added_skills st ty.
Proof.
  intros Hok Huniq Hdec Hadd Hrun. split.
  - intros ty skill bytes Hin. destruct (Hok ty skill Hin) as [Hbit Hid].
    rewrite <- Hbit. apply encode_bits. lia.
  - unfold allocate in Hrun.
    apply (alloc_loop_invariant self strength max_attribute_value max_random
             (fun s _ => forall ty, codec_consistent self st0 s ty))
      in Hrun.
    + destruct Hrun as [Hinv _]. intros ty.
      destruct (Hinv ty) as (Happ & Hnd & Hsub & Hbits).
      eexists. split.
      * apply decode_filter. intros s Hs.
        destruct (Hok ty s Hs) as [-> ?]. assumption.
      * rewrite <- Happ. split; [|split; [assumption|reflexivity]].
        apply NoDup_Permutation;
          [apply NoDup_filter; exact (NoDup_map_inv _ _ (Huniq ty))
          |assumption|].
        intros s. rewrite filter_In, decoded_enabled. split.
        -- intros (Hin & Hv & Hon). apply (Hbits s Hin Hv). assumption.
        -- intros Hs. destruct (Hsub s Hs) as [Hin Hv].
           split; [assumption|]. split; [assumption|].
           apply (Hbits s Hin Hv). assumption.
    + intros s l b s' g0 g1 Hinv _ Hs.
      eapply codec_consistent_step; eassumption.
    + intros ty. apply codec_consistent_init; auto.
Qed.

(** ** Writing the skill bytes back *)

Lemma write_back_spec (save_data save_data' : list Z) (offset : Z)
    (bs : list Z) :
  0 <= offset ->
  write_back save_data offset bs = Some save_data' ->
  length save_data' = length save_data
  /\ (bs <> [] -> offset + Py.len bs <= Py.len save_data)
  /\ forall j, ~ (offset <= Z.of_nat j < offset + Py.len bs) ->
               nth_error save_data' j = nth_error save_data j.
Proof.
  revert save_data offset; induction bs as [|b rest IH];
    intros save_data offset Hoff H; simpl in H.
  - injection H as <-. repeat split; auto. congruence.
  - rewrite set_nonneg in H by assumption.
    destruct (Py.set_nth save_data (Z.to_nat offset) b) as [d|] eqn:Es;
      [|discriminate].
    apply set_nth_spec in Es as (Hn & Hl & _ & Ho).
    apply IH in H as (Hl' & Hfit & Hfr); [|lia].
    unfold Py.len in *. simpl length.
    split; [lia|]. split.
    + intros _. destruct rest as [|b' rest'].
      * simpl. lia.
      * specialize (Hfit ltac:(discriminate)). simpl length in *. lia.
    + intros j Hj. rewrite Hfr by lia. apply Ho. lia.
Qed.

Lemma write_back_total (save_data : list Z) (offset : Z) (bs : list Z) :
  0 <= offset -> offset + Py.len bs <= Py.len save_data ->
  exists save_data', write_back save_data offset bs = Some save_data'.
Proof.
  revert save_data offset; induction bs as [|b rest IH];
    intros save_data offset Hoff Hfit; simpl; [eauto|].
  unfold Py.len in *. simpl length in *.
  rewrite set_nonneg by assumption.
  destruct (set_nth_total save_data (Z.to_nat offset) b) as [d Hd]; [lia|].
  rewrite Hd. apply set_nth_spec in Hd as (_ & Hl & _).
  apply IH; lia.
Qed.

Lemma write_back_fits (save_data : list Z) (offset : Z) (bs : list Z) :
  0 <= offset ->
  bs = [] \/ offset + Py.len bs <= Py.len save_data ->
  exists save_data',
    write_back save_data offset bs = Some save_data'
    /\ length save_data' = length save_data.
Proof.
  intros Hoff [->|Hfit].
  - exists save_data. split; reflexivity.
  - destruct (write_back_total save_data offset bs Hoff Hfit) as [d Hd].
    exists d. split; [exact Hd|].
    apply (write_back_spec _ _ _ _ Hoff Hd).
Qed.

(** The three write-backs of one character (lines 665-674). *)
Lemma write_back_three (save_data d3 : list Z) (f : fields) (a : alloc) :
  0 <= strength_offset f ->
  personal_offset f = strength_offset f + 652 ->
  commander_offset f = strength_offset f + 668 ->
  marshal_offset f = strength_offset f + 684 ->
  (let? d1 := write_back save_data (marshal_offset f)
                (skill_bytes a marshal) in
   let? d2 := write_back d1 (commander_offset f)
                (skill_bytes a commander) in
   write_back d2 (personal_offset f) (skill_bytes a personal)) = Some d3 ->
  length d3 = length save_data
  /\ (forall ty, skill_bytes a ty <> [] ->
        skill_offset f ty + Py.len (skill_bytes a ty) <= Py.len save_data)
  /\ forall j,
       (forall ty, ~ (skill_offset f ty <= Z.of_nat j
                      < skill_offset f ty + Py.len (skill_bytes a ty))) ->
       nth_error d3 j = nth_error save_data j.
Proof.
  intros Hso Hp Hc Hm H.
  destruct (write_back save_data _ _) as [d1|] eqn:E1; [|discriminate].
  destruct (write_back d1 _ _) as [d2|] eqn:E2; [|discriminate].
  apply write_back_spec in E1 as (L1 & F1 & N1); [|lia].
  apply write_back_spec in E2 as (L2 & F2 & N2); [|lia].
  apply write_back_spec in H as (L3 & F3 & N3); [|lia].
  unfold Py.len in *.
  split; [lia|]. split.
  - intros [] Hne; simpl; [apply F1|rewrite <- L1; apply F2
                           |rewrite <- L1, <- L2; apply F3]; assumption.
  - intros j Hj.
    rewrite N3 by (apply (Hj personal)).
    rewrite N2 by (apply (Hj commander)).
    apply N1. apply (Hj marshal).
Qed.

(** ** One character *)

Lemma unpack_i32_short (bs : list Z) :
  Py.len bs <> 4 -> Py.unpack_i32 bs = None.
Proof.
  unfold Py.len. intros H.
  destruct bs as [|? [|? [|? [|? [|? ?]]]]]; simpl in *;
    reflexivity || lia.
Qed.

Lemma unpack_i32_outside (save_data : list Z) (a : Z) :
  0 <= a -> Py.len save_data < a + 4 ->
  Py.unpack_i32 (Py.slice save_data a (a + 4)) = None.
Proof.
  intros Ha Hl. apply unpack_i32_short.
  pose proof (slice_short save_data a (a + 4) Ha ltac:(lia) Hl). lia.
Qed.

Lemma resolve_fields_offsets (save_data : list Z) (r : Z) (f : fields) :
  resolve_fields save_data r = Some f ->
  r + 26 <= strength_offset f
  /\ intelligence_offset f = strength_offset f + 4
  /\ personal_offset f = strength_offset f + 652
  /\ commander_offset f = strength_offset f + 668
  /\ marshal_offset f = strength_offset f + 684.
Proof.
  unfold resolve_fields; intros H.
  destruct (Py.unpack_i32 _) as [skip|]; [|discriminate].
  injection H as <-. cbn.
  destruct (Z.gtb_spec skip 0); repeat split; lia.
Qed.


Lemma fold_left_max_spec (t : list Z) (x : Z) :
  x <= fold_left Z.max t x
  /\ (forall y, In y t -> y <= fold_left Z.max t x)
  /\ (fold_left Z.max t x = x \/ In (fold_left Z.max t x) t).
Proof.
  revert x; induction t as [|h t IH]; intros x; simpl.
  - split; [lia|]. split; [contradiction|]. left; reflexivity.
  - destruct (IH (Z.max x h)) as (H1 & H2 & H3).
    split; [lia|]. split.
    + intros y [<-|Hy]; [lia|auto].
    + destruct H3 as [H3|H3]; [|right; right; assumption].
      rewrite H3. destruct (Z.max_spec x h) as [[_ ->]|[_ ->]]; auto.
Qed.

Lemma max_of_spec (l : list Z) (m : Z) :
  max_of l = Some m -> In m l /\ forall x, In x l -> x <= m.
Proof.
  destruct l as [|x t]; simpl; [discriminate|].
  intros H; injection H as <-.
  destruct (fold_left_max_spec t x) as (H1 & H2 & H3).
  split; [destruct H3 as [->|H3]; [left; reflexivity|right; assumption]|].
  intros y [<-|Hy]; auto.
Qed.

(** The skill bytes of a category never outgrow its region. *)
Lemma allocate_character_lengths (self : RogueLike) (save_data : list Z)
    (f : fields) (strength intelligence : Z) (g g' : Py.rng) (a : alloc) :
  catalog_ok self ->
  allocate_character self save_data f strength intelligence g
  = Some (a, g') ->
  forall ty, Py.len (skill_bytes a ty)
             <= region_length (all_skills self ty).
Proof.
  intros Hok H. unfold allocate_character, bytes_needed in H.
  destruct (max_of (map Skill.id (marshal_skills self))) as [mm|] eqn:Em;
    [|discriminate].
  destruct (max_of (map Skill.id (commander_skills self))) as [mc|] eqn:Ec;
    [|discriminate].
  destruct (max_of (map Skill.id (personal_skills self))) as [mp|] eqn:Ep;
    [|discriminate].
  cbv beta iota zeta in H.
  repeat (case_match_in H; try discriminate).
  injection H as <- <-.
  assert (Hreg : forall ty m, max_of (map Skill.id (all_skills self ty))
                              = Some m ->
                 region_length (all_skills self ty) = m / 8 + 1
                 /\ 0 <= m
                 /\ forall skill, In skill (all_skills self ty) ->
                                  0 <= Skill.bit skill <= m).
  { intros ty m E. unfold region_length. rewrite E.
    apply max_of_spec in E as [Hin Hmax].
    apply in_map_iff in Hin as (s & <- & Hs).
    split; [reflexivity|]. split; [apply (Hok ty s Hs)|].
    intros skill Hskill. destruct (Hok ty skill Hskill) as [-> ?].
    split; [assumption|]. apply Hmax, in_map. assumption. }
  match goal with
  | E : allocate _ _ _ _ _ _ = Finished _ _ _ |- _ =>
      unfold allocate in E;
      apply (alloc_loop_invariant _ _ _ _
               (fun s _ => forall ty, Py.len (skill_bytes s ty)
                                      <= region_length (all_skills self ty)))
        in E
  end.
  - tauto.
  - intros sa la ba sb ga gb Hinv _ Hs ty.
    apply alloc_step_spec in Hs as (ty0 & Hother & Hcase).
    destruct (skill_type_eq_dec ty ty0) as [->|Hne];
      [|rewrite (proj1 (Hother ty Hne)); apply Hinv].
    destruct ba.
    + destruct Hcase as (skill & Hin & _ & Henc & _).
      apply available_skills_in in Hin as (Hall & _).
      assert (Hm : exists m, max_of (map Skill.id (all_skills self ty0))
                             = Some m)
        by (destruct ty0; simpl; eauto).
      destruct Hm as [m Hm]. destruct (Hreg ty0 m Hm) as (Hr & Hm0 & Hb).
      destruct (encode_bits (skill_bytes sa ty0) skill) as (b' & He & Hl & _);
        [apply Hb; assumption|].
      rewrite Henc in He. injection He as <-.
      rewrite Hl, Hr. specialize (Hinv ty0). rewrite Hr in Hinv.
      pose proof (Z.div_le_mono (Skill.bit skill) m 8 ltac:(lia)
                    (proj2 (Hb skill Hall))).
      lia.
    + destruct Hcase as (-> & _). apply Hinv.
  - assert (Hinit : forall ty m off,
               max_of (map Skill.id (all_skills self ty)) = Some m ->
               Py.len (Py.slice save_data off (off + (m + 7) / 8))
               <= region_length (all_skills self ty)).
    { intros ty m off Hm. destruct (Hreg ty m Hm) as (Hr & Hm0 & _).
      rewrite Hr.
      pose proof (slice_length_le save_data off (off + (m + 7) / 8)).
      assert ((m + 7) / 8 <= m / 8 + 1).
      { replace (m + 7) with (m - 1 + 1 * 8) by lia.
        rewrite Z.div_add by lia.
        pose proof (Z.div_le_mono (m - 1) m 8 ltac:(lia) ltac:(lia)). lia. }
      pose proof (Z.div_pos m 8 Hm0 ltac:(lia)). lia. }
    intros ty. cbn [skill_bytes].
    destruct ty; eapply Hinit; eassumption.
Qed.

Lemma locate_found_ge (debug : bool) (save_data : list Z)
    (search_position char_id : Z) (idb : list Z) (p : Z) :
  locate debug save_data search_position char_id idb = Found p ->
  search_position <= p.
Proof.
  intros H.
  pose proof (locate_cases debug save_data search_position char_id idb) as Hc.
  cbv zeta in Hc.
  destruct (Py.first_in_range (strict_match save_data idb) _ _) as [i|] eqn:Es.
  - rewrite Hc in H. injection H as <-.
    apply first_in_range_some in Es. lia.
  - destruct Hc as [[_ Hc]|[_ Hc]]; rewrite Hc in H; [discriminate|].
    destruct (Py.first_in_range (relaxed_match save_data idb) _ _) as [i|]
      eqn:Er; [|discriminate].
    injection H as <-. apply first_in_range_some in Er. lia.
Qed.





(** ** The whole run *)



Lemma process_ids_app (self : RogueLike) (ids1 ids2 : list Z) (st : state) :
  process_ids self (ids1 ++ ids2) st
  = match process_ids self ids1 st with
    | Some st' => process_ids self ids2 st'
    | None => None
    end.
Proof.
  revert st; induction ids1 as [|i ids1 IH]; intros st; simpl;
    [reflexivity|].
  destruct (process_character self st i); [apply IH|reflexivity].
Qed.

(** C4 (as the code has it). Every fatal error aborts the entire run and no
    output file is written: an aborted character ends the loop over the ids
    at once, whatever ids follow. For every located character, a skip
    count, strength or intelligence field that is not inside the buffer
    aborts the run. A skill bitfield that reaches past the end of the
    buffer aborts the run when skill bytes that have to be written back lie
    outside the buffer; when the skill bytes to write back fit (bytes of a
    bitfield missing at the end of the buffer are read as absent), the
    character is processed and the run goes on. *)
Theorem fatal_errors_abort_run (self : RogueLike) :
  (forall input g before char_id after st,
     character_ids (last_character_number self)
     = before ++ char_id :: after ->
     process_ids self before (initial_state input g) = Some st ->
     process_character self st char_id = Abort ->
     process_save_file self input g = None)
  /\ forall st char_id char_id_bytes pattern_pos,
       0 <= search_position st ->
       char_id_bytes_of char_id = Some char_id_bytes ->
       locate (debug_mode self) (save_data st) (search_position st) char_id
         char_id_bytes = Found pattern_pos ->
       (Py.len (save_data st) < pattern_pos + 26 ->
        process_character self st char_id = Abort)
       /\ forall f,
            resolve_fields (save_data st) pattern_pos = Some f ->
            (Py.len (save_data st) < strength_offset f + 4
             \/ Py.len (save_data st) < intelligence_offset f + 4 ->
             process_character self st char_id = Abort)
            /\ forall strength intelligence a g',
                 Py.unpack_i32 (Py.slice (save_data st) (strength_offset f)
                                  (strength_offset f + 4)) = Some strength ->
                 Py.unpack_i32 (Py.slice (save_data st) (intelligence_offset f)
                                  (intelligence_offset f + 4))
                 = Some intelligence ->
                 (strength =? 0) && (intelligence =? 0) = false ->
                 allocate_character self (save_data st) f
                   (fst (cap_stats strength intelligence))
                   (snd (cap_stats strength intelligence)) (gen st)
                 = Some (a, g') ->
                 ((exists ty,
                     skill_bytes a ty <> []
                     /\ Py.len (save_data st)
                        < skill_offset f ty + Py.len (skill_bytes a ty)) ->
                  process_character self st char_id = Abort)
                 /\ ((forall ty,
                        skill_bytes a ty = []
                        \/ skill_offset f ty + Py.len (skill_bytes a ty)
                           <= Py.len (save_data st)) ->
                     exists st', process_character self st char_id = Next st').
Proof.
  split.
  - intros input g before char_id after st Hids Hpre Hab.
    unfold process_save_file. rewrite Hids, process_ids_app, Hpre.
    simpl. rewrite Hab. reflexivity.
  - intros st char_id idb p Hsp Hidb Hloc.
    pose proof (locate_found_ge _ _ _ _ _ _ Hloc) as Hp.
    assert (Hpc : process_character self st char_id
                  = process_found self st char_id p)
      by (unfold process_character; rewrite Hidb, Hloc; reflexivity).
    rewrite Hpc. unfold process_found. split.
    + intros Hout. unfold resolve_fields.
      rewrite (unpack_i32_outside (save_data st) (p + 22)) by lia.
      reflexivity.
    + intros f Hf. rewrite Hf.
      pose proof (resolve_fields_offsets _ _ _ Hf)
        as (Hso & Hio & Hpo & Hco & Hmo).
      split.
      * intros [Hout|Hout].
        -- rewrite (unpack_i32_outside (save_data st) (strength_offset f))
             by lia.
           reflexivity.
        -- rewrite (unpack_i32_outside (save_data st) (intelligence_offset f))
             by lia.
           destruct (Py.unpack_i32 _); reflexivity.
      * intros s i a g' Hs Hi Hnz Ha.
        rewrite Hs, Hi, Hnz.
        destruct (cap_stats s i) as [s' i']. cbn [fst snd] in Ha.
        rewrite Ha. split.
        -- intros (ty & Hne & Hout).
           match goal with
           | |- match ?w with _ => _ end = _ => destruct w as [d3|] eqn:Ew
           end; [|reflexivity].
           apply write_back_three in Ew as (_ & Hfit & _);
             try assumption; [|lia].
           specialize (Hfit ty Hne). lia.
        -- intros Hfit.
           destruct (write_back_fits (save_data st) (marshal_offset f)
                       (skill_bytes a marshal) ltac:(lia) (Hfit marshal))
             as (d1 & -> & L1).
           destruct (write_back_fits d1 (commander_offset f)
                       (skill_bytes a commander) ltac:(lia))
             as (d2 & -> & L2).
           { unfold Py.len in *. rewrite L1. apply (Hfit commander). }
           destruct (write_back_fits d2 (personal_offset f)
                       (skill_bytes a personal) ltac:(lia))
             as (d3 & -> & L3).
           { unfold Py.len in *. rewrite L2, L1. apply (Hfit personal). }
           eauto.
Qed.

(** ** The random draw of an iteration *)

Lemma int_of_bound (q : Q) :
  Z.max 1 (Py.int_of q - 1) = Z.max 1 (Qfloor q - 1).
Proof.
  destruct q as [n d]. unfold Py.int_of, Qfloor. cbn [Qnum Qden].
  destruct (Z.le_gt_cases 0 n) as [Hn|Hn].
  - rewrite Z.quot_div_nonneg by lia. reflexivity.
  - assert (n / Z.pos d < 0) by (apply Z.div_lt_upper_bound; lia).
    assert (Z.quot n (Z.pos d) <= 0).
    { replace n with (- (- n)) by lia. rewrite Z.quot_opp_l by lia.
      pose proof (Z.quot_pos (- n) (Z.pos d) ltac:(lia) ltac:(lia)). lia. }
    lia.
Qed.

(** C3 (as the code has it). In every iteration of the allocation loop
    [randomValue] is drawn from the inclusive integer range
    [0, max(1, floor(maxRandom) - 1)], where
    [maxRandom = strength*strRandomRate + intelligence*intRandomRate]; the
    draw is uniform: the values of the range correspond one to one to the
    residues of the raw draw. *)
Theorem random_value_range (self : RogueLike) (strength intelligence : Z)
    (g : Py.rng) :
  max_random_of self strength intelligence
  = (inject_Z strength * str_random_rate self
     + inject_Z intelligence * int_random_rate self)%Q
  /\ random_value_bound (max_random_of self strength intelligence)
     = Z.max 1 (Qfloor (max_random_of self strength intelligence) - 1)
  /\ (exists v g',
        draw_random_value (max_random_of self strength intelligence) g
        = Some (v, g')
        /\ 0 <= v
           <= Z.max 1 (Qfloor (max_random_of self strength intelligence) - 1))
  /\ (forall v,
        0 <= v
        <= Z.max 1 (Qfloor (max_random_of self strength intelligence) - 1) ->
        Py.randint_value 0
          (random_value_bound (max_random_of self strength intelligence)) v
        = v)
  /\ (forall r r',
        Py.randint_value 0
          (random_value_bound (max_random_of self strength intelligence)) r
        = Py.randint_value 0
            (random_value_bound (max_random_of self strength intelligence)) r'
        <-> r mod (random_value_bound
                     (max_random_of self strength intelligence) + 1)
            = r' mod (random_value_bound
                        (max_random_of self strength intelligence) + 1)).
Proof.
  set (mr := max_random_of self strength intelligence).
  assert (Hb : random_value_bound mr = Z.max 1 (Qfloor mr - 1))
    by apply int_of_bound.
  split; [reflexivity|]. split; [exact Hb|]. rewrite <- Hb.
  assert (Hpos : 1 <= random_value_bound mr)
    by (unfold random_value_bound; lia).
  split.
  - unfold draw_random_value.
    destruct (randint_total 0 (random_value_bound mr) g) as [g' ->]; [lia|].
    eexists _, g'. split; [reflexivity|].
    unfold Py.randint_value.
    pose proof (Z.mod_pos_bound (Py.raw g (Py.used g))
                  (random_value_bound mr - 0 + 1) ltac:(lia)).
    lia.
  - split.
    + intros v Hv. unfold Py.randint_value.
      rewrite Z.mod_small by lia. lia.
    + intros r r'. unfold Py.randint_value.
      replace (random_value_bound mr - 0 + 1)
        with (random_value_bound mr + 1) by lia.
      lia.
Qed.

(** C3 fails as worded: with strength 1 and intelligence 0 (rates 1),
    [maxRandom] is 1 and the worded range is [0, 0], yet the draw can
    return 1. *)
Lemma random_value_outside_claimed_range :
  claimed_random_value_bound (max_random_of ex_self 1 0) = 0
  /\ draw_random_value (max_random_of ex_self 1 0) ex_ones
     = Some (1, {| Py.raw := Py.raw ex_ones; Py.used := 1 |})
  /\ ~ (0 <= 1 <= claimed_random_value_bound (max_random_of ex_self 1 0)).
Proof.
  split; [reflexivity|]. split; [reflexivity|].
  change (claimed_random_value_bound (max_random_of ex_self 1 0)) with 0.
  lia.
Qed.

(** ** The number of bitfield bytes *)

(** [bytes_needed] against the worded byte length: they agree unless the
    highest id is a multiple of 8, where [bytes_needed] is one byte
    short. *)
Lemma bytes_needed_compare (skills : list Skill.t) (m : Z) :
  max_of (map Skill.id skills) = Some m ->
  bytes_needed skills = Some ((m + 7) / 8)
  /\ claimed_byte_length skills = Some (m / 8 + 1)
  /\ (m mod 8 = 0 -> (m + 7) / 8 = m / 8)
  /\ (m mod 8 <> 0 -> (m + 7) / 8 = m / 8 + 1).
Proof.
  intros E. unfold bytes_needed, claimed_byte_length. rewrite E.
  pose proof (Z.div_mod m 8 ltac:(lia)) as Hdm.
  pose proof (Z.mod_pos_bound m 8 ltac:(lia)) as Hmod.
  set (q := m / 8) in *. set (r := m mod 8) in *.
  assert (Hc : - (- (m + 1) / 8) = q + 1).
  { replace (- (m + 1)) with (7 - r + (- (q + 1)) * 8) by lia.
    rewrite Z.div_add by lia. rewrite Z.div_small by lia. lia. }
  assert (H0 : r = 0 -> (m + 7) / 8 = q).
  { intros Hr. replace (m + 7) with (7 + q * 8) by lia.
    rewrite Z.div_add by lia. reflexivity. }
  assert (H1 : r <> 0 -> (m + 7) / 8 = q + 1).
  { intros Hr. replace (m + 7) with (r - 1 + (q + 1) * 8) by lia.
    rewrite Z.div_add by lia. rewrite Z.div_small by lia. lia. }
  rewrite Hc. auto.
Qed.

(** C2 at a category whose highest id is 8: the code extracts one byte
    where the claim has [ceil((8+1)/8) = 2], so the set bit of skill 8,
    which lives in the second byte, is not decoded. *)
Theorem bytes_needed_one_short_at_multiple_of_8 :
  bytes_needed ex_eight = Some 1
  /\ claimed_byte_length ex_eight = Some 2
  /\ Py.slice ex_eight_bytes 0 (0 + 1) = [0]
  /\ decode ex_eight (Py.slice ex_eight_bytes 0 (0 + 1)) = Some []
  /\ decode ex_eight (Py.slice ex_eight_bytes 0 (0 + 2)) = Some ex_eight
  /\ bytes_needed [ex_skill 0 10] = Some 0
  /\ claimed_byte_length [ex_skill 0 10] = Some 1.
Proof. repeat split; reflexivity. Qed.

(** ** The properties at the example inputs *)

Lemma ex_self_catalog_ok : catalog_ok ex_self.
Proof.
  intros ty skill. destruct ty; simpl;
    intros H; repeat (destruct H as [<-|H]); try contradiction;
    simpl; lia.
Qed.

Lemma ex_self_unique_ids : unique_ids ex_self.
Proof.
  intros ty. destruct ty; simpl; repeat constructor; simpl;
    intuition discriminate.
Qed.

Lemma ex_small_bytes : Forall is_byte ex_small.
Proof. repeat constructor; unfold is_byte; lia. Qed.


Lemma field_resolution_witness :
  0 <= 3 /\ Forall is_byte ex_small /\ 3 + 26 <= Py.len ex_small
  /\ exists f,
       resolve_fields ex_small 3 = Some f
       /\ skip_value f = 0 /\ strength_offset f = 29
       /\ intelligence_offset f = 33 /\ personal_offset f = 681
       /\ commander_offset f = 697 /\ marshal_offset f = 713.
Proof.
  split; [lia|]. split; [exact ex_small_bytes|].
  split; [vm_compute; discriminate|].
  destruct (field_resolution ex_small 3 ltac:(lia) ex_small_bytes
              ltac:(vm_compute; discriminate))
    as (b0 & b1 & b2 & b3 & f & _ & Hf & _ & Hso & Hio & Hpo & Hco & Hmo).
  exists f. split; [exact Hf|].
  assert (Hskip : skip_value f = 0)
    by (vm_compute in Hf; injection Hf as <-; reflexivity).
  rewrite Hskip in Hso. cbn in Hso.
  repeat split; lia.
Defined.

Lemma bounded_window_skips_missing_character_witness :
  1 < 2 < 2 ^ 31 /\ 0 <= search_position ex_state_empty
  /\ exists st',
       process_character ex_self ex_state_empty 2 = Next st'
       /\ search_position st' = search_position ex_state_empty
       /\ save_data st' = save_data ex_state_empty
       /\ log st' = [NotFound 2].
Proof.
  split; [lia|]. split; [simpl; lia|].
  destruct (bounded_window_skips_missing_character ex_self ex_state_empty 2
              ltac:(lia) ltac:(simpl; lia)) as (_ & _ & _ & Hskip & _).
  destruct Hskip as (st' & Hpc & Hsp & Hdata & _ & _ & _ & _ & Hlog & _).
  - intros i Hi.
    change (Z.min (search_position ex_state_empty + 1200)
              (Py.len (save_data ex_state_empty) - 25)) with 1200 in Hi.
    change (search_position ex_state_empty) with 0 in Hi.
    assert (E : Py.first_in_range
                  (strict_match (save_data ex_state_empty) (id_bytes 2))
                  0 1200 = None) by (vm_compute; reflexivity).
    pose proof (strict_scan_spec (save_data ex_state_empty) 2 0 1200
                  ltac:(lia)) as Hs.
    rewrite E in Hs. apply Hs. exact Hi.
  - exists st'. auto.
Defined.


Lemma allocation_loop_terminates_witness :
  consecutive_failures ex_alloc = 0
  /\ allocate ex_self 100 (2367 # 10) (190 # 1) ex_alloc ex_gen <> OutOfFuel
  /\ exists st' g' steps,
       allocate ex_self 100 (2367 # 10) (190 # 1) ex_alloc ex_gen
       = Finished st' g' steps
       /\ consecutive_failures st' = 3
       /\ Z.of_nat (longest_failure_run steps) <= 3.
Proof.
  split; [reflexivity|].
  destruct (allocation_loop_terminates ex_self 100 (2367 # 10) (190 # 1)
              ex_alloc ex_gen eq_refl) as (Hfuel & _ & Hfin & Hexit).
  split; [exact Hfuel|].
  destruct (Hfin ex_self_catalog_ok) as (st' & g' & steps & Hrun).
  exists st', g', steps. split; [exact Hrun|].
  destruct (Hexit _ _ _ Hrun) as (_ & Hreach & _ & Hlong).
  split; [|exact Hlong].
  destruct (Hreach ltac:(simpl; lia)) as [Hk|Hall]; [exact Hk|].
  unfold allocate in Hrun. vm_compute in Hrun.
  injection Hrun as <- _ _. vm_compute in Hall. discriminate.
Defined.

Lemma encode_decode_round_trip_witness :
  catalog_ok ex_self /\ unique_ids ex_self
  /\ (forall ty, decode (all_skills ex_self ty) (skill_bytes ex_alloc ty)
                 = Some (active_skills ex_alloc ty))
  /\ (forall ty, added_skills ex_alloc ty = [])
  /\ exists st g' steps,
       allocate ex_self 100 (2367 # 10) (190 # 1) ex_alloc ex_gen
       = Finished st g' steps
       /\ forall ty,
            exists decoded,
              decode (all_skills ex_self ty) (skill_bytes st ty)
              = Some decoded
              /\ Permutation decoded
                   (active_skills ex_alloc ty ++ added_skills st ty).
Proof.
  assert (Hdec : forall ty,
             decode (all_skills ex_self ty) (skill_bytes ex_alloc ty)
             = Some (active_skills ex_alloc ty))
    by (intros []; reflexivity).
  split; [exact ex_self_catalog_ok|]. split; [exact ex_self_unique_ids|].
  split; [exact Hdec|]. split; [reflexivity|].
  destruct (alloc_loop_finishes ex_self 100 (2367 # 10) (190 # 1)
              (alloc_fuel ex_self ex_alloc) ex_alloc ex_gen []
              ex_self_catalog_ok (Nat.le_refl _))
    as (st & g' & steps & Hrun).
  fold (allocate ex_self 100 (2367 # 10) (190 # 1) ex_alloc ex_gen) in Hrun.
  exists st, g', steps. split; [exact Hrun|].
  destruct (encode_decode_round_trip ex_self 100 (2367 # 10) (190 # 1)
              ex_alloc st ex_gen g' steps ex_self_catalog_ok
              ex_self_unique_ids Hdec (fun _ => eq_refl) Hrun)
    as (_ & Hround).
  intros ty. destruct (Hround ty) as (decoded & Hd & Hp & _).
  exists decoded. auto.
Defined.


Lemma fatal_errors_abort_run_witness :
  process_character ex_self (initial_state ex_blank ex_gen) 1 = Abort
  /\ process_save_file ex_self ex_blank ex_gen = None.
Proof.
  assert (Hab : process_character ex_self (initial_state ex_blank ex_gen) 1
                = Abort) by (vm_compute; reflexivity).
  split; [exact Hab|].
  destruct (fatal_errors_abort_run ex_self) as [Hrun _].
  apply (Hrun ex_blank ex_gen [] 1 [2; 3] (initial_state ex_blank ex_gen));
    [reflexivity|reflexivity|exact Hab].
Defined.

(** C4 fails as worded for the skill bitfields: in [ex_truncated] the
    record of character 1 is found and its stats are read, all three
    bitfields start beyond the end of the buffer, and the run neither
    aborts nor skips: it completes and writes the buffer out unchanged. *)
Lemma bitfield_outside_buffer_run_completes :
  resolve_fields ex_truncated 0x20000
  = Some {| skip_value := 0; strength_offset := 131098;
            intelligence_offset := 131102; personal_offset := 131750;
            commander_offset := 131766; marshal_offset := 131782 |}
  /\ Py.len ex_truncated = 131106
  /\ exists st,
       process_save_file ex_costly ex_truncated ex_gen = Some st
       /\ save_data st = ex_truncated
       /\ log st = [Processing 1 131072 131098 131102;
                    CharacterStats 1 100 90].
Proof.
  split; [vm_compute; reflexivity|].
  split; [vm_compute; reflexivity|].
  assert (Hs : match process_save_file ex_costly ex_truncated ex_gen with
               | Some st =>
                   Py.bytes_eqb (save_data st) ex_truncated
                   && if list_eq_dec event_eq_dec (log st)
                           [Processing 1 131072 131098 131102;
                            CharacterStats 1 100 90]
                      then true else false
               | None => false
               end = true) by (vm_compute; reflexivity).
  destruct (process_save_file ex_costly ex_truncated ex_gen) as [st|];
    [|discriminate Hs].
  exists st. split; [reflexivity|].
  apply andb_true_iff in Hs as [Hd Hl].
  split; [apply bytes_eqb_eq; exact Hd|].
  destruct (list_eq_dec event_eq_dec (log st) _); [assumption|discriminate].
Qed.

(** * Further properties of the program *)

(** ** The search for a record *)

Lemma first_in_range_complete (p : Z -> bool) (start stop j : Z) :
  start <= j < stop -> p j = true ->
  exists k, Py.first_in_range p start stop = Some k.
Proof.
  intros Hj Hp. destruct (Py.first_in_range p start stop) eqn:E; [eauto|].
  rewrite (first_in_range_none _ _ _ E j Hj) in Hp. discriminate.
Qed.

(** A position that passes the regular test passes the relaxed one. *)
Lemma strict_match_relaxed (save_data idb : list Z) (i : Z) :
  strict_match save_data idb i = true ->
  relaxed_match save_data idb i = true.
Proof.
  unfold strict_match, relaxed_match. intros H.
  destruct (Z.gtb_spec (i + 22) (Py.len save_data)) as [|Hlen];
    [discriminate|].
  destruct (Py.bytes_eqb (Py.slice save_data i (i + 2)) idb);
    [|discriminate].
  destruct (Py.bytes_eqb (Py.slice save_data (i + 4) (i + 9)) mark_nul);
    [|discriminate].
  destruct (Py.bytes_eqb (Py.slice save_data (i + 9) (i + 11)) idb) eqn:E9;
    [|discriminate].
  cbn [negb] in *.
  destruct (Z.ltb_spec (i + 4) (Py.len save_data)); [|lia].
  cbn [andb orb].
  destruct (first_in_range_complete
              (fun j => Py.bytes_eqb (Py.slice save_data j (j + 2)) idb)
              (i + 2) (Z.min (i + 20) (Py.len save_data - 2)) (i + 9))
    as [k ->]; [lia| |reflexivity].
  replace (i + 9 + 2) with (i + 11) by lia. exact E9.
Qed.

(** Without a position that passes the relaxed test, the search for
    character 1 fails. *)
Lemma locate_first_none (debug : bool) (save_data : list Z)
    (search_position : Z) (idb : list Z) :
  (forall i, search_position <= i < Py.len save_data - 25 ->
             relaxed_match save_data idb i = false) ->
  locate debug save_data search_position 1 idb = NoFirstCharacter.
Proof.
  intros Hnone.
  pose proof (locate_cases debug save_data search_position 1 idb) as Hc.
  cbv zeta in Hc.
  change (max_search_position save_data search_position 1)
    with (Py.len save_data - 25) in Hc.
  destruct (Py.first_in_range (strict_match save_data idb) _ _) as [k|]
    eqn:Es.
  - apply first_in_range_some in Es as (Hk & Hm & _).
    apply strict_match_relaxed in Hm.
    rewrite (Hnone k Hk) in Hm. discriminate.
  - destruct Hc as [[Hne _]|[_ Hc]]; [congruence|].
    rewrite Hc.
    destruct (Py.first_in_range (relaxed_match save_data idb) _ _) as [k|]
      eqn:Er; [|reflexivity].
    apply first_in_range_some in Er as (Hk & Hm & _).
    rewrite (Hnone k Hk) in Hm. discriminate.
Qed.

(** X1. The search for character 1 fails exactly when no position from
    the cursor up to [len - 25] passes the relaxed test of the final
    attempt, in debug mode or not: nothing the debug search or the regular
    search accepts is rejected by the final attempt. *)
Theorem first_character_search_fails_iff (debug : bool) (save_data : list Z)
    (search_position : Z) (idb : list Z) :
  locate debug save_data search_position 1 idb = NoFirstCharacter
  <-> forall i, search_position <= i < Py.len save_data - 25 ->
                relaxed_match save_data idb i = false.
Proof.
  split; [|apply locate_first_none].
  intros Hloc.
  pose proof (locate_cases debug save_data search_position 1 idb) as Hc.
  cbv zeta in Hc.
  change (max_search_position save_data search_position 1)
    with (Py.len save_data - 25) in Hc.
  destruct (Py.first_in_range (strict_match save_data idb) _ _) eqn:Es.
  - congruence.
  - destruct Hc as [[Hne _]|[_ Hc]]; [congruence|].
    rewrite Hc in Hloc.
    destruct (Py.first_in_range (relaxed_match save_data idb) _ _) eqn:Er;
      [discriminate|].
    apply first_in_range_none. exact Er.
Qed.

Lemma character_ids_first (n : Z) :
  1 <= n -> exists rest, character_ids n = 1 :: rest.
Proof.
  intros H. unfold character_ids.
  destruct (Z.to_nat n) as [|k] eqn:E; [lia|].
  simpl. eauto.
Qed.

(** X2. Character 1 is required: when at least one character id is to be
    processed and no position from 0x20000 up to [len - 25] passes the
    relaxed test, the run fails and writes nothing. A file of at most
    0x20000 + 25 bytes is always rejected. *)
Theorem first_character_is_required (self : RogueLike) (input : list Z)
    (g : Py.rng) :
  1 <= last_character_number self ->
  ((forall i, 0x20000 <= i < Py.len input - 25 ->
              relaxed_match input (id_bytes 1) i = false) ->
   process_save_file self input g = None)
  /\ (Py.len input <= 0x20000 + 25 ->
      process_save_file self input g = None).
Proof.
  intros Hlast.
  assert (H : (forall i, 0x20000 <= i < Py.len input - 25 ->
                         relaxed_match input (id_bytes 1) i = false) ->
              process_save_file self input g = None).
  { intros Hnone. unfold process_save_file.
    destruct (character_ids_first _ Hlast) as [rest ->].
    cbn [process_ids]. unfold process_character.
    rewrite (char_id_bytes_of_spec 1) by lia.
    cbn [save_data search_position initial_state].
    rewrite (locate_first_none (debug_mode self) input 0x20000
               (id_bytes 1) Hnone).
    reflexivity. }
  split; [exact H|].
  intros Hshort. apply H. intros i Hi. lia.
Qed.

(** X3. A located record lies inside the buffer together with its skip
    count: for every position the search reports, the 22 template bytes
    and the four bytes after them exist, so reading the skip count never
    fails. *)
Theorem located_record_has_skip_count (debug : bool) (save_data : list Z)
    (search_position char_id : Z) (idb : list Z) (p : Z) :
  0 <= search_position ->
  locate debug save_data search_position char_id idb = Found p ->
  search_position <= p /\ p + 26 <= Py.len save_data
  /\ exists f, resolve_fields save_data p = Some f.
Proof.
  intros Hsp Hloc.
  assert (Hp : search_position <= p /\ p < Py.len save_data - 25).
  { pose proof (locate_cases debug save_data search_position char_id idb)
      as Hc.
    cbv zeta in Hc.
    assert (Hmax : max_search_position save_data search_position char_id
                   <= Py.len save_data - 25).
    { unfold max_search_position. destruct (char_id =? 1); [lia|].
      destruct (Z.gtb_spec (search_position + 1200)
                  (Py.len save_data - 25)); lia. }
    destruct (Py.first_in_range (strict_match save_data idb) _ _) as [i|]
      eqn:Es.
    - rewrite Hc in Hloc. injection Hloc as <-.
      apply first_in_range_some in Es. lia.
    - destruct Hc as [[_ Hc]|[_ Hc]]; rewrite Hc in Hloc; [discriminate|].
      destruct (Py.first_in_range (relaxed_match save_data idb) _ _) as [i|]
        eqn:Er; [|discriminate].
      injection Hloc as <-. apply first_in_range_some in Er. lia. }
  split; [lia|]. split; [lia|].
  destruct (slice4 save_data (p + 22)) as (b0 & b1 & b2 & b3 & Hs & _);
    [lia|lia|].
  unfold resolve_fields.
  replace (p + 22 + 4) with (p + 22 + 4) by reflexivity.
  rewrite Hs. cbn. eauto.
Qed.

(** ** Debug mode *)

Lemma locate_debug (d1 d2 : bool) (save_data : list Z)
    (search_position char_id : Z) (idb : list Z) :
  locate d1 save_data search_position char_id idb
  = locate d2 save_data search_position char_id idb.
Proof.
  pose proof (locate_cases d1 save_data search_position char_id idb) as H1.
  pose proof (locate_cases d2 save_data search_position char_id idb) as H2.
  cbv zeta in H1, H2.
  destruct (Py.first_in_range (strict_match save_data idb) _ _);
    [congruence|].
  destruct H1 as [[Hn H1]|[He H1]], H2 as [[Hn' H2]|[He' H2]];
    congruence.
Qed.

Section DebugFlag.

Variables (m c p : list Skill.t) (pl rl ea : Z) (sr ir : Q) (rmin rmax : Z)
          (srr irr : Q) (th ra : list Q) (er : Q) (last : Z).

Local Abbreviation R d :=
  (Build_RogueLike m c p d pl rl ea sr ir rmin rmax srr irr th ra er last).

Lemma alloc_loop_debug (d1 d2 : bool) (fuel : nat) (strength : Z)
    (max_attr mr : Q) (st : alloc) (g : Py.rng) (steps : list bool) :
  alloc_loop fuel (R d1) strength max_attr mr st g steps
  = alloc_loop fuel (R d2) strength max_attr mr st g steps.
Proof.
  revert st g steps; induction fuel as [|fuel IH]; intros st g steps;
    [reflexivity|].
  cbn [alloc_loop].
  change (reroll_limit (R d1)) with (reroll_limit (R d2)).
  change (alloc_step (R d1) strength max_attr mr st g)
    with (alloc_step (R d2) strength max_attr mr st g).
  destruct (consecutive_failures st <? reroll_limit (R d2)); [|reflexivity].
  destruct (alloc_step (R d2) strength max_attr mr st g)
    as [[[b st'] g']|]; [|reflexivity].
  change (all_added (R d1) st') with (all_added (R d2) st').
  destruct (all_added (R d2) st'); [reflexivity|]. apply IH.
Qed.

Lemma allocate_character_debug (d1 d2 : bool) (save_data : list Z)
    (f : fields) (strength intelligence : Z) (g : Py.rng) :
  allocate_character (R d1) save_data f strength intelligence g
  = allocate_character (R d2) save_data f strength intelligence g.
Proof.
  unfold allocate_character, allocate.
  cbn [marshal_skills commander_skills personal_skills extra_attribute
       random_extra_attribute_min random_extra_attribute_max str_rate
       int_rate attribute_rates].
  change (rate_index (R d1)) with (rate_index (R d2)).
  change (max_random_of (R d1)) with (max_random_of (R d2)).
  change (active_skill_value (R d1)) with (active_skill_value (R d2)).
  repeat match goal with
         | |- match ?x with _ => _ end = match ?x with _ => _ end =>
             destruct x; try reflexivity
         end.
  match goal with
  | |- context [alloc_fuel (R d1) ?s] =>
      change (alloc_fuel (R d1) s) with (alloc_fuel (R d2) s)
  end.
  rewrite (alloc_loop_debug d1 d2). reflexivity.
Qed.

Lemma process_character_debug (d1 d2 : bool) (st : state) (char_id : Z) :
  process_character (R d1) st char_id = process_character (R d2) st char_id.
Proof.
  unfold process_character. cbn [debug_mode].
  destruct (char_id_bytes_of char_id) as [idb|]; [|reflexivity].
  rewrite (locate_debug d1 d2).
  destruct (locate d2 _ _ _ _) as [pos| |]; try reflexivity.
  unfold process_found.
  destruct (resolve_fields _ _) as [f|]; [|reflexivity].
  destruct (Py.unpack_i32 _) as [s|]; [|reflexivity].
  destruct (Py.unpack_i32 _) as [i|]; [|reflexivity].
  destruct ((s =? 0) && (i =? 0)); [reflexivity|].
  destruct (cap_stats s i) as [s' i'].
  rewrite (allocate_character_debug d1 d2). reflexivity.
Qed.

Lemma process_ids_debug (d1 d2 : bool) (ids : list Z) (st : state) :
  process_ids (R d1) ids st = process_ids (R d2) ids st.
Proof.
  revert st; induction ids as [|i ids IH]; intros st; [reflexivity|].
  cbn [process_ids]. rewrite (process_character_debug d1 d2).
  destruct (process_character (R d2) st i); [apply IH|reflexivity].
Qed.

End DebugFlag.

(** X4. Debug mode changes what is printed, never what is done: with
    either value of the flag the run fails on the same inputs, finds the
    same records (the extra search for character 1 up to [len - 30] finds
    nothing the regular one would not), consumes the same random draws and
    returns the same buffer and statistics. *)
Theorem debug_mode_is_output_only (self : RogueLike) (debug : bool)
    (input : list Z) (g : Py.rng) :
  process_save_file (set_debug_mode self debug) input g
  = process_save_file self input g.
Proof.
  destruct self. unfold process_save_file, set_debug_mode.
  cbn [marshal_skills commander_skills personal_skills debug_mode pick_limit
       reroll_limit extra_attribute str_rate int_rate
       random_extra_attribute_min random_extra_attribute_max
       str_random_rate int_random_rate attribute_thresholds attribute_rates
       exist_attribute_rate last_character_number].
  apply process_ids_debug.
Qed.

(** ** Counters, cursor and log of a run *)

(** Everything one iteration of the loop over the ids does besides
    changing skill bytes. *)
Lemma process_character_effect (self : RogueLike) (st st' : state)
    (char_id : Z) :
  0 <= search_position st ->
  process_character self st char_id = Next st' ->
  (st' = {| save_data := save_data st;
            search_position := search_position st;
            total_skills_added := total_skills_added st;
            total_characters := total_characters st;
            characters_processed := characters_processed st;
            gen := gen st;
            log := log st ++ [NotFound char_id] |})
  \/ exists p so io,
       search_position st <= p
       /\ search_position st' = p + 900
       /\ total_characters st' = total_characters st + 1
       /\ ((save_data st' = save_data st /\ gen st' = gen st
            /\ total_skills_added st' = total_skills_added st
            /\ characters_processed st' = characters_processed st
            /\ log st' = log st ++ [Processing char_id p so io;
                                    ZeroStats char_id])
           \/ exists s i n,
                0 <= s <= 1000 /\ 0 <= i <= 1000 /\ 0 <= n
                /\ total_skills_added st' = total_skills_added st + n
                /\ characters_processed st'
                   = characters_processed st + (if n >? 0 then 1 else 0)
                /\ log st' = log st ++ [Processing char_id p so io;
                                        CharacterStats char_id s i]).
Proof.
  intros Hsp H. unfold process_character in H.
  destruct (char_id_bytes_of char_id) as [idb|]; [|discriminate].
  destruct (locate _ _ _ _ _) as [p| |] eqn:El; [| |discriminate].
  2:{ left. injection H as <-. reflexivity. }
  right. apply locate_found_ge in El.
  unfold process_found in H.
  destruct (resolve_fields (save_data st) p) as [f|]; [|discriminate].
  destruct (Py.unpack_i32 _) as [s|]; [|discriminate].
  destruct (Py.unpack_i32 _) as [i|]; [|discriminate].
  exists p, (strength_offset f), (intelligence_offset f).
  split; [exact El|].
  destruct ((s =? 0) && (i =? 0)).
  - injection H as <-. cbn. split; [reflexivity|]. split; [reflexivity|].
    left. rewrite <- app_assoc. auto 6.
  - destruct (cap_stats s i) as [s' i'] eqn:Ec.
    destruct (allocate_character _ _ _ _ _ _) as [[a g']|]; [|discriminate].
    match type of H with
    | match ?w with _ => _ end = _ => destruct w as [d3|]
    end; [|discriminate].
    injection H as <-. cbn. split; [reflexivity|]. split; [reflexivity|].
    right. exists s', i', (Py.len (added_skills a marshal)
                           + Py.len (added_skills a commander)
                           + Py.len (added_skills a personal)).
    assert (Hcap : 0 <= s' <= 1000 /\ 0 <= i' <= 1000
                   \/ (s' = s /\ i' = i /\ 0 <= s <= 1000 /\ 0 <= i <= 1000)).
    { unfold cap_stats in Ec.
      destruct (Z.ltb_spec s 0), (Z.gtb_spec s 1000), (Z.ltb_spec i 0),
        (Z.gtb_spec i 1000); cbn in Ec; injection Ec as <- <-; lia. }
    pose proof (len_nonneg (added_skills a marshal)).
    pose proof (len_nonneg (added_skills a commander)).
    pose proof (len_nonneg (added_skills a personal)).
    rewrite <- app_assoc.
    repeat split; try reflexivity; try lia.
    destruct (_ >? 0); lia.
Qed.

Lemma located_offsets_app (l1 l2 : list event) :
  located_offsets (l1 ++ l2) = located_offsets l1 ++ located_offsets l2.
Proof. apply flat_map_app. Qed.

Lemma spaced_app (lo : Z) (l1 l2 : list Z) :
  spaced lo (l1 ++ l2)
  <-> spaced lo l1 /\ spaced (cursor_after lo l1) l2.
Proof.
  revert lo; induction l1 as [|x l1 IH]; intros lo; simpl.
  - unfold cursor_after; simpl. tauto.
  - rewrite IH. unfold cursor_after; simpl. tauto.
Qed.

Lemma cursor_after_app (lo : Z) (l1 l2 : list Z) :
  cursor_after lo (l1 ++ l2) = cursor_after (cursor_after lo l1) l2.
Proof. unfold cursor_after. apply fold_left_app. Qed.

(** The invariants of the loop over the ids. *)
Lemma process_ids_effect (self : RogueLike) (ids : list Z) :
  forall st st',
    0 <= search_position st ->
    process_ids self ids st = Some st' ->
    exists new,
      log st' = log st ++ new
      /\ spaced (search_position st) (located_offsets new)
      /\ search_position st'
         = cursor_after (search_position st) (located_offsets new)
      /\ total_characters st'
         = total_characters st + Py.len (located_offsets new)
      /\ Py.len (located_offsets new) <= Py.len ids
      /\ characters_processed st <= characters_processed st'
      /\ characters_processed st' - characters_processed st
         <= total_characters st' - total_characters st
      /\ characters_processed st' - characters_processed st
         <= total_skills_added st' - total_skills_added st.
Proof.
  induction ids as [|char_id rest IH]; intros st st' Hsp H; simpl in H.
  - injection H as <-. exists []. rewrite app_nil_r.
    cbn. repeat split; lia.
  - destruct (process_character self st char_id) as [st1|] eqn:E1;
      [|discriminate].
    apply process_character_effect in E1; [|assumption].
    assert (Hstep : exists new1,
               log st1 = log st ++ new1
               /\ spaced (search_position st) (located_offsets new1)
               /\ search_position st1
                  = cursor_after (search_position st) (located_offsets new1)
               /\ total_characters st1
                  = total_characters st + Py.len (located_offsets new1)
               /\ Py.len (located_offsets new1) <= 1
               /\ characters_processed st <= characters_processed st1
               /\ characters_processed st1 - characters_processed st
                  <= total_characters st1 - total_characters st
               /\ characters_processed st1 - characters_processed st
                  <= total_skills_added st1 - total_skills_added st).
    { destruct E1 as [->|(p & so & io & Hp & Hc & Ht & Hcase)].
      - exists [NotFound char_id]. cbn. repeat split; lia.
      - destruct Hcase as [(_ & _ & Hs & Hcp & Hl)
                          |(s & i & n & _ & _ & Hn & Hs & Hcp & Hl)].
        + eexists. split; [exact Hl|]. cbn. rewrite Hc, Ht, Hs, Hcp.
          repeat split; lia.
        + eexists. split; [exact Hl|]. cbn. rewrite Hc, Ht, Hs, Hcp.
          destruct (Z.gtb_spec n 0); repeat split; lia. }
    destruct Hstep as (new1 & Hl1 & Hsp1 & Hc1 & Ht1 & Hn1 & Hm1 & Hp1 & Ha1).
    assert (Hsp1' : 0 <= search_position st1).
    { destruct E1 as [->|(p & so & io & Hp & Hc & _)]; cbn; lia. }
    apply IH in H as (new2 & Hl2 & Hsp2 & Hc2 & Ht2 & Hn2 & Hm2 & Hp2 & Ha2);
      [|assumption].
    exists (new1 ++ new2).
    rewrite located_offsets_app, len_app, cursor_after_app.
    split; [rewrite Hl2, Hl1, app_assoc; reflexivity|].
    split; [apply spaced_app; rewrite <- Hc1; auto|].
    split; [rewrite <- Hc1; exact Hc2|].
    unfold Py.len in *. simpl length.
    repeat split; lia.
Qed.

(** X5. The statistics a successful run returns: [total_characters] is the
    number of records the log reports as located, it is at most the number
    of character ids, [characters_processed] is at most [total_characters],
    and every character counted in [characters_processed] accounts for at
    least one of [total_skills_added]. *)
Theorem statistics_are_consistent (self : RogueLike) (input : list Z)
    (g : Py.rng) (st : state) :
  process_save_file self input g = Some st ->
  total_characters st = Py.len (located_offsets (log st))
  /\ total_characters st <= Z.max 0 (last_character_number self)
  /\ 0 <= characters_processed st <= total_characters st
  /\ characters_processed st <= total_skills_added st.
Proof.
  unfold process_save_file; intros H.
  apply process_ids_effect in H as (new & Hl & _ & _ & Ht & Hn & Hm & Hp & Ha);
    [|cbn; lia].
  cbn in Hl, Ht, Hn, Hm, Hp, Ha. subst new.
  assert (Py.len (character_ids (last_character_number self))
          = Z.max 0 (last_character_number self)).
  { unfold character_ids, Py.len. rewrite length_map, length_seq. lia. }
  repeat split; lia.
Qed.

(** X6. The search cursor only moves forward: the records of a run are
    found at increasing offsets, the first at 0x20000 or later and each at
    least 900 bytes after the one before, and the cursor ends 900 bytes
    after the last record found. *)
Theorem records_are_found_in_order (self : RogueLike) (input : list Z)
    (g : Py.rng) (st : state) :
  process_save_file self input g = Some st ->
  spaced 0x20000 (located_offsets (log st))
  /\ search_position st = cursor_after 0x20000 (located_offsets (log st)).
Proof.
  unfold process_save_file; intros H.
  apply process_ids_effect in H as (new & Hl & Hs & Hc & _); [|cbn; lia].
  cbn in Hl, Hs, Hc. subst new. auto.
Qed.

(** ** Runs that add nothing *)

Lemma set_nth_same {A} (l : list A) (n : nat) (x : A) :
  nth_error l n = Some x -> Py.set_nth l n x = Some l.
Proof.
  revert n; induction l as [|h t IH]; intros [|n] H; simpl in *;
    try discriminate.
  - injection H as ->. reflexivity.
  - rewrite (IH n H). reflexivity.
Qed.

(** Writing back bytes that are already there changes nothing. *)
Lemma write_back_same (save_data : list Z) (offset : Z) (bs : list Z) :
  0 <= offset -> bytes_at save_data offset bs ->
  write_back save_data offset bs = Some save_data.
Proof.
  revert offset; induction bs as [|b rest IH]; intros offset Hoff Hat;
    [reflexivity|].
  cbn [write_back]. rewrite set_nonneg by assumption.
  rewrite set_nth_same.
  - apply IH; [lia|]. intros k x Hk.
    replace (Z.to_nat (offset + 1) + k)%nat with (Z.to_nat offset + S k)%nat
      by lia.
    apply Hat. exact Hk.
  - specialize (Hat 0%nat b eq_refl). rewrite Nat.add_0_r in Hat. exact Hat.
Qed.

Lemma slice_bytes_at {A} (l : list A) (a b : Z) (k : nat) (x : A) :
  0 <= a -> nth_error (Py.slice l a b) k = Some x ->
  nth_error l (Z.to_nat a + k) = Some x.
Proof.
  intros Ha H.
  assert (Hk : (k < length (Py.slice l a b))%nat)
    by (apply nth_error_Some; congruence).
  pose proof (slice_length_le l a b). unfold Py.len in *.
  rewrite slice_nth_error in H by lia. exact H.
Qed.

(** The skill bytes change only in steps that add a skill. *)
Lemma allocate_no_add (self : RogueLike) (strength : Z) (max_attr mr : Q)
    (st0 st : alloc) (g g' : Py.rng) (steps : list bool) :
  (forall ty, added_skills st0 ty = []) ->
  allocate self strength max_attr mr st0 g = Finished st g' steps ->
  (forall ty, 0 <= Py.len (added_skills st ty))
  /\ ((forall ty, added_skills st ty = []) ->
      forall ty, skill_bytes st ty = skill_bytes st0 ty).
Proof.
  intros Hadd H. split; [intros ty; apply len_nonneg|].
  unfold allocate in H.
  apply (alloc_loop_invariant self strength max_attr mr
           (fun s _ => (exists ty, added_skills s ty <> [])
                       \/ forall ty, skill_bytes s ty = skill_bytes st0 ty))
    in H.
  - destruct H as [[(ty & Hne)|Hsame] _]; [|auto].
    intros Hnone. elim Hne. apply Hnone.
  - intros s l b s' g0 g1 Hinv _ Hs.
    apply alloc_step_spec in Hs as (ty0 & Hother & Hcase).
    destruct b.
    + left. exists ty0.
      destruct Hcase as (skill & _ & _ & _ & _ & -> & _).
      intros E. apply app_eq_nil in E as [_ E]. discriminate.
    + destruct Hcase as (Hb & _ & Ha & _).
      destruct Hinv as [(ty & Hne)|Hsame].
      * left. exists ty.
        destruct (skill_type_eq_dec ty ty0) as [->|Hd];
          [rewrite Ha|rewrite (proj2 (proj2 (Hother ty Hd)))]; assumption.
      * right. intros ty.
        destruct (skill_type_eq_dec ty ty0) as [->|Hd];
          [rewrite Hb|rewrite (proj1 (Hother ty Hd))]; apply Hsame.
  - right. reflexivity.
Qed.

Lemma allocate_character_initial (self : RogueLike) (save_data : list Z)
    (f : fields) (strength intelligence : Z) (g g' : Py.rng) (a : alloc) :
  allocate_character self save_data f strength intelligence g
  = Some (a, g') ->
  exists st0 max_attr g1 steps,
    allocate self strength max_attr
      (max_random_of self strength intelligence) st0 g1
    = Finished a g' steps
    /\ (forall ty, added_skills st0 ty = [])
    /\ consecutive_failures st0 = 0
    /\ forall ty,
         exists n,
           bytes_needed (all_skills self ty) = Some n
           /\ skill_bytes st0 ty
              = Py.slice save_data (skill_offset f ty) (skill_offset f ty + n).
Proof.
  unfold allocate_character; intros H.
  destruct (bytes_needed (marshal_skills self)) as [nm|] eqn:Em;
    [|discriminate].
  destruct (bytes_needed (commander_skills self)) as [nc|] eqn:Ec;
    [|discriminate].
  destruct (bytes_needed (personal_skills self)) as [np|] eqn:Ep;
    [|discriminate].
  cbv beta iota zeta in H.
  repeat (case_match_in H; try discriminate).
  injection H as <- <-.
  eexists _, _, _, _. split; [eassumption|].
  split; [reflexivity|]. split; [reflexivity|].
  intros []; cbn; eauto.
Qed.

(** A step of the loop over the ids never lowers [total_skills_added],
    and when it leaves it as it is the buffer is unchanged. *)
Lemma process_character_no_add (self : RogueLike) (st st' : state)
    (char_id : Z) :
  0 <= search_position st ->
  process_character self st char_id = Next st' ->
  0 <= search_position st'
  /\ total_skills_added st <= total_skills_added st'
  /\ (total_skills_added st' = total_skills_added st ->
      save_data st' = save_data st).
Proof.
  intros Hsp H. unfold process_character in H.
  destruct (char_id_bytes_of char_id) as [idb|]; [|discriminate].
  destruct (locate _ _ _ _ _) as [p| |] eqn:El; [| |discriminate].
  2:{ injection H as <-. cbn. repeat split; auto; lia. }
  apply locate_found_ge in El.
  pose proof (process_found_cursor _ _ _ _ _ H) as [Hc _].
  split; [lia|].
  unfold process_found in H.
  destruct (resolve_fields (save_data st) p) as [f|] eqn:Ef; [|discriminate].
  pose proof (resolve_fields_offsets _ _ _ Ef) as (Hso & Hio & Hpo & Hco & Hmo).
  destruct (Py.unpack_i32 _) as [s|]; [|discriminate].
  destruct (Py.unpack_i32 _) as [i|]; [|discriminate].
  destruct ((s =? 0) && (i =? 0)).
  { injection H as <-. cbn. split; [lia|reflexivity]. }
  destruct (cap_stats s i) as [s' i'].
  destruct (allocate_character _ _ _ _ _ _) as [[a g']|] eqn:Ea;
    [|discriminate].
  match type of H with
  | match ?w with _ => _ end = _ => destruct w as [d3|] eqn:Ew
  end; [|discriminate].
  injection H as <-. cbn.
  apply allocate_character_initial in Ea
    as (st0 & ma & g1 & steps & Hrun & Hadd0 & _ & Hinit).
  apply allocate_no_add in Hrun as [Hlen Hsame]; [|assumption].
  pose proof (Hlen marshal). pose proof (Hlen commander).
  pose proof (Hlen personal).
  split; [lia|]. intros Hzero.
  assert (Hnone : forall ty, added_skills a ty = []).
  { intros ty. specialize (Hlen ty).
    assert (Py.len (added_skills a ty) = 0) by (destruct ty; lia).
    destruct (added_skills a ty); [reflexivity|].
    unfold Py.len in *. simpl in *. lia. }
  specialize (Hsame Hnone).
  assert (Hat : forall ty,
             bytes_at (save_data st) (skill_offset f ty) (skill_bytes a ty)).
  { intros ty. rewrite Hsame.
    destruct (Hinit ty) as (n & _ & ->).
    intros k x Hk. eapply slice_bytes_at; [|exact Hk].
    destruct ty; simpl; lia. }
  rewrite (write_back_same (save_data st) (marshal_offset f))
    in Ew by (lia || apply (Hat marshal)).
  rewrite (write_back_same (save_data st) (commander_offset f))
    in Ew by (lia || apply (Hat commander)).
  rewrite (write_back_same (save_data st) (personal_offset f))
    in Ew by (lia || apply (Hat personal)).
  congruence.
Qed.

Lemma process_ids_no_add (self : RogueLike) (ids : list Z) :
  forall st st',
    0 <= search_position st ->
    process_ids self ids st = Some st' ->
    total_skills_added st <= total_skills_added st'
    /\ (total_skills_added st' = total_skills_added st ->
        save_data st' = save_data st).
Proof.
  induction ids as [|char_id rest IH]; intros st st' Hsp H; simpl in H.
  - injection H as <-. split; [lia|reflexivity].
  - destruct (process_character self st char_id) as [st1|] eqn:E1;
      [|discriminate].
    apply process_character_no_add in E1 as (Hsp1 & Hle1 & Hsame1);
      [|assumption].
    apply IH in H as (Hle2 & Hsame2); [|assumption].
    split; [lia|]. intros Heq.
    rewrite Hsame2 by lia. apply Hsame1. lia.
Qed.

Lemma no_skill_added_no_change_aux (self : RogueLike) (input : list Z)
    (g : Py.rng) (st : state) :
  process_save_file self input g = Some st ->
  total_skills_added st = 0 -> save_data st = input.
Proof.
  unfold process_save_file; intros H.
  apply process_ids_no_add in H as [_ Hsame]; [|cbn; lia].
  exact Hsame.
Qed.

(** X7. A run that reports no added skill writes the input back
    unchanged: when [total_skills_added] is 0 the output buffer equals the
    input, byte for byte. *)
Theorem no_skill_added_no_change (self : RogueLike) (input : list Z)
    (g : Py.rng) (st : state) :
  process_save_file self input g = Some st ->
  0 <= total_skills_added st
  /\ (total_skills_added st = 0 -> save_data st = input).
Proof.
  unfold process_save_file; intros H.
  apply process_ids_no_add in H as [Hle Hsame]; [|cbn; lia].
  cbn in Hle, Hsame. split; [exact Hle|]. intros Hz. apply Hsame. exact Hz.
Qed.

Lemma alloc_step_no_picks (self : RogueLike) (strength : Z) (max_attr mr : Q)
    (st st' : alloc) (g g' : Py.rng) (skill_added : bool) :
  pick_limit self <= 0 ->
  alloc_step self strength max_attr mr st g = Some (skill_added, st', g') ->
  skill_added = false.
Proof.
  intros Hpick H. unfold alloc_step in H.
  destruct (choose_skill_type self strength mr g) as [[ty g1]|];
    [|discriminate].
  unfold _try_add_skill in H.
  replace (Z.to_nat (pick_limit self)) with 0%nat in H by lia.
  destruct (available_skills _ _); cbn in H; injection H as <- _ _;
    reflexivity.
Qed.

Lemma allocate_adds_nothing (self : RogueLike) (strength : Z)
    (max_attr mr : Q) (st0 st : alloc) (g g' : Py.rng) (steps : list bool) :
  reroll_limit self <= 0 \/ pick_limit self <= 0 ->
  consecutive_failures st0 = 0 ->
  (forall ty, added_skills st0 ty = []) ->
  allocate self strength max_attr mr st0 g = Finished st g' steps ->
  forall ty, added_skills st ty = [].
Proof.
  intros Hlim Hf0 Hadd H. unfold allocate in H.
  apply (alloc_loop_invariant self strength max_attr mr
           (fun s _ => 0 <= consecutive_failures s
                       /\ forall ty, added_skills s ty = [])) in H.
  - apply H.
  - intros s l b s' g0 g1 [Hf Hinv] Hguard Hs.
    destruct Hlim as [Hr|Hp]; [lia|].
    pose proof (alloc_step_no_picks _ _ _ _ _ _ _ _ _ Hp Hs) as ->.
    apply alloc_step_spec in Hs as (ty0 & Hother & _ & _ & Ha & _ & Hf').
    split; [lia|]. intros ty.
    destruct (skill_type_eq_dec ty ty0) as [->|Hd];
      [rewrite Ha|rewrite (proj2 (proj2 (Hother ty Hd)))]; apply Hinv.
  - split; [lia|assumption].
Qed.

Lemma process_ids_adds_nothing (self : RogueLike) (ids : list Z) :
  reroll_limit self <= 0 \/ pick_limit self <= 0 ->
  forall st st',
    process_ids self ids st = Some st' ->
    total_skills_added st' = total_skills_added st
    /\ characters_processed st' = characters_processed st.
Proof.
  intros Hlim. induction ids as [|char_id rest IH]; intros st st' H;
    simpl in H.
  - injection H as <-. auto.
  - destruct (process_character self st char_id) as [st1|] eqn:E1;
      [|discriminate].
    apply IH in H as [-> ->].
    unfold process_character in E1.
    destruct (char_id_bytes_of char_id) as [idb|]; [|discriminate].
    destruct (locate _ _ _ _ _) as [p| |]; [| |discriminate].
    2:{ injection E1 as <-. auto. }
    unfold process_found in E1.
    destruct (resolve_fields (save_data st) p) as [f|]; [|discriminate].
    destruct (Py.unpack_i32 _) as [s|]; [|discriminate].
    destruct (Py.unpack_i32 _) as [i|]; [|discriminate].
    destruct ((s =? 0) && (i =? 0)).
    { injection E1 as <-. auto. }
    destruct (cap_stats s i) as [s' i'].
    destruct (allocate_character _ _ _ _ _ _) as [[a g']|] eqn:Ea;
      [|discriminate].
    match type of E1 with
    | match ?w with _ => _ end = _ => destruct w as [d3|]
    end; [|discriminate].
    injection E1 as <-. cbn.
    apply allocate_character_initial in Ea
      as (st0 & ma & g1 & steps & Hrun & Hadd0 & Hf0 & _).
    pose proof (allocate_adds_nothing _ _ _ _ _ _ _ _ _ Hlim Hf0 Hadd0 Hrun)
      as Hnone.
    rewrite !Hnone. cbn. split; [lia|reflexivity].
Qed.

(** X8. With [reroll_limit <= 0] or [pick_limit <= 0] the allocation loop
    can add nothing: a successful run then reports no added skill and no
    modified character, and its output equals its input. *)
Theorem nonpositive_limits_change_nothing (self : RogueLike)
    (input : list Z) (g : Py.rng) (st : state) :
  reroll_limit self <= 0 \/ pick_limit self <= 0 ->
  process_save_file self input g = Some st ->
  total_skills_added st = 0
  /\ characters_processed st = 0
  /\ save_data st = input.
Proof.
  intros Hlim H.
  pose proof (no_skill_added_no_change_aux self input g st H) as Hsame.
  unfold process_save_file in H.
  apply process_ids_adds_nothing in H as [Ht Hc]; [|assumption].
  cbn in Ht, Hc. auto.
Qed.

(** ** Bits are only ever set *)

Lemma bits_kept_refl (x : Z) : bits_kept x x.
Proof. intros b _ H. exact H. Qed.

Lemma bits_kept_trans (x y z : Z) :
  bits_kept x y -> bits_kept y z -> bits_kept x z.
Proof. intros H1 H2 b Hb H. apply H2, H1; assumption. Qed.

Lemma bits_kept_lor (x m : Z) : bits_kept x (Z.lor x m).
Proof. intros b Hb H. rewrite Z.lor_spec, H. reflexivity. Qed.

Lemma write_back_content (save_data save_data' : list Z) (offset : Z)
    (bs : list Z) :
  0 <= offset ->
  write_back save_data offset bs = Some save_data' ->
  bytes_at save_data' offset bs.
Proof.
  revert save_data offset; induction bs as [|b rest IH];
    intros save_data offset Hoff H k x Hk.
  - destruct k; discriminate.
  - cbn [write_back] in H. rewrite set_nonneg in H by assumption.
    destruct (Py.set_nth save_data (Z.to_nat offset) b) as [d|] eqn:Es;
      [|discriminate].
    destruct k as [|k].
    + injection Hk as <-.
      apply write_back_spec in H as (_ & _ & Hfr); [|lia].
      rewrite Nat.add_0_r, Hfr by lia.
      apply set_nth_spec in Es. apply Es.
    + replace (Z.to_nat offset + S k)%nat with (Z.to_nat (offset + 1) + k)%nat
        by lia.
      apply (IH d (offset + 1) ltac:(lia) H). exact Hk.
Qed.

(** A byte after one write-back is a written byte or the old byte. *)
Lemma write_back_byte (save_data save_data' : list Z) (offset : Z)
    (bs : list Z) (j : nat) :
  0 <= offset ->
  write_back save_data offset bs = Some save_data' ->
  nth_error save_data' j = nth_error save_data j
  \/ exists k y, j = (Z.to_nat offset + k)%nat
                 /\ nth_error bs k = Some y
                 /\ nth_error save_data' j = Some y.
Proof.
  intros Hoff H.
  pose proof (write_back_content _ _ _ _ Hoff H) as Hc.
  apply write_back_spec in H as (_ & _ & Hfr); [|assumption].
  destruct (Z_le_dec offset (Z.of_nat j)) as [Hlo|Hlo];
    [|left; apply Hfr; lia].
  destruct (Z_lt_dec (Z.of_nat j) (offset + Py.len bs)) as [Hhi|Hhi];
    [|left; apply Hfr; lia].
  right. exists (j - Z.to_nat offset)%nat.
  destruct (nth_error_in_range bs (j - Z.to_nat offset)) as [y Hy];
    [unfold Py.len in Hhi; lia|].
  exists y. split; [lia|]. split; [exact Hy|].
  apply Hc in Hy. replace (Z.to_nat offset + (j - Z.to_nat offset))%nat
    with j in Hy by lia. exact Hy.
Qed.

Lemma encode_keeps_bits (bytes bytes' : list Z) (skill : Skill.t) :
  0 <= Skill.bit skill ->
  encode bytes skill = Some bytes' ->
  forall k x, nth_error bytes k = Some x ->
              exists y, nth_error bytes' k = Some y /\ bits_kept x y.
Proof.
  intros Hbit He k x Hk.
  destruct (encode_bytes bytes skill Hbit) as (b' & He' & _ & Hx & Ho).
  rewrite He in He'. injection He' as <-.
  destruct (Nat.eq_dec k (Z.to_nat (Skill.bit skill / 8))) as [->|Hne].
  - rewrite Hx, (nth_error_nth _ _ _ Hk). eexists. split; [reflexivity|].
    apply bits_kept_lor.
  - rewrite (Ho k Hne).
    assert (k < length bytes)%nat by (apply nth_error_Some; congruence).
    destruct (Nat.ltb_spec k (length bytes)); [|lia].
    exists x. split; [exact Hk|apply bits_kept_refl].
Qed.

Lemma allocate_keeps_bits (self : RogueLike) (strength : Z) (max_attr mr : Q)
    (st0 st : alloc) (g g' : Py.rng) (steps : list bool) :
  catalog_ok self ->
  allocate self strength max_attr mr st0 g = Finished st g' steps ->
  forall ty k x,
    nth_error (skill_bytes st0 ty) k = Some x ->
    exists y, nth_error (skill_bytes st ty) k = Some y /\ bits_kept x y.
Proof.
  intros Hok H. unfold allocate in H.
  apply (alloc_loop_invariant self strength max_attr mr
           (fun s _ => forall ty k x,
                nth_error (skill_bytes st0 ty) k = Some x ->
                exists y, nth_error (skill_bytes s ty) k = Some y
                          /\ bits_kept x y)) in H.
  - apply H.
  - intros s l b s' g0 g1 Hinv _ Hs ty k x Hk.
    destruct (Hinv ty k x Hk) as (y & Hy & Hxy).
    apply alloc_step_spec in Hs as (ty0 & Hother & Hcase).
    destruct (skill_type_eq_dec ty ty0) as [->|Hd];
      [|rewrite (proj1 (Hother ty Hd)); eauto].
    destruct b.
    + destruct Hcase as (skill & Hin & _ & Henc & _).
      apply available_skills_in in Hin as (Hall & _).
      destruct (Hok ty0 skill Hall) as [Hbit Hid].
      assert (Hb0 : 0 <= Skill.bit skill) by lia.
      destruct (encode_keeps_bits _ _ _ Hb0 Henc k y Hy)
        as (z & Hz & Hyz).
      exists z. split; [exact Hz|]. eapply bits_kept_trans; eassumption.
    + destruct Hcase as (-> & _). eauto.
  - intros ty k x Hk. exists x. split; [exact Hk|apply bits_kept_refl].
Qed.

(** One iteration of the loop over the ids keeps every set bit, when no
    highest id is a multiple of 8. *)
Lemma process_character_keeps_bits (self : RogueLike) (st st' : state)
    (char_id : Z) :
  catalog_ok self ->
  (forall ty m, max_of (map Skill.id (all_skills self ty)) = Some m ->
                m mod 8 <> 0) ->
  0 <= search_position st ->
  process_character self st char_id = Next st' ->
  0 <= search_position st'
  /\ forall j x, nth_error (save_data st) j = Some x ->
                 exists y, nth_error (save_data st') j = Some y
                           /\ bits_kept x y.
Proof.
  intros Hok Hmod Hsp H. unfold process_character in H.
  destruct (char_id_bytes_of char_id) as [idb|]; [|discriminate].
  destruct (locate _ _ _ _ _) as [p| |] eqn:El; [| |discriminate].
  2:{ injection H as <-. cbn. split; [assumption|].
      intros j x Hj. exists x. split; [exact Hj|apply bits_kept_refl]. }
  apply locate_found_ge in El.
  pose proof (process_found_cursor _ _ _ _ _ H) as [Hc _].
  split; [lia|].
  unfold process_found in H.
  destruct (resolve_fields (save_data st) p) as [f|] eqn:Ef; [|discriminate].
  pose proof (resolve_fields_offsets _ _ _ Ef) as (Hso & Hio & Hpo & Hco & Hmo).
  destruct (Py.unpack_i32 _) as [s|]; [|discriminate].
  destruct (Py.unpack_i32 _) as [i|]; [|discriminate].
  destruct ((s =? 0) && (i =? 0)).
  { injection H as <-. cbn.
    intros j x Hj. exists x. split; [exact Hj|apply bits_kept_refl]. }
  destruct (cap_stats s i) as [s' i'].
  destruct (allocate_character _ _ _ _ _ _) as [[a g']|] eqn:Ea;
    [|discriminate].
  pose proof (allocate_character_lengths _ _ _ _ _ _ _ _ Hok Ea) as Hlen.
  apply allocate_character_initial in Ea
    as (st0 & ma & g1 & steps & Hrun & _ & _ & Hinit).
  pose proof (allocate_keeps_bits _ _ _ _ _ _ _ _ _ Hok Hrun) as Hkeep.
  assert (Hmono : forall ty k x y,
             nth_error (skill_bytes a ty) k = Some y ->
             nth_error (save_data st) (Z.to_nat (skill_offset f ty) + k)
             = Some x ->
             bits_kept x y).
  { intros ty k x y Hy Hx.
    assert (Hoff : 0 <= skill_offset f ty) by (destruct ty; simpl; lia).
    destruct (Hinit ty) as (n & Hn & Hs0).
    assert (Hk : (k < length (skill_bytes a ty))%nat)
      by (apply nth_error_Some; congruence).
    assert (Hx' : (Z.to_nat (skill_offset f ty) + k
                   < length (save_data st))%nat)
      by (apply nth_error_Some; congruence).
    assert (Hreg : region_length (all_skills self ty) = n).
    { unfold bytes_needed in Hn. unfold region_length.
      destruct (max_of (map Skill.id (all_skills self ty))) as [m|] eqn:Em;
        [|discriminate].
      injection Hn as <-.
      destruct (bytes_needed_compare _ _ Em) as (_ & _ & _ & H1).
      rewrite (H1 (Hmod ty m Em)). reflexivity. }
    specialize (Hlen ty). rewrite Hreg in Hlen. unfold Py.len in Hlen.
    assert (Hs0k : nth_error (skill_bytes st0 ty) k = Some x).
    { rewrite Hs0, slice_nth_error by lia. exact Hx. }
    destruct (Hkeep ty k x Hs0k) as (y' & Hy' & Hxy).
    rewrite Hy in Hy'. injection Hy' as <-. exact Hxy. }
  match type of H with
  | match ?w with _ => _ end = _ => destruct w as [d3|] eqn:Ew
  end; [|discriminate].
  injection H as <-. cbn.
  destruct (write_back (save_data st) (marshal_offset f) _) as [d1|] eqn:E1;
    [|discriminate].
  destruct (write_back d1 (commander_offset f) _) as [d2|] eqn:E2;
    [|discriminate].
  assert (Hp0 : 0 <= personal_offset f) by lia.
  assert (Hc0 : 0 <= commander_offset f) by lia.
  assert (Hm0 : 0 <= marshal_offset f) by lia.
  intros j x Hj.
  destruct (write_back_byte _ _ _ _ j Hp0 Ew)
    as [E|(k & y & -> & Hy & E)].
  2:{ exists y. split; [exact E|]. apply (Hmono personal k x y Hy Hj). }
  rewrite E.
  destruct (write_back_byte _ _ _ _ j Hc0 E2)
    as [E'|(k & y & -> & Hy & E')].
  2:{ exists y. split; [exact E'|]. apply (Hmono commander k x y Hy Hj). }
  rewrite E'.
  destruct (write_back_byte _ _ _ _ j Hm0 E1)
    as [E''|(k & y & -> & Hy & E'')].
  2:{ exists y. split; [exact E''|]. apply (Hmono marshal k x y Hy Hj). }
  rewrite E''. exists x. split; [exact Hj|apply bits_kept_refl].
Qed.

Lemma process_ids_keeps_bits (self : RogueLike) (ids : list Z) :
  catalog_ok self ->
  (forall ty m, max_of (map Skill.id (all_skills self ty)) = Some m ->
                m mod 8 <> 0) ->
  forall st st',
    0 <= search_position st ->
    process_ids self ids st = Some st' ->
    forall j x, nth_error (save_data st) j = Some x ->
                exists y, nth_error (save_data st') j = Some y
                          /\ bits_kept x y.
Proof.
  intros Hok Hmod. induction ids as [|char_id rest IH];
    intros st st' Hsp H j x Hj; simpl in H.
  - injection H as <-. exists x. split; [exact Hj|apply bits_kept_refl].
  - destruct (process_character self st char_id) as [st1|] eqn:E1;
      [|discriminate].
    apply process_character_keeps_bits in E1 as [Hsp1 Hk1]; try assumption.
    destruct (Hk1 j x Hj) as (y & Hy & Hxy).
    destruct (IH _ _ Hsp1 H j y Hy) as (z & Hz & Hyz).
    exists z. split; [exact Hz|]. eapply bits_kept_trans; eassumption.
Qed.

(** X9. Skills are only added, never removed: when no category has a
    highest id that is a multiple of 8, every bit that is set in the input
    is set in the output of a successful run, at every position of the
    file. *)
Theorem run_never_clears_a_bit (self : RogueLike) (input : list Z)
    (g : Py.rng) (st : state) :
  catalog_ok self ->
  (forall ty m, max_of (map Skill.id (all_skills self ty)) = Some m ->
                m mod 8 <> 0) ->
  process_save_file self input g = Some st ->
  forall j x, nth_error input j = Some x ->
              exists y, nth_error (save_data st) j = Some y
                        /\ bits_kept x y.
Proof.
  intros Hok Hmod H. unfold process_save_file in H.
  apply (process_ids_keeps_bits self
           (character_ids (last_character_number self)) Hok Hmod
           (initial_state input g) st);
    [cbn; lia|exact H].
Qed.

(** ** The tier of a character *)

Lemma rate_index_from_spec (thresholds : list Q) (cur : Q) (i : Z) :
  let r := rate_index_from i thresholds cur in
  i <= r <= i + Py.len thresholds
  /\ (forall k t, (Z.of_nat k < r - i) -> nth_error thresholds k = Some t ->
                  (t <= cur)%Q)
  /\ (r < i + Py.len thresholds ->
      exists t, nth_error thresholds (Z.to_nat (r - i)) = Some t
                /\ (cur < t)%Q).
Proof.
  revert i; induction thresholds as [|t0 rest IH]; intros i; cbn zeta.
  - cbn. unfold Py.len; cbn. repeat split; lia.
  - cbn [rate_index_from].
    unfold Py.len in *. cbn [length].
    destruct (Py.Qltb cur t0) eqn:E.
    + split; [lia|]. split; [intros k t Hk; lia|].
      intros _. exists t0. rewrite Z.sub_diag. split; [reflexivity|].
      unfold Py.Qltb in E. apply negb_true_iff in E.
      apply Qnot_le_lt. intros L. apply Qle_bool_iff in L. congruence.
    + specialize (IH (i + 1)). cbn zeta in IH.
      destruct IH as (Hr & Hlow & Hhit).
      split; [lia|]. split.
      * intros [|k] t Hk Ht.
        -- injection Ht as <-. apply Qltb_false. exact E.
        -- apply (Hlow k t); [lia|exact Ht].
      * intros Hlt. destruct Hhit as (t & Ht & Hc); [lia|].
        exists t. split; [|exact Hc].
        replace (Z.to_nat (rate_index_from (i + 1) rest cur - i))
          with (S (Z.to_nat (rate_index_from (i + 1) rest cur - (i + 1))))
          by lia.
        exact Ht.
Qed.

(** X10. The tier lookup: [rate_index] is the position of the first
    threshold that exceeds the current value (the number of thresholds
    when none does), whether or not the thresholds are sorted; the rate at
    that position exists whenever there are more rates than thresholds,
    and the lookup fails exactly when [rate_index] is not below the
    number of rates. *)
Theorem tier_lookup (self : RogueLike) (current : Q) :
  0 <= rate_index self current <= Py.len (attribute_thresholds self)
  /\ (forall k t,
        Z.of_nat k < rate_index self current ->
        nth_error (attribute_thresholds self) k = Some t ->
        (t <= current)%Q)
  /\ (rate_index self current < Py.len (attribute_thresholds self) ->
      exists t,
        nth_error (attribute_thresholds self)
          (Z.to_nat (rate_index self current)) = Some t
        /\ (current < t)%Q)
  /\ (Py.get (attribute_rates self) (rate_index self current) = None
      <-> Py.len (attribute_rates self) <= rate_index self current)
  /\ (Py.len (attribute_thresholds self) < Py.len (attribute_rates self) ->
      exists rate,
        Py.get (attribute_rates self) (rate_index self current) = Some rate).
Proof.
  pose proof (rate_index_from_spec (attribute_thresholds self) current 0)
    as H.
  cbn zeta in H. fold (rate_index self current) in H.
  destruct H as (Hr & Hlow & Hhit).
  rewrite !Z.sub_0_r in *. rewrite Z.add_0_l in *.
  split; [lia|]. split; [exact Hlow|]. split; [exact Hhit|].
  rewrite get_nonneg by lia.
  split.
  - rewrite nth_error_None. unfold Py.len. lia.
  - intros Hlen. apply nth_error_in_range. unfold Py.len in *. lia.
Qed.

(** ** Decoding *)

(** X11. For bit positions that are not negative, decoding never fails,
    whatever the length of the byte string: it returns, in catalog order,
    exactly the enabled catalog entries whose bit is set, bits beyond the
    end of the byte string counting as clear; an empty byte string decodes
    to no skill. *)
Theorem decode_is_total_and_exact (skills : list Skill.t) (bytes : list Z) :
  (forall skill, In skill skills -> 0 <= Skill.bit skill) ->
  exists active,
    decode skills bytes = Some active
    /\ active = filter (fun skill => Skill.mem skill active) skills
    /\ (forall skill,
          In skill active
          <-> In skill skills /\ Skill.value skill <> -1
              /\ bit_on bytes (Skill.bit skill) = true)
    /\ (forall skill,
          In skill active ->
          Skill.bit skill / 8 < Py.len bytes)
    /\ decode skills [] = Some [].
Proof.
  intros Hbits. eexists. split; [apply decode_filter; assumption|].
  set (p := fun skill => negb (Skill.value skill =? -1)
                         && bit_on bytes (Skill.bit skill)).
  assert (Hin : forall skill,
             In skill (filter p skills)
             <-> In skill skills /\ Skill.value skill <> -1
                 /\ bit_on bytes (Skill.bit skill) = true).
  { intros skill. unfold p. rewrite filter_In, decoded_enabled. tauto. }
  split; [|split; [exact Hin|split]].
  - apply filter_ext_in. intros skill Hs.
    destruct (p skill) eqn:E.
    + symmetry. apply mem_true. apply filter_In. auto.
    + destruct (Skill.mem skill (filter p skills)) eqn:Em; [|reflexivity].
      apply mem_true, filter_In in Em. destruct Em. congruence.
  - intros skill Hs. apply Hin in Hs as (Hs & _ & Hon).
    unfold bit_on in Hon.
    destruct (nth_error bytes (Z.to_nat (Skill.bit skill / 8))) eqn:E;
      [|discriminate].
    assert (Z.to_nat (Skill.bit skill / 8) < length bytes)%nat
      by (apply nth_error_Some; congruence).
    pose proof (Z.div_pos (Skill.bit skill) 8 (Hbits skill Hs) ltac:(lia)).
    unfold Py.len. lia.
  - rewrite decode_filter by assumption. f_equal.
    clear. induction skills as [|s rest IH]; [reflexivity|].
    cbn [filter].
    assert (Hoff : bit_on [] (Skill.bit s) = false).
    { unfold bit_on. destruct (Z.to_nat (Skill.bit s / 8)); reflexivity. }
    rewrite Hoff, andb_false_r. exact IH.
Qed.

Lemma Qltb_true_lt (x y : Q) : Py.Qltb x y = true -> (x < y)%Q.
Proof.
  unfold Py.Qltb. rewrite negb_true_iff. intros H.
  apply Qnot_le_lt. intros L. apply Qle_bool_iff in L. congruence.
Qed.

(** ** One call of [_try_add_skill] *)

Lemma choice_draw {A} (l : list A) (g g' : Py.rng) (x : A) :
  Py.choice l g = Some (x, g') ->
  Py.raw g' = Py.raw g /\ Py.used g' = S (Py.used g).
Proof.
  unfold Py.choice, Py.next_raw. destruct l; [discriminate|].
  intros H. injection H as _ <-. split; reflexivity.
Qed.

Lemma pick_loop_draws (n : nat) (available : list Skill.t)
    (bytes : list Z) (active : list Skill.t) (cur max : Q) (g : Py.rng)
    (r : try_result) :
  pick_loop n available bytes active cur max g = Some r ->
  Py.raw (gen_after r) = Py.raw g
  /\ (Py.used g <= Py.used (gen_after r) <= Py.used g + n)%nat
  /\ (new_skill r = None -> Py.used (gen_after r) = (Py.used g + n)%nat).
Proof.
  revert g; induction n as [|n IH]; intros g H; simpl in H.
  - injection H as <-. cbn. repeat split; lia.
  - destruct (Py.choice available g) as [[skill g1]|] eqn:Ec; [|discriminate].
    apply choice_draw in Ec as [Hraw Hused].
    destruct (Py.Qltb _ _).
    + apply IH in H as (Hr & Hu & Hn). rewrite Hr, Hraw.
      split; [reflexivity|]. split; [lia|].
      intros Hnone. rewrite (Hn Hnone). lia.
    + destruct (encode bytes skill); [|discriminate].
      injection H as <-. cbn. rewrite Hraw, Hused.
      split; [reflexivity|]. split; [lia|]. discriminate.
Qed.

(** X12. What a call of [_try_add_skill] can do. A skill it adds is an
    enabled entry of the category's catalog that was not active and whose
    value fits the remaining budget; it is appended to the active list and
    its bit is encoded. A failed call leaves the skill bytes and the
    active list as they were. The call draws one random choice per
    attempt: none when no skill is available, at most [pick_limit], and
    exactly [pick_limit] when skills were available and none fitted. *)
Theorem try_add_skill_contract (self : RogueLike) (ty : skill_type)
    (bytes : list Z) (active : list Skill.t) (cur max : Q) (g : Py.rng)
    (r : try_result) :
  _try_add_skill self ty bytes active cur max g = Some r ->
  Py.raw (gen_after r) = Py.raw g
  /\ (Py.used g <= Py.used (gen_after r)
      <= Py.used g + Z.to_nat (pick_limit self))%nat
  /\ match new_skill r with
     | Some skill =>
         In skill (all_skills self ty)
         /\ ~ In skill active
         /\ Skill.value skill <> -1
         /\ (inject_Z (Skill.value skill) <= max - cur)%Q
         /\ active_skills_after r = active ++ [skill]
         /\ encode bytes skill = Some (skill_bytes_after r)
     | None =>
         skill_bytes_after r = bytes
         /\ active_skills_after r = active
         /\ (available_skills (all_skills self ty) active = [] ->
             gen_after r = g)
         /\ (available_skills (all_skills self ty) active <> [] ->
             Py.used (gen_after r)
             = (Py.used g + Z.to_nat (pick_limit self))%nat)
     end.
Proof.
  intros H. pose proof (try_add_skill_spec _ _ _ _ _ _ _ _ H) as Hspec.
  unfold _try_add_skill in H.
  destruct (available_skills (all_skills self ty) active) as [|s0 l] eqn:Ea.
  - injection H as <-. cbn.
    split; [reflexivity|]. split; [lia|].
    repeat split; try reflexivity. intros Hne. elim Hne. reflexivity.
  - apply pick_loop_draws in H as (Hraw & Hused & Hnone).
    split; [exact Hraw|]. split; [exact Hused|].
    destruct (new_skill r) as [skill|].
    + destruct Hspec as (Hin & Hle & Henc & Hact).
      rewrite <- Ea in Hin.
      apply available_skills_in in Hin as (Hall & Hnot & Hval).
      auto 7.
    + destruct Hspec as (Hb & Hact).
      split; [exact Hb|]. split; [exact Hact|].
      split; [discriminate|]. intros _. apply Hnone. reflexivity.
Qed.

(** ** The category of an iteration *)

(** X13. The category an iteration tries: a character whose strength
    term [strength * str_random_rate] is not positive never gets a personal
    iteration, and one whose strength term exceeds the upper bound of the
    draw gets nothing else. A personal iteration consumes one random draw,
    any other two. *)
Theorem skill_type_choice (self : RogueLike) (strength : Z) (mr : Q)
    (g g' : Py.rng) (ty : skill_type) :
  choose_skill_type self strength mr g = Some (ty, g') ->
  ((inject_Z strength * str_random_rate self <= 0)%Q -> ty <> personal)
  /\ ((inject_Z (random_value_bound mr)
       < inject_Z strength * str_random_rate self)%Q -> ty = personal)
  /\ Py.raw g' = Py.raw g
  /\ Py.used g'
     = (Py.used g + if skill_type_eqb ty personal then 1 else 2)%nat.
Proof.
  unfold choose_skill_type, draw_random_value. intros H.
  assert (Hb : 1 <= random_value_bound mr)
    by (unfold random_value_bound; lia).
  destruct (randint_total 0 (random_value_bound mr) g) as [g1 E1]; [lia|].
  pose proof E1 as E1'.
  unfold Py.randint, Py.next_raw in E1'.
  destruct (random_value_bound mr <? 0); [discriminate|].
  injection E1' as Eg1.
  rewrite E1 in H.
  set (rv := Py.randint_value 0 (random_value_bound mr)
               (Py.raw g (Py.used g))) in *.
  assert (Hrv : 0 <= rv <= random_value_bound mr).
  { unfold rv, Py.randint_value.
    pose proof (Z.mod_pos_bound (Py.raw g (Py.used g))
                  (random_value_bound mr - 0 + 1) ltac:(lia)). lia. }
  destruct (Py.Qltb (inject_Z rv) _) eqn:Elt.
  - injection H as <- <-. rewrite <- Eg1. cbn.
    apply Qltb_true_lt in Elt.
    split.
    + intros Hle _.
      assert (0 <= inject_Z rv)%Q
        by (change (inject_Z 0 <= inject_Z rv)%Q; rewrite <- Zle_Qle; lia).
      lra.
    + split; [reflexivity|]. split; [reflexivity|lia].
  - apply Qltb_false in Elt.
    destruct (randint_total 0 2 g1) as [g2 E2]; [lia|].
    pose proof E2 as E2'.
    unfold Py.randint, Py.next_raw in E2'. cbn in E2'.
    injection E2' as Eg2.
    rewrite E2 in H. injection H as Hty Hg'.
    assert (Hnp : ty <> personal)
      by (rewrite <- Hty; destruct (_ =? 0); discriminate).
    rewrite <- Hg', <- Eg2, <- Eg1. cbn [Py.raw Py.used].
    split; [intros _; exact Hnp|].
    split.
    + intros Hlt.
      assert (inject_Z rv <= inject_Z (random_value_bound mr))%Q
        by (rewrite <- Zle_Qle; lia).
      lra.
    + split; [reflexivity|].
      destruct ty; cbn; try lia. congruence.
Qed.

(** ** The work of the allocation loop *)

Lemma alloc_step_available (self : RogueLike) (strength : Z) (max_attr mr : Q)
    (st st' : alloc) (g g' : Py.rng) (skill_added : bool) :
  alloc_step self strength max_attr mr st g = Some (skill_added, st', g') ->
  (available_count self st' + (if skill_added then 1 else 0)
   <= available_count self st)%nat
  /\ Py.len (added_skills st' marshal) + Py.len (added_skills st' commander)
     + Py.len (added_skills st' personal)
     = Py.len (added_skills st marshal) + Py.len (added_skills st commander)
       + Py.len (added_skills st personal)
       + (if skill_added then 1 else 0).
Proof.
  intros H. apply alloc_step_spec in H as (ty & Hother & Hcase).
  unfold available_count.
  destruct skill_added.
  - destruct Hcase as (skill & Hin & _ & _ & Hact & Hadd & _).
    apply available_shrinks in Hin. rewrite <- Hact in Hin.
    destruct ty; simpl in Hin;
      repeat match goal with
             | |- context [active_skills st' ?t] =>
                 lazymatch goal with
                 | _ : context [active_skills st' t] |- _ => fail
                 | _ => rewrite (proj1 (proj2 (Hother t ltac:(discriminate))))
                 end
             end;
      repeat match goal with
             | |- context [added_skills st' ?t] =>
                 lazymatch type of Hadd with
                 | context [added_skills st' t] => fail
                 | _ => rewrite (proj2 (proj2 (Hother t ltac:(discriminate))))
                 end
             end;
      rewrite Hadd, len_app; unfold Py.len; simpl length; lia.
  - destruct Hcase as (_ & Hact & Hadd & _).
    assert (Hall : forall t, active_skills st' t = active_skills st t
                             /\ added_skills st' t = added_skills st t).
    { intros t. destruct (skill_type_eq_dec t ty) as [->|Hne];
        [auto|split; apply (Hother t Hne)]. }
    rewrite !(proj1 (Hall _)), !(proj2 (Hall _)). lia.
Qed.

Lemma successes_snoc (steps : list bool) (b : bool) :
  successes (steps ++ [b]) = successes steps + (if b then 1 else 0).
Proof.
  unfold successes, Py.len. rewrite filter_app, length_app.
  destruct b; simpl; lia.
Qed.

(** X14. The work of the allocation loop is bounded: it runs at most
    [available * reroll_limit + reroll_limit] iterations, where
    [available] counts the enabled catalog entries that are not active
    when it starts; the skills it adds are as many as its successful
    iterations, and no more than [available]. *)
Theorem allocation_loop_work (self : RogueLike) (strength : Z)
    (max_attribute_value max_random : Q) (st st' : alloc) (g g' : Py.rng)
    (steps : list bool) :
  consecutive_failures st = 0 ->
  (forall ty, added_skills st ty = []) ->
  allocate self strength max_attribute_value max_random st g
  = Finished st' g' steps ->
  (length steps
   <= available_count self st * Z.to_nat (reroll_limit self)
      + Z.to_nat (reroll_limit self))%nat
  /\ Py.len (added_skills st' marshal) + Py.len (added_skills st' commander)
     + Py.len (added_skills st' personal) = successes steps
  /\ successes steps + Z.of_nat (available_count self st')
     <= Z.of_nat (available_count self st).
Proof.
  intros Hf0 Hadd H. unfold allocate in H.
  apply (alloc_loop_invariant self strength max_attribute_value max_random
           (fun s l =>
              (length l + alloc_fuel self s <= alloc_fuel self st)%nat
              /\ Py.len (added_skills s marshal)
                 + Py.len (added_skills s commander)
                 + Py.len (added_skills s personal) = successes l
              /\ successes l + Z.of_nat (available_count self s)
                 <= Z.of_nat (available_count self st))) in H.
  - destruct H as ((Hlen & Hsum & Hav) & _).
    split; [|auto].
    unfold alloc_fuel in Hlen at 2. rewrite Hf0, Z.sub_0_r in Hlen. lia.
  - intros s l b s' g0 g1 (Hlen & Hsum & Hav) Hguard Hs.
    pose proof (alloc_step_fuel _ _ _ _ _ _ _ _ _ Hguard Hs) as Hfuel.
    apply alloc_step_available in Hs as [Hcount Hadded].
    rewrite length_app, successes_snoc. cbn [length].
    split; [lia|]. split; [lia|]. destruct b; lia.
  - rewrite !Hadd. cbn. lia.
Qed.

(** ** Encoding and writing back *)

(** Every byte of the result of [encode], read with 0 beyond the end. *)
Lemma encode_nth (bytes bytes' : list Z) (skill : Skill.t) :
  0 <= Skill.bit skill ->
  encode bytes skill = Some bytes' ->
  Py.len bytes' = Z.max (Py.len bytes) (Skill.bit skill / 8 + 1)
  /\ forall j,
       nth j bytes' 0
       = Z.lor (nth j bytes 0)
           (if (j =? Z.to_nat (Skill.bit skill / 8))%nat
            then Z.shiftl 1 (Skill.bit skill mod 8) else 0).
Proof.
  intros Hbit He.
  destruct (encode_bytes bytes skill Hbit) as (b' & He' & Hl & Hx & Ho).
  rewrite He in He'. injection He' as <-.
  split; [exact Hl|]. intros j.
  destruct (Nat.eqb_spec j (Z.to_nat (Skill.bit skill / 8))) as [->|Hne].
  - apply nth_error_nth. exact Hx.
  - rewrite Z.lor_0_r. specialize (Ho j Hne).
    destruct (Nat.ltb_spec j (length bytes)) as [L|L].
    + destruct (nth_error_in_range bytes j L) as [x Hxj].
      rewrite Hxj in Ho.
      rewrite (nth_error_nth _ _ _ Ho), (nth_error_nth _ _ _ Hxj).
      reflexivity.
    + rewrite (nth_overflow bytes) by assumption.
      destruct (j <? _)%nat.
      * apply nth_error_nth. exact Ho.
      * apply nth_overflow. apply nth_error_None. exact Ho.
Qed.

(** X15. Encoding is idempotent and the order of two encodings does not
    matter: encoding a skill whose bit is already encoded returns the same
    bytes, and encoding two skills gives the same bytes in either order. *)
Theorem encode_idempotent_commutative (bytes b1 b2 b12 b21 : list Z)
    (s1 s2 : Skill.t) :
  0 <= Skill.bit s1 -> 0 <= Skill.bit s2 ->
  encode bytes s1 = Some b1 -> encode b1 s2 = Some b12 ->
  encode bytes s2 = Some b2 -> encode b2 s1 = Some b21 ->
  encode b1 s1 = Some b1 /\ b12 = b21.
Proof.
  intros H1 H2 E1 E12 E2 E21.
  pose proof (encode_nth _ _ _ H1 E1) as [L1 N1].
  pose proof (encode_nth _ _ _ H2 E12) as [L12 N12].
  pose proof (encode_nth _ _ _ H2 E2) as [L2 N2].
  pose proof (encode_nth _ _ _ H1 E21) as [L21 N21].
  split.
  - destruct (encode_bits b1 s1 H1) as (b11 & E11 & _).
    pose proof (encode_nth _ _ _ H1 E11) as [L11 N11].
    rewrite E11. f_equal.
    apply (nth_ext _ _ 0 0); [unfold Py.len in *; lia|].
    intros j _. rewrite N11, N1, <- Z.lor_assoc, Z.lor_diag. reflexivity.
  - apply (nth_ext _ _ 0 0); [unfold Py.len in *; lia|].
    intros j _. rewrite N12, N1, N21, N2.
    rewrite <- !Z.lor_assoc. f_equal. apply Z.lor_comm.
Qed.

(** X16. Writing bytes back and reading them again: for an offset that is
    not negative, the write-back succeeds exactly when the bytes fit into
    the buffer (an empty byte string always fits); it then keeps the
    length of the buffer, the slice at the offset reads back the bytes
    written, and every position outside that slice is unchanged. *)
Theorem write_back_round_trip (save_data : list Z) (offset : Z)
    (bs : list Z) :
  0 <= offset ->
  match write_back save_data offset bs with
  | Some save_data' =>
      (bs = [] \/ offset + Py.len bs <= Py.len save_data)
      /\ length save_data' = length save_data
      /\ Py.slice save_data' offset (offset + Py.len bs) = bs
      /\ forall j, ~ (offset <= Z.of_nat j < offset + Py.len bs) ->
                   nth_error save_data' j = nth_error save_data j
  | None => bs <> [] /\ Py.len save_data < offset + Py.len bs
  end.
Proof.
  intros Hoff.
  destruct (write_back save_data offset bs) as [d|] eqn:E.
  - pose proof (write_back_content _ _ _ _ Hoff E) as Hc.
    apply write_back_spec in E as (Hl & Hfit & Hfr); [|assumption].
    split.
    { destruct bs; [left; reflexivity|right; apply Hfit; discriminate]. }
    split; [exact Hl|]. split; [|exact Hfr].
    destruct bs as [|b rest].
    + unfold Py.slice. replace (offset + Py.len [] - offset) with 0
        by (unfold Py.len; simpl; lia).
      reflexivity.
    + apply slice_eq_bytes_at; [assumption|discriminate|exact Hc].
  - destruct bs as [|b rest]; [discriminate|].
    split; [discriminate|].
    destruct (Z_lt_dec (Py.len save_data) (offset + Py.len (b :: rest)))
      as [L|L]; [exact L|].
    destruct (write_back_total save_data offset (b :: rest) Hoff ltac:(lia))
      as [d Hd].
    congruence.
Qed.

(** ** The configuration loader *)

Section LoaderFacts.

Variable strip : string -> string.
Variable int : string -> option Z.
Variable float : string -> option Q.
Variable J : Type.
Variable json_loads : string -> Loader.loads_result J.
Variable len : J -> option Z.
Variable default_thresholds default_rates : J.

Local Abbreviation load_line :=
  (Loader.load_line strip int float J json_loads len default_rates).
Local Abbreviation load_lines :=
  (Loader.load_lines strip int float J json_loads len default_rates).
Local Abbreviation load_config :=
  (Loader.load_config strip int float J json_loads len default_thresholds
     default_rates).
Local Abbreviation set_key :=
  (Loader.set_key int float J json_loads len default_rates).
Local Abbreviation catalog := (Loader.catalog J).

(** A setting changes no catalog. *)
Lemma set_key_catalog (self self' : Loader.t J) (key value : string) :
  set_key self key value = Some self' ->
  forall ty, catalog self' ty = catalog self ty.
Proof.
  unfold Loader.set_key. intros H ty.
  repeat match type of H with
         | (if ?c then _ else _) = _ => destruct c
         | match ?x with _ => _ end = _ => destruct x
         end;
    try discriminate; injection H as <-; destruct ty; reflexivity.
Qed.

(** A data line appends at most one skill, built by [skill_data], to the
    catalog of its section. *)
Lemma add_skill_line_catalog (self self' : Loader.t J)
    (section : skill_type) (line : string) :
  Loader.add_skill_line int J self section line = Some self' ->
  (forall ty, catalog self' ty = catalog self ty)
  \/ exists skill_id name desc value,
       forall ty,
         catalog self' ty
         = if skill_type_eqb section ty
           then catalog self ty
                ++ [Skill.skill_data skill_id name desc value]
           else catalog self ty.
Proof.
  unfold Loader.add_skill_line. intros H.
  destruct (Loader.split ";" line) as [|p0 [|p1 [|p2 [|p3 rest]]]];
    try (injection H as <-; left; reflexivity).
  destruct (int p0) as [i|]; [|discriminate].
  destruct (int p3) as [v|]; [|discriminate].
  injection H as <-. right. exists i, p1, p2, v.
  intros ty. destruct section, ty; reflexivity.
Qed.

(** What one line does to the catalogs and to the current section. *)
Lemma load_line_catalog (self self' : Loader.t J)
    (section section' : option skill_type) (line : string) :
  load_line (self, section) line = Some (self', section') ->
  ((forall ty, catalog self' ty = catalog self ty)
   /\ (section' = section \/ is_header strip line))
  \/ (section' = section
      /\ data_relevant strip line = true
      /\ exists s skill_id name desc value,
           section = Some s
           /\ forall ty,
                catalog self' ty
                = if skill_type_eqb s ty
                  then catalog self ty
                       ++ [Skill.skill_data skill_id name desc value]
                  else catalog self ty).
Proof.
  unfold Loader.load_line, data_relevant, is_header. intros H.
  destruct (String.eqb_spec (strip line) EmptyString) as [E0|E0].
  { injection H as <- <-. left. auto. }
  destruct (String.eqb_spec (strip line) Loader.marshal_header) as [Em|Em].
  { injection H as <- <-. left. auto. }
  destruct (String.eqb_spec (strip line) Loader.commander_header) as [Ec|Ec].
  { injection H as <- <-. left. auto. }
  destruct (String.eqb_spec (strip line) Loader.personal_header) as [Ep|Ep].
  { injection H as <- <-. left. auto. }
  destruct (Loader.contains "=" (strip line)) eqn:Eeq.
  { destruct (Loader.split_once "=" (strip line)) as [[k v]|];
      [|discriminate].
    destruct (Loader.set_key _ _ _ _ _ _ _ _ _) as [s1|] eqn:Es;
      [|discriminate].
    injection H as <- <-. left. split; [|auto].
    eapply set_key_catalog. exact Es. }
  destruct section as [s|]; [|injection H as <- <-; left; auto].
  destruct (Loader.contains ";" (strip line));
    [|injection H as <- <-; left; auto].
  destruct (Loader.add_skill_line _ _ _ _ _) as [s1|] eqn:Ea;
    [|discriminate].
  injection H as <- <-.
  apply add_skill_line_catalog in Ea as [Hsame|(i & n & d & v & Hadd)].
  - left. auto.
  - right. split; [reflexivity|]. split; [reflexivity|].
    exists s, i, n, d, v. auto.
Qed.

Lemma load_lines_invariant (P : Loader.t J -> option skill_type -> Prop) :
  (forall self section line self' section',
     P self section ->
     load_line (self, section) line = Some (self', section') ->
     P self' section') ->
  forall lines self section self' section',
    P self section ->
    load_lines lines (self, section) = Some (self', section') ->
    P self' section'.
Proof.
  intros Hstep. induction lines as [|line rest IH];
    intros self section self' section' HP H;
    cbn [Loader.load_lines] in H.
  - injection H as <- <-. exact HP.
  - destruct (load_line (self, section) line) as [[s1 c1]|] eqn:E;
      [|discriminate].
    eapply IH; [|exact H]. eapply Hstep; eassumption.
Qed.

(** X17. Every skill the loader puts into a catalog has its bit position
    equal to its id, whatever the file holds; so has every skill of the
    processor object built from the loaded attributes. *)
Theorem loaded_skills_have_bit_id (lines : list string) (cfg : Loader.t J) :
  load_config lines = Some cfg ->
  (forall ty skill, In skill (catalog cfg ty) ->
                    Skill.bit skill = Skill.id skill)
  /\ forall numbers debug self,
       loaded_RogueLike numbers cfg debug = Some self ->
       forall ty skill, In skill (all_skills self ty) ->
                        Skill.bit skill = Skill.id skill.
Proof.
  unfold Loader.load_config. intros H.
  destruct (load_lines lines (Loader.initial J default_thresholds default_rates, None))
    as [[self section]|] eqn:E;
    [|discriminate].
  injection H as <-. cbn [fst].
  assert (Hcat : forall ty skill, In skill (catalog self ty) ->
                                  Skill.bit skill = Skill.id skill).
  { refine (load_lines_invariant
              (fun s _ => forall ty skill, In skill (catalog s ty) ->
                                           Skill.bit skill = Skill.id skill)
              _ lines _ _ _ _ _ E).
    - intros s c line s' c' Hinv Hl ty skill Hin.
      apply load_line_catalog in Hl
        as [[Hsame _]|(_ & _ & s0 & i & n & d & v & _ & Hadd)].
      + rewrite Hsame in Hin. eapply Hinv. exact Hin.
      + rewrite Hadd in Hin. destruct (skill_type_eqb s0 ty).
        * apply in_app_or in Hin as [Hin|[<-|[]]];
            [eapply Hinv; exact Hin|reflexivity].
        * eapply Hinv. exact Hin.
    - intros ty skill Hin. destruct ty; contradiction. }
  split; [exact Hcat|].
  intros numbers debug self0 Hl ty skill Hin.
  unfold loaded_RogueLike in Hl.
  destruct (numbers _); [|discriminate].
  destruct (numbers _); [|discriminate].
  injection Hl as <-. apply (Hcat ty). destruct ty; exact Hin.
Qed.

(** X18. Data lines before the first section header are ignored: a file
    in which no stripped line is a section header loads no skill. *)
Theorem no_header_no_skills (lines : list string) (cfg : Loader.t J) :
  (forall line, In line lines -> ~ is_header strip line) ->
  load_config lines = Some cfg ->
  forall ty, catalog cfg ty = [].
Proof.
  unfold Loader.load_config. intros Hnone H.
  destruct (load_lines lines (Loader.initial J default_thresholds default_rates, None))
    as [[self section]|] eqn:E;
    [|discriminate].
  injection H as <-. cbn [fst].
  assert (G : forall ls s c s' c',
             (forall line, In line ls -> ~ is_header strip line) ->
             c = None -> (forall ty, catalog s ty = []) ->
             load_lines ls (s, c) = Some (s', c') ->
             forall ty, catalog s' ty = []).
  { induction ls as [|line rest IH]; intros s c s' c' Hh Hc Hs Hl;
      cbn [Loader.load_lines] in Hl.
    - injection Hl as <- <-. exact Hs.
    - destruct (load_line (s, c) line) as [[s1 c1]|] eqn:E1;
        [|discriminate].
      apply load_line_catalog in E1
        as [[Hsame Hsec]|(_ & _ & s0 & _ & _ & _ & _ & Hsome & _)].
      + apply (IH s1 c1 s' c'); [intros l Hl'; apply Hh; right; exact Hl'
                                 | |intros ty; rewrite Hsame; apply Hs
                                 |exact Hl].
        destruct Hsec as [->|Hhd]; [exact Hc|].
        elim (Hh line (or_introl eq_refl) Hhd).
      + congruence. }
  eapply G; [exact Hnone|reflexivity| |exact E].
  intros ty. destruct ty; reflexivity.
Qed.

(** X19. The catalogs do not depend on the settings: loading only the
    lines that are neither blank nor settings (no [=] once stripped)
    succeeds whenever loading the whole file does, and yields the same
    three catalogs. *)
Theorem catalogs_ignore_settings (lines : list string) (cfg : Loader.t J) :
  load_config lines = Some cfg ->
  exists cfg',
    load_config (filter (data_relevant strip) lines) = Some cfg'
    /\ forall ty, catalog cfg' ty = catalog cfg ty.
Proof.
  unfold Loader.load_config. intros H.
  destruct (load_lines lines (Loader.initial J default_thresholds default_rates, None))
    as [[self section]|] eqn:E;
    [|discriminate].
  injection H as <-. cbn [fst].
  assert (G : forall ls s c s' c' t,
             (forall ty, catalog t ty = catalog s ty) ->
             load_lines ls (s, c) = Some (s', c') ->
             exists t',
               load_lines (filter (data_relevant strip) ls) (t, c)
               = Some (t', c')
               /\ forall ty, catalog t' ty = catalog s' ty).
  { induction ls as [|line rest IH]; intros s c s' c' t Hrel Hl;
      cbn [Loader.load_lines] in Hl.
    - injection Hl as <- <-. exists t. split; [reflexivity|exact Hrel].
    - destruct (load_line (s, c) line) as [[s1 c1]|] eqn:E1;
        [|discriminate].
      cbn [filter].
      destruct (data_relevant strip line) eqn:Er.
      + cbn [Loader.load_lines].
        assert (Hsim : exists t1,
                   load_line (t, c) line = Some (t1, c1)
                   /\ forall ty, catalog t1 ty = catalog s1 ty).
        { unfold data_relevant in Er.
          apply andb_true_iff in Er as [Eb Ee].
          apply negb_true_iff in Eb, Ee.
          unfold Loader.load_line in E1 |- *.
          rewrite Eb in E1 |- *.
          destruct (String.eqb (strip line) Loader.marshal_header).
          { injection E1 as <- <-. eauto. }
          destruct (String.eqb (strip line) Loader.commander_header).
          { injection E1 as <- <-. eauto. }
          destruct (String.eqb (strip line) Loader.personal_header).
          { injection E1 as <- <-. eauto. }
          rewrite Ee in E1 |- *.
          destruct c as [sec|]; [|injection E1 as <- <-; eauto].
          destruct (Loader.contains ";" (strip line));
            [|injection E1 as <- <-; eauto].
          unfold Loader.add_skill_line in E1 |- *.
          destruct (Loader.split ";" (strip line))
            as [|p0 [|p1 [|p2 [|p3 tl]]]];
            try (injection E1 as <- <-; eauto).
          destruct (int p0) as [i|]; [|discriminate].
          destruct (int p3) as [v|]; [|discriminate].
          injection E1 as <- <-. eexists. split; [reflexivity|].
          intros ty. pose proof (Hrel marshal). pose proof (Hrel commander).
          pose proof (Hrel personal). cbn in *.
          destruct sec, ty; cbn; congruence. }
        destruct Hsim as (t1 & -> & Hrel1).
        apply (IH s1 c1 s' c' t1 Hrel1 Hl).
      + apply load_line_catalog in E1
          as [[Hsame Hsec]|(_ & Hr & _)]; [|congruence].
        assert (c1 = c).
        { destruct Hsec as [->|Hhd]; [reflexivity|].
          unfold data_relevant in Er. unfold is_header in Hhd.
          apply andb_false_iff in Er.
          exfalso.
          destruct Er as [Eb|Ee].
          - apply negb_false_iff in Eb. apply String.eqb_eq in Eb.
            destruct Hhd as [Hh|[Hh|Hh]]; rewrite Hh in Eb; discriminate.
          - apply negb_false_iff in Ee.
            destruct Hhd as [Hh|[Hh|Hh]]; rewrite Hh in Ee; discriminate. }
        subst c1.
        apply (IH s1 c s' c' t); [|exact Hl].
        intros ty. rewrite Hrel, Hsame. reflexivity. }
  destruct (G lines _ None self section _ (fun _ => eq_refl) E)
    as (t' & Ht & Hrel).
  rewrite Ht. exists t'. split; [reflexivity|exact Hrel].
Qed.

(** A text without the separator is not split. *)
Lemma split_without_separator (c : ascii) (s : string) :
  Loader.contains c s = false -> Loader.split c s = [s].
Proof.
  induction s as [|x rest IH]; cbn; [reflexivity|].
  destruct (Ascii.eqb x c); [discriminate|].
  intros H. rewrite (IH H). reflexivity.
Qed.

(** A header line sets the current section; no other line changes it. *)
Lemma load_line_section (self self' : Loader.t J)
    (section section' : option skill_type) (line : string) :
  load_line (self, section) line = Some (self', section') ->
  (is_header strip line /\ section' <> None)
  \/ (~ is_header strip line /\ section' = section).
Proof.
  unfold Loader.load_line, is_header. intros H.
  destruct (String.eqb_spec (strip line) EmptyString) as [E0|E0].
  { injection H as <- <-. right. split; [|reflexivity].
    rewrite E0. intros [Hh|[Hh|Hh]]; discriminate. }
  destruct (String.eqb_spec (strip line) Loader.marshal_header) as [Em|Em].
  { injection H as <- <-. left. split; [auto|discriminate]. }
  destruct (String.eqb_spec (strip line) Loader.commander_header) as [Ec|Ec].
  { injection H as <- <-. left. split; [auto|discriminate]. }
  destruct (String.eqb_spec (strip line) Loader.personal_header) as [Ep|Ep].
  { injection H as <- <-. left. split; [auto|discriminate]. }
  right. split; [tauto|].
  destruct (Loader.contains "=" (strip line)).
  { destruct (Loader.split_once "=" (strip line)) as [[k v]|];
      [|discriminate].
    destruct (Loader.set_key _ _ _ _ _ _ _ _ _); [|discriminate].
    injection H as _ <-. reflexivity. }
  destruct section as [s|]; [|injection H as _ <-; reflexivity].
  destruct (Loader.contains ";" (strip line));
    [|injection H as _ <-; reflexivity].
  destruct (Loader.add_skill_line _ _ _ _ _); [|discriminate].
  injection H as _ <-. reflexivity.
Qed.

Lemma load_lines_app (l1 l2 : list string)
    (st : Loader.t J * option skill_type) :
  load_lines (l1 ++ l2) st
  = match load_lines l1 st with
    | Some st1 => load_lines l2 st1
    | None => None
    end.
Proof.
  revert st. induction l1 as [|line rest IH]; intros st;
    cbn [Loader.load_lines app]; [reflexivity|].
  destruct (load_line st line) as [st1|]; [apply IH|reflexivity].
Qed.

(** Once a header was read, there is a current section. *)
Lemma load_lines_section (lines : list string) (self self' : Loader.t J)
    (section section' : option skill_type) :
  load_lines lines (self, section) = Some (self', section') ->
  section <> None \/ (exists header, In header lines
                                     /\ is_header strip header) ->
  section' <> None.
Proof.
  revert self section. induction lines as [|line rest IH];
    intros self section H Hor; cbn [Loader.load_lines] in H.
  - injection H as _ <-. destruct Hor as [Hs|(h & [] & _)]. exact Hs.
  - destruct (load_line (self, section) line) as [[s1 c1]|] eqn:E;
      [|discriminate].
    apply (IH s1 c1 H).
    apply load_line_section in E as [[_ Hc]|[Hn Hc]]; [left; exact Hc|].
    subst c1.
    destruct Hor as [Hs|(h & [<-|Hin] & Hh)];
      [left; exact Hs|contradiction|right; exists h; auto].
Qed.

(** X20. A data line of a section with at least four fields, whose first
    or fourth field [int] rejects, ends the program: the loader does not
    return, whatever follows the line. *)
Theorem malformed_skill_line_aborts (before after : list string)
    (header line p0 p1 p2 p3 : string) (more : list string) :
  In header before -> is_header strip header ->
  data_relevant strip line = true -> ~ is_header strip line ->
  Loader.split ";" (strip line) = p0 :: p1 :: p2 :: p3 :: more ->
  int p0 = None \/ int p3 = None ->
  load_config (before ++ line :: after) = None.
Proof.
  intros Hin Hh Hr Hn Hsplit Hint. unfold Loader.load_config.
  rewrite load_lines_app.
  destruct (load_lines before _) as [[s c]|] eqn:E; [|reflexivity].
  assert (Hc : c <> None).
  { eapply load_lines_section; [exact E|]. right. exists header. auto. }
  destruct c as [sec|]; [clear Hc|elim Hc; reflexivity].
  cbn [Loader.load_lines].
  assert (Hl : load_line (s, Some sec) line = None).
  { unfold data_relevant in Hr. apply andb_true_iff in Hr as [Eb Ee].
    apply negb_true_iff in Eb, Ee. unfold is_header in Hn.
    unfold Loader.load_line. rewrite Eb.
    destruct (String.eqb_spec (strip line) Loader.marshal_header);
      [tauto|].
    destruct (String.eqb_spec (strip line) Loader.commander_header);
      [tauto|].
    destruct (String.eqb_spec (strip line) Loader.personal_header);
      [tauto|].
    rewrite Ee.
    destruct (Loader.contains ";" (strip line)) eqn:Es.
    - unfold Loader.add_skill_line. rewrite Hsplit.
      destruct (int p0); [|reflexivity].
      destruct Hint as [Hi | Hi]; [discriminate|rewrite Hi; reflexivity].
    - rewrite (split_without_separator _ _ Es) in Hsplit. discriminate. }
  rewrite Hl. reflexivity.
Qed.

End LoaderFacts.

(** * The further properties on the example inputs *)

Lemma first_character_is_required_witness :
  1 <= last_character_number ex_self
  /\ process_save_file ex_self ex_blank ex_gen = None
  /\ process_save_file ex_self [1; 0; 7; 7] ex_gen = None.
Proof.
  split; [simpl; lia|].
  destruct (first_character_is_required ex_self ex_blank ex_gen
              ltac:(simpl; lia)) as [Hscan _].
  destruct (first_character_is_required ex_self [1; 0; 7; 7] ex_gen
              ltac:(simpl; lia)) as [_ Hshort].
  split.
  - apply Hscan.
    apply first_in_range_none. vm_compute. reflexivity.
  - apply Hshort. vm_compute. discriminate.
Defined.

Lemma located_record_has_skip_count_witness :
  0 <= 0
  /\ locate false ex_small 0 2 (id_bytes 2) = Found 3
  /\ 3 + 26 <= Py.len ex_small
  /\ exists f, resolve_fields ex_small 3 = Some f.
Proof.
  assert (E : locate false ex_small 0 2 (id_bytes 2) = Found 3)
    by (vm_compute; reflexivity).
  split; [lia|]. split; [exact E|].
  destruct (located_record_has_skip_count false ex_small 0 2 (id_bytes 2) 3
              ltac:(lia) E) as (_ & Hend & Hf).
  split; [exact Hend|exact Hf].
Defined.

Lemma statistics_are_consistent_witness :
  exists st,
    process_save_file ex_self ex_input ex_gen = Some st
    /\ total_characters st = 3
    /\ Py.len (located_offsets (log st)) = 3
    /\ characters_processed st <= total_skills_added st.
Proof.
  assert (Hs : match process_save_file ex_self ex_input ex_gen with
               | Some st => total_characters st =? 3
               | None => false
               end = true) by (vm_compute; reflexivity).
  destruct (process_save_file ex_self ex_input ex_gen) as [st|] eqn:E;
    [|discriminate Hs].
  apply Z.eqb_eq in Hs.
  destruct (statistics_are_consistent ex_self ex_input ex_gen st E)
    as (Htot & _ & _ & Hproc).
  exists st. split; [reflexivity|]. split; [exact Hs|].
  split; [rewrite <- Htot; exact Hs|exact Hproc].
Defined.

Lemma records_are_found_in_order_witness :
  exists st,
    process_save_file ex_self ex_input ex_gen = Some st
    /\ located_offsets (log st) = [131072; 131972; 132872]
    /\ spaced 0x20000 (located_offsets (log st))
    /\ search_position st = 133772.
Proof.
  assert (Hs : match process_save_file ex_self ex_input ex_gen with
               | Some st =>
                   if list_eq_dec Z.eq_dec (located_offsets (log st))
                        [131072; 131972; 132872]
                   then true else false
               | None => false
               end = true) by (vm_compute; reflexivity).
  destruct (process_save_file ex_self ex_input ex_gen) as [st|] eqn:E;
    [|discriminate Hs].
  destruct (list_eq_dec Z.eq_dec (located_offsets (log st))
              [131072; 131972; 132872]) as [Hl|]; [|discriminate Hs].
  destruct (records_are_found_in_order ex_self ex_input ex_gen st E)
    as [Hsp Hcur].
  exists st. split; [reflexivity|]. split; [exact Hl|].
  split; [exact Hsp|]. rewrite Hcur, Hl. reflexivity.
Defined.

Lemma no_skill_added_no_change_witness :
  exists st,
    process_save_file ex_costly ex_truncated ex_gen = Some st
    /\ total_skills_added st = 0
    /\ save_data st = ex_truncated.
Proof.
  assert (Hs : match process_save_file ex_costly ex_truncated ex_gen with
               | Some st => total_skills_added st =? 0
               | None => false
               end = true) by (vm_compute; reflexivity).
  destruct (process_save_file ex_costly ex_truncated ex_gen) as [st|] eqn:E;
    [|discriminate Hs].
  apply Z.eqb_eq in Hs.
  destruct (no_skill_added_no_change ex_costly ex_truncated ex_gen st E)
    as [_ Hsame].
  exists st. split; [reflexivity|]. split; [exact Hs|exact (Hsame Hs)].
Defined.

Lemma nonpositive_limits_change_nothing_witness :
  (reroll_limit ex_no_reroll <= 0 \/ pick_limit ex_no_reroll <= 0)
  /\ exists st,
       process_save_file ex_no_reroll ex_input ex_gen = Some st
       /\ total_characters st = 3
       /\ total_skills_added st = 0
       /\ save_data st = ex_input.
Proof.
  assert (Hlim : reroll_limit ex_no_reroll <= 0
                 \/ pick_limit ex_no_reroll <= 0) by (left; simpl; lia).
  split; [exact Hlim|].
  assert (Hs : match process_save_file ex_no_reroll ex_input ex_gen with
               | Some st => total_characters st =? 3
               | None => false
               end = true) by (vm_compute; reflexivity).
  destruct (process_save_file ex_no_reroll ex_input ex_gen) as [st|] eqn:E;
    [|discriminate Hs].
  apply Z.eqb_eq in Hs.
  destruct (nonpositive_limits_change_nothing ex_no_reroll ex_input ex_gen
              st Hlim E) as (Hadd & _ & Hsame).
  exists st. split; [reflexivity|]. split; [exact Hs|].
  split; [exact Hadd|exact Hsame].
Defined.

Lemma run_never_clears_a_bit_witness :
  catalog_ok ex_self
  /\ nth_error ex_input (Z.to_nat 0x20000) = Some 1
  /\ exists st y,
       process_save_file ex_self ex_input ex_gen = Some st
       /\ nth_error (save_data st) (Z.to_nat 0x20000) = Some y
       /\ Z.testbit y 0 = true.
Proof.
  assert (Hin : nth_error ex_input (Z.to_nat 0x20000) = Some 1)
    by (vm_compute; reflexivity).
  split; [exact ex_self_catalog_ok|]. split; [exact Hin|].
  assert (Hs : match process_save_file ex_self ex_input ex_gen with
               | Some st => true
               | None => false
               end = true) by (vm_compute; reflexivity).
  destruct (process_save_file ex_self ex_input ex_gen) as [st|] eqn:E;
    [|discriminate Hs].
  assert (Hmax : forall ty m,
             max_of (map Skill.id (all_skills ex_self ty)) = Some m ->
             m mod 8 <> 0).
  { intros ty m Hm. destruct ty; vm_compute in Hm; injection Hm as <-;
      vm_compute; discriminate. }
  destruct (run_never_clears_a_bit ex_self ex_input ex_gen st
              ex_self_catalog_ok Hmax E (Z.to_nat 0x20000) 1 Hin)
    as (y & Hy & Hkept).
  exists st, y. split; [reflexivity|]. split; [exact Hy|].
  apply Hkept; [lia|reflexivity].
Defined.

Lemma decode_is_total_and_exact_witness :
  (forall skill, In skill ex_eight -> 0 <= Skill.bit skill)
  /\ exists active,
       decode ex_eight ex_eight_bytes = Some active
       /\ In (ex_skill 8 10) active
       /\ forall skill, In skill active ->
                        Skill.bit skill / 8 < Py.len ex_eight_bytes.
Proof.
  assert (Hbits : forall skill, In skill ex_eight -> 0 <= Skill.bit skill).
  { intros skill [<-|[]]. simpl. lia. }
  split; [exact Hbits|].
  destruct (decode_is_total_and_exact ex_eight ex_eight_bytes Hbits)
    as (active & Hdec & _ & Hiff & Hin & _).
  exists active. split; [exact Hdec|]. split; [|exact Hin].
  apply Hiff. split; [left; reflexivity|].
  split; [simpl; lia|reflexivity].
Defined.

Lemma try_add_skill_contract_witness :
  exists r skill,
    _try_add_skill ex_self personal [0; 0] [] (213 # 1) (2367 # 10) ex_gen
    = Some r
    /\ new_skill r = Some skill
    /\ In skill (all_skills ex_self personal)
    /\ active_skills_after r = [skill]
    /\ encode [0; 0] skill = Some (skill_bytes_after r).
Proof.
  assert (Hs : match _try_add_skill ex_self personal [0; 0] []
                       (213 # 1) (2367 # 10) ex_gen with
               | Some r => match new_skill r with
                           | Some _ => true
                           | None => false
                           end
               | None => false
               end = true) by (vm_compute; reflexivity).
  destruct (_try_add_skill ex_self personal [0; 0] [] (213 # 1)
              (2367 # 10) ex_gen) as [r|] eqn:E; [|discriminate Hs].
  pose proof (try_add_skill_contract ex_self personal [0; 0] []
                (213 # 1) (2367 # 10) ex_gen r E) as (_ & _ & Hnew).
  destruct (new_skill r) as [skill|] eqn:En; [|discriminate Hs].
  destruct Hnew as (Hin & _ & _ & _ & Hact & Henc).
  exists r, skill. split; [reflexivity|]. split; [exact En|].
  split; [exact Hin|]. split; [exact Hact|exact Henc].
Defined.

Lemma skill_type_choice_witness :
  exists ty g',
    choose_skill_type ex_self 100 (190 # 1) ex_gen = Some (ty, g')
    /\ Py.raw g' = Py.raw ex_gen
    /\ Py.used g' = if skill_type_eqb ty personal then 1%nat else 2%nat.
Proof.
  assert (Hs : match choose_skill_type ex_self 100 (190 # 1) ex_gen with
               | Some _ => true
               | None => false
               end = true) by (vm_compute; reflexivity).
  destruct (choose_skill_type ex_self 100 (190 # 1) ex_gen)
    as [[ty g']|] eqn:E; [|discriminate Hs].
  destruct (skill_type_choice ex_self 100 (190 # 1) ex_gen g' ty E)
    as (_ & _ & Hraw & Hused).
  exists ty, g'. split; [reflexivity|]. split; [exact Hraw|exact Hused].
Defined.

Lemma allocation_loop_work_witness :
  consecutive_failures ex_alloc = 0
  /\ (forall ty, added_skills ex_alloc ty = [])
  /\ exists st' g' steps,
       allocate ex_self 100 (2367 # 10) (190 # 1) ex_alloc ex_gen
       = Finished st' g' steps
       /\ (length steps <= 18)%nat
       /\ successes steps <= 5.
Proof.
  split; [reflexivity|]. split; [reflexivity|].
  destruct (alloc_loop_finishes ex_self 100 (2367 # 10) (190 # 1)
              (alloc_fuel ex_self ex_alloc) ex_alloc ex_gen []
              ex_self_catalog_ok (Nat.le_refl _))
    as (st' & g' & steps & Hrun).
  fold (allocate ex_self 100 (2367 # 10) (190 # 1) ex_alloc ex_gen) in Hrun.
  exists st', g', steps. split; [exact Hrun|].
  destruct (allocation_loop_work ex_self 100 (2367 # 10) (190 # 1)
              ex_alloc st' ex_gen g' steps eq_refl (fun _ => eq_refl) Hrun)
    as (Hlen & _ & Hsucc).
  assert (Hav : available_count ex_self ex_alloc = 5%nat)
    by (vm_compute; reflexivity).
  rewrite Hav in Hlen, Hsucc.
  change (Z.to_nat (reroll_limit ex_self)) with 3%nat in Hlen.
  split; lia.
Defined.

Lemma encode_idempotent_commutative_witness :
  encode [0; 0] (ex_skill 0 10) = Some [1; 0]
  /\ encode [0; 0] (ex_skill 9 30) = Some [0; 2]
  /\ encode [1; 0] (ex_skill 0 10) = Some [1; 0]
  /\ encode [1; 0] (ex_skill 9 30) = encode [0; 2] (ex_skill 0 10).
Proof.
  destruct (encode_idempotent_commutative [0; 0] [1; 0] [0; 2] [1; 2]
              [1; 2] (ex_skill 0 10) (ex_skill 9 30)
              ltac:(simpl; lia) ltac:(simpl; lia)
              eq_refl eq_refl eq_refl eq_refl) as [Hidem _].
  split; [reflexivity|]. split; [reflexivity|].
  split; [exact Hidem|reflexivity].
Defined.

Lemma write_back_round_trip_witness :
  0 <= 2
  /\ match write_back [1; 2; 3; 4; 5] 2 [9; 8] with
     | Some save_data' =>
         Py.slice save_data' 2 4 = [9; 8]
         /\ nth_error save_data' 1 = Some 2
         /\ nth_error save_data' 4 = Some 5
     | None => False
     end
  /\ write_back [1; 2; 3] 2 [9; 8] = None.
Proof.
  split; [lia|].
  pose proof (write_back_round_trip [1; 2; 3; 4; 5] 2 [9; 8] ltac:(lia))
    as Hfit.
  pose proof (write_back_round_trip [1; 2; 3] 2 [9; 8] ltac:(lia))
    as Hshort.
  split.
  - destruct (write_back [1; 2; 3; 4; 5] 2 [9; 8]) as [d|].
    + destruct Hfit as (_ & _ & Hslice & Hout).
      split; [exact Hslice|].
      split; [rewrite (Hout 1%nat)|rewrite (Hout 4%nat)];
        try reflexivity; cbn; lia.
    + destruct Hfit as [_ Hlen]. vm_compute in Hlen. discriminate.
  - destruct (write_back [1; 2; 3] 2 [9; 8]) as [d|]; [|reflexivity].
    destruct Hshort as ([Hnil|Hlen] & _); [discriminate|].
    vm_compute in Hlen. elim Hlen. reflexivity.
Defined.

Lemma loaded_skills_have_bit_id_witness :
  exists cfg,
    ex_load_config ex_config_lines = Some cfg
    /\ length (Loader.catalog (list Q) cfg marshal) = 2%nat
    /\ length (Loader.catalog (list Q) cfg personal) = 1%nat
    /\ forall ty skill, In skill (Loader.catalog (list Q) cfg ty) ->
                        Skill.bit skill = Skill.id skill.
Proof.
  assert (Hs : match ex_load_config ex_config_lines with
               | Some cfg =>
                   Nat.eqb (length (Loader.catalog (list Q) cfg marshal)) 2
                   && Nat.eqb
                        (length (Loader.catalog (list Q) cfg personal)) 1
               | None => false
               end = true) by (vm_compute; reflexivity).
  destruct (ex_load_config ex_config_lines) as [cfg|] eqn:E;
    [|discriminate Hs].
  apply andb_true_iff in Hs as [Hm Hp].
  apply Nat.eqb_eq in Hm, Hp.
  destruct (loaded_skills_have_bit_id _ _ _ _ _ _ _ _ ex_config_lines cfg E)
    as [Hbit _].
  exists cfg. split; [reflexivity|]. split; [exact Hm|].
  split; [exact Hp|exact Hbit].
Defined.

Lemma no_header_no_skills_witness :
  exists cfg,
    ex_load_config ["7;early;ignored;1"; "pick_limit=7"]%string = Some cfg
    /\ Loader.ints (list Q) cfg "pick_limit"%string = 7
    /\ forall ty, Loader.catalog (list Q) cfg ty = [].
Proof.
  assert (Hs : match ex_load_config
                       ["7;early;ignored;1"; "pick_limit=7"]%string with
               | Some cfg => Loader.ints (list Q) cfg "pick_limit"%string =? 7
               | None => false
               end = true) by (vm_compute; reflexivity).
  destruct (ex_load_config ["7;early;ignored;1"; "pick_limit=7"]%string)
    as [cfg|] eqn:E; [|discriminate Hs].
  apply Z.eqb_eq in Hs.
  exists cfg. split; [reflexivity|]. split; [exact Hs|].
  refine (no_header_no_skills _ _ _ _ _ _ _ _ _ cfg _ E).
  intros line [<-|[<-|[]]] [H|[H|H]]; cbv in H; discriminate.
Defined.

Lemma catalogs_ignore_settings_witness :
  filter (data_relevant (fun s => s)) ex_config_lines
  = ["7;early;ignored;1"%string; Loader.marshal_header;
     "0;first;text;10"%string; "3;second;text;20"%string;
     Loader.personal_header; "9;third;text;-1"%string]
  /\ exists cfg cfg',
       ex_load_config ex_config_lines = Some cfg
       /\ ex_load_config (filter (data_relevant (fun s => s))
                            ex_config_lines) = Some cfg'
       /\ forall ty, Loader.catalog (list Q) cfg' ty
                     = Loader.catalog (list Q) cfg ty.
Proof.
  split; [vm_compute; reflexivity|].
  assert (Hs : match ex_load_config ex_config_lines with
               | Some _ => true
               | None => false
               end = true) by (vm_compute; reflexivity).
  destruct (ex_load_config ex_config_lines) as [cfg|] eqn:E;
    [|discriminate Hs].
  destruct (catalogs_ignore_settings _ _ _ _ _ _ _ _ ex_config_lines cfg E)
    as (cfg' & Hload & Hsame).
  exists cfg, cfg'. split; [reflexivity|].
  split; [exact Hload|exact Hsame].
Defined.

Lemma malformed_skill_line_aborts_witness :
  ex_int "x"%string = None
  /\ ex_load_config
       ([Loader.marshal_header]
        ++ "x;name;text;10"%string :: ["pick_limit=7"%string]) = None.
Proof.
  split; [reflexivity|].
  apply (malformed_skill_line_aborts (fun s => s) ex_int ex_float (list Q)
           ex_json_loads ex_len _ _ [Loader.marshal_header]
           ["pick_limit=7"%string] Loader.marshal_header
           "x;name;text;10"%string "x"%string "name"%string "text"%string
           "10"%string []).
  - left. reflexivity.
  - left. reflexivity.
  - vm_compute. reflexivity.
  - intros [H|[H|H]]; cbv in H; discriminate.
  - reflexivity.
  - left. reflexivity.
Defined.
